(** * daily-idea-bot: trend collection, digest formatting and response parsing

    A shallow embedding of [src/scraper.py], [src/analyzer.py] and the
    collection pipeline of [src/main.py], with the properties of the
    specification proved (or refuted) against it.

    Conventions.
    - A Python [str] is the [string] of the bytes of its UTF-8 encoding.  Its
      characters (code points) are recovered from the bytes by [Py.chars];
      slices and [strip] count and test characters, not bytes.
    - [print] appends one line to [stdout], which is part of the state that
      every effectful function threads.
    - What the outside world answers (an HTTP exchange, the decoding done by
      [json.loads], the text produced by the language model, the result of
      awaiting a coroutine) is an argument of the function that asks for it.
    - Mutations made before an exception is raised are kept: the state is
      threaded through [Raise] as well as through [Return]. *)

From Stdlib Require Import ZArith QArith String List Ascii Lia.
From stdpp Require Import base option strings list gmap pretty.

Open Scope string_scope.
Open Scope list_scope.

(* ====================================================================== *)
(** * Python values, exceptions and effects *)
(* ====================================================================== *)

Module Py.

(** The exception classes that occur in the program.  [JSONDecodeError] and
    pydantic's [ValidationError] both derive from [ValueError]; every class
    derives from [Exception], written [Exception_] here.  [OtherError] stands
    for any further class, such as the transport errors of [httpx]. *)
Inductive exc_class :=
| Exception_
| TypeError
| KeyError
| AttributeError
| IndexError
| ValueError
| JSONDecodeError
| ValidationError
| OtherError (qualname : string).

#[global] Instance exc_class_eq_dec : EqDecision exc_class.
Proof. solve_decision. Defined.

(** An exception object: its class and what [str(e)] gives. *)
Record Exception := mkException { exc_type : exc_class; exc_str : string }.

#[global] Instance Exception_eq_dec : EqDecision Exception.
Proof. solve_decision. Defined.

Definition issubclass (c d : exc_class) : bool :=
  match d, c with
  | Exception_, _ => true
  | ValueError, (JSONDecodeError | ValidationError) => true
  | _, _ => bool_decide (c = d)
  end.

(** [isinstance(e, (c1, c2, ...))] *)
Definition isinstance (e : Exception) (classes : list exc_class) : bool :=
  existsb (issubclass (exc_type e)) classes.

Inductive outcome (A : Type) :=
| Return (a : A)
| Raise (e : Exception).
Arguments Return {A} a.
Arguments Raise {A} e.

(** ** Truthiness ([bool(x)], as tested by [if x], [not x] and [x or y]) *)

Class Truthy (A : Type) := truthy : A -> bool.

#[global] Instance truthy_str : Truthy string :=
  fun s => match s with EmptyString => false | String _ _ => true end.
#[global] Instance truthy_int : Truthy Z :=
  fun n => negb (n =? 0)%Z.
#[global] Instance truthy_list {A} : Truthy (list A) :=
  fun l => match l with [] => false | _ :: _ => true end.
(** [None] is falsy; any other value answers for itself. *)
#[global] Instance truthy_optional {A} `{Truthy A} : Truthy (option A) :=
  fun o => match o with None => false | Some a => truthy a end.

(** [x or y] between two values of one type *)
Definition or_ {A} `{Truthy A} (x y : A) : A := if truthy x then x else y.

(** [x or d] where [x] may be [None] and [d] is not *)
Definition or_default {A} `{Truthy A} (x : option A) (d : A) : A :=
  match x with
  | Some a => if truthy a then a else d
  | None => d
  end.

(** ** Strings and slices

    A character of a [str] is, in its UTF-8 encoding, one byte that is not a
    continuation byte and the continuation bytes that follow it.  (A [str]
    with a lone surrogate has no UTF-8 encoding and is not modelled.) *)

Definition nl : string := String (ascii_of_nat 10) EmptyString.

(** A byte [10xxxxxx] continues the character that began before it. *)
Definition is_continuation (c : ascii) : bool :=
  let n := nat_of_ascii c in
  ((128 <=? n) && (n <? 192))%nat.

Definition continues (s : string) : bool :=
  match s with
  | String c _ => is_continuation c
  | EmptyString => false
  end.

(** [list(s)]: the characters of [s], each one as a [str] of its own *)
Fixpoint chars (s : string) : list string :=
  match s with
  | EmptyString => []
  | String c s' =>
      if continues s'
      then match chars s' with
           | ch :: rest => String c ch :: rest
           | [] => [String c EmptyString]
           end
      else String c EmptyString :: chars s'
  end.

(** [s[:n]] for a literal [n >= 0]: the first [n] characters *)
Definition str_slice_to (n : nat) (s : string) : string :=
  String.concat EmptyString (firstn n (chars s)).

(** [ord(ch)] for a [str] of one character: the code point its bytes
    encode *)
Definition ord (ch : string) : N :=
  match ch with
  | EmptyString => 0%N
  | String c rest =>
      let b := N_of_ascii c in
      let first :=
        if (b <? 128)%N then b
        else if (b <? 224)%N then N.land b 31
        else if (b <? 240)%N then N.land b 15
        else N.land b 7 in
      fold_left (fun cp c' => (cp * 64 + N.land (N_of_ascii c') 63)%N)
        (list_ascii_of_string rest) first
  end.

(** [l[:n]] for an [int] [n]: a negative bound counts from the end. *)
Definition slice_to {A} (n : Z) (l : list A) : list A :=
  if (0 <=? n)%Z then firstn (Z.to_nat n) l
  else firstn (length l - Z.to_nat (- n)) l.

(** [sep.join(parts)] *)
Definition join (sep : string) (parts : list string) : string :=
  String.concat sep parts.

(** [str(n)] and [f"{n}"] for an [int] *)
Definition str_int (n : Z) : string := pretty n.

(** [s.startswith(p)] *)
Definition startswith (s p : string) : bool := String.prefix p s.

(** ** Effects: state, exceptions, [print] *)

Section Exec.
Context {S : Type}.

Definition exec (A : Type) : Type := S -> outcome A * S.

Definition ret {A} (a : A) : exec A := fun s => (Return a, s).

Definition raise {A} (e : Exception) : exec A := fun s => (Raise e, s).

Definition bind {A B} (m : exec A) (k : A -> exec B) : exec B :=
  fun s =>
    match m s with
    | (Return a, s') => k a s'
    | (Raise e, s') => (Raise e, s')
    end.

(** the value of an expression that may raise *)
Definition eval {A} (o : outcome A) : exec A := fun s => (o, s).

Definition modify (f : S -> S) : exec unit := fun s => (Return tt, f s).

(** [try: body  except (classes) as e: handler e]; an exception of another
    class passes through. *)
Definition try_except {A} (body : exec A) (classes : list exc_class)
    (handler : Exception -> exec A) : exec A :=
  fun s =>
    match body s with
    | (Return a, s') => (Return a, s')
    | (Raise e, s') =>
        if isinstance e classes then handler e s' else (Raise e, s')
    end.

(** [for x in l: body x]; [continue] is the body returning early, and an
    exception leaves the loop. *)
Fixpoint for_each {B} (l : list B) (body : B -> exec unit) : exec unit :=
  match l with
  | [] => ret tt
  | x :: l' => bind (body x) (fun _ => for_each l' body)
  end.

End Exec.

Arguments exec S A : clear implicits.

(** [[f x for x in l]]: the first element on which [f] raises ends the
    comprehension. *)
Fixpoint comprehension {S A B} (f : A -> exec S B) (l : list A)
    : exec S (list B) :=
  match l with
  | [] => ret []
  | x :: l' =>
      bind (f x) (fun y => bind (comprehension f l') (fun ys => ret (y :: ys)))
  end.

(** [d[key]] on a dict that may lack the key; [str(KeyError(k))] is [repr(k)]. *)
Definition getitem {S A} (key : string) (entry : option A) : exec S A :=
  match entry with
  | Some v => ret v
  | None => raise (mkException KeyError ("'" +:+ key +:+ "'"))
  end.

(** A state that holds the lines printed so far. *)
Class Stdout (S : Type) := write : string -> S -> S.

Definition print {S} `{Stdout S} (line : string) : exec S unit :=
  modify (write line).

(** ** Frames: local variables, [stdout], and the HTTP client's history

    [locals] are the variables a function mutates in place, [sent] counts the
    requests the client has sent: the world answers the [n]-th request by
    [client n request]. *)

Record frame (L : Type) := mkFrame {
  locals : L;
  stdout : list string;
  sent : nat
}.
Arguments mkFrame {L} _ _ _.
Arguments locals {L} _.
Arguments stdout {L} _.
Arguments sent {L} _.

#[global] Instance stdout_frame {L} : Stdout (frame L) :=
  fun line f => mkFrame (locals f) (stdout f ++ [line]) (sent f).

Definition get_locals {L} : exec (frame L) L :=
  fun f => (Return (locals f), f).

Definition modify_locals {L} (g : L -> L) : exec (frame L) unit :=
  modify (fun f => mkFrame (g (locals f)) (stdout f) (sent f)).

(** An HTTP response: [resp.status_code], [resp.text], and what
    [resp.json()] gives (it raises on a body that is not JSON). *)
Record Response (J : Type) := mkResponse {
  status_code : Z;
  text : string;
  resp_json : outcome J
}.
Arguments mkResponse {J} _ _ _.
Arguments status_code {J} _.
Arguments text {J} _.
Arguments resp_json {J} _.

(** [await client.get(...)] / [await client.post(...)]: the exchange either
    raises (timeout, connection error) or yields a response. *)
Definition send {L Q J} (client : nat -> Q -> outcome (Response J)) (req : Q)
    : exec (frame L) (Response J) :=
  fun f => (client (sent f) req, mkFrame (locals f) (stdout f) (S (sent f))).

(** ** Text helpers of the standard library *)

(** [ch.isspace()] for a [str] of one character: the whitespace of Unicode,
    which is what [str.strip()] removes. *)
Definition isspace (ch : string) : bool :=
  let cp := ord ch in
  ((9 <=? cp) && (cp <=? 13) || (28 <=? cp) && (cp <=? 32)
   || (cp =? 0x85) || (cp =? 0xA0) || (cp =? 0x1680)
   || (0x2000 <=? cp) && (cp <=? 0x200A)
   || (cp =? 0x2028) || (cp =? 0x2029) || (cp =? 0x202F)
   || (cp =? 0x205F) || (cp =? 0x3000))%N.

(** [s.strip()] *)
Definition strip (s : string) : string :=
  let drop := fix drop (l : list string) : list string :=
    match l with
    | ch :: l' => if isspace ch then drop l' else l
    | [] => []
    end in
  String.concat EmptyString (rev (drop (rev (drop (chars s))))).

(** [s.split(sep)] for a one-character separator *)
Fixpoint split (sep : ascii) (s : string) : list string :=
  match s with
  | EmptyString => [EmptyString]
  | String c s' =>
      if Ascii.eqb c sep then EmptyString :: split sep s'
      else match split sep s' with
           | h :: t => String c h :: t
           | [] => [String c EmptyString]
           end
  end.

Definition hex_digit (n : nat) : ascii :=
  nth n (list_ascii_of_string "0123456789ABCDEF") "0"%char.

(** [urllib.parse.quote(s)]: letters, digits and [_.-~/] stay, every other
    byte becomes [%XX]. *)
Definition quote_safe (c : ascii) : bool :=
  let n := nat_of_ascii c in
  ((65 <=? n) && (n <=? 90) || (97 <=? n) && (n <=? 122)
   || (48 <=? n) && (n <=? 57)
   || (n =? 95) || (n =? 46) || (n =? 45) || (n =? 126) || (n =? 47))%nat.

Fixpoint quote (s : string) : string :=
  match s with
  | EmptyString => EmptyString
  | String c s' =>
      if quote_safe c then String c (quote s')
      else
        let n := nat_of_ascii c in
        String "%"%char
          (String (hex_digit (n / 16)) (String (hex_digit (n mod 16)) (quote s')))
  end.

End Py.

Import Py.

Declare Scope py_scope.
Delimit Scope py_scope with py.
Notation "x <- m ;; k" := (bind m (fun x => k))
  (at level 100, m at next level, right associativity) : py_scope.
Notation "m ;;; k" := (bind m (fun _ => k))
  (at level 100, right associativity) : py_scope.
Open Scope py_scope.

(* ====================================================================== *)
(** * src/scraper.py *)
(* ====================================================================== *)

(** [TrendItem]: the dataclass.  [url] is declared [str], but a dataclass
    does not check what it is given: the [null] link of a post reaches it as
    [None]. *)
Record TrendItem := mkTrendItem {
  source : string;
  title : string;
  url : option string;
  score : option Z;
  description : option string
}.

(** An entry of a decoded JSON object whose value, when there is one, has
    the type [A]: the key is absent, or its value is [null], or it is a
    value. *)
Inductive field (A : Type) :=
| Absent
| Null
| Value (a : A).
Arguments Absent {A}.
Arguments Null {A}.
Arguments Value {A} a.

(** [d.get(key)] *)
Definition field_get {A} (f : field A) : option A :=
  match f with Value a => Some a | _ => None end.

(** [d.get(key, default)]: the default replaces an absent key only. *)
Definition field_get_default {A} (f : field A) (default : A) : option A :=
  match f with Absent => Some default | Null => None | Value a => Some a end.

Module BaseScraper.

(** What the scraping service answers: a link and a text, either of which
    may be absent or [null], and two counts that feed [score : int | None]
    ([None] is an absent key or [null], which [.get] does not tell
    apart). *)
Record Post := mkPost {
  tweetUrl : field string;
  content : field string;
  likesCount : option Z;
  viewsCount : option Z
}.

(** [{"data": {"result": [...]}}], each level possibly missing *)
Record SelaData := mkSelaData { result : option (list Post) }.
Record SelaJson := mkSelaJson { data : option SelaData }.

(** The POST sent to [https://api.selanetwork.io/api/rpc/scrapeUrl]; its
    timeout of 90 seconds shows as an exchange that raises. *)
Record SelaRequest := mkSelaRequest {
  authorization : string;
  req_url : string;
  scrapeType : string;
  timeoutMs : Z;
  postCount : Z;
  scrollPauseTime : Z
}.

Definition sela_client : Type := nat -> SelaRequest -> outcome (Response SelaJson).

(** [_sela_scrape(self, url, scrape_type, post_count=10, timeout_ms=60000)] *)
Definition _sela_scrape {L} (sela_api_key : option string) (client : sela_client)
    (url scrape_type : string) (post_count timeout_ms : Z)
    : exec (frame L) SelaJson :=
  if negb (truthy sela_api_key) then ret (mkSelaJson None)
  else
    resp <- send client
      {| authorization := "Bearer " +:+ default "" sela_api_key;
         req_url := url;
         scrapeType := scrape_type;
         timeoutMs := timeout_ms;
         postCount := post_count;
         scrollPauseTime := 2000 |} ;;
    (if negb (status_code resp =? 200)%Z
     then print ("[Sela API] " +:+ str_int (status_code resp) +:+ ": " +:+ text resp)
     else ret tt) ;;;
    eval (resp_json resp).

End BaseScraper.

Module TwitterScraper.
Import BaseScraper.

Definition name : string := "Twitter/X".
Definition requires_sela : bool := true.

Definition DEFAULT_QUERIES : list string :=
  ["AI agent"; "developer tools"; "tech meme"; "viral app"].

Record t := mk {
  sela_api_key : option string;
  search_queries : list string;
  post_count : Z
}.

(** [__init__(self, client, sela_api_key=None, search_queries=None,
    post_count=5)]; [env_queries] is [os.getenv("TWITTER_QUERIES", "")]. *)
Definition __init__ (sela_api_key : option string)
    (search_queries : option (list string)) (post_count : Z)
    (env_queries : string) : t :=
  let search_queries :=
    match search_queries with
    | None =>
        if truthy env_queries
        then Some (filter (fun q => truthy q = true)
                     (map strip (split ","%char env_queries)))
        else None
    | Some _ => search_queries
    end in
  {| sela_api_key := sela_api_key;
     search_queries := or_default search_queries DEFAULT_QUERIES;
     post_count := post_count |}.

(** The body of [for item in posts[:self.post_count]]: one post is mapped
    and appended to [all_items], the function's local list. *)
Definition append_post (query : string) (item : Post)
    : exec (frame (list TrendItem)) unit :=
  let tweet_url := field_get_default (tweetUrl item) "" in
  let tweet_url :=
    match tweet_url with
    | Some link =>
        if truthy link && negb (startswith link "http")
        then Some ("https://x.com" +:+ link)
        else Some link
    | None => None
    end in
  title <- match field_get_default (content item) "" with
           | Some s => ret (str_slice_to 100 s)
           | None =>
               raise (mkException TypeError
                        "'NoneType' object is not subscriptable")
           end ;;
  modify_locals (fun all_items =>
    all_items ++
    [ {| source := name +:+ " (" +:+ query +:+ ")";
         title := title;
         url := tweet_url;
         score := or_ (likesCount item) (viewsCount item);
         description := field_get (content item) |} ]).

(** The body of [for query in self.search_queries], with its [try]. *)
Definition search (self : t) (client : sela_client) (query : string)
    : exec (frame (list TrendItem)) unit :=
  try_except
    (let search_url := "https://x.com/search?q=" +:+ quote query +:+ "&f=top" in
     data <- _sela_scrape (sela_api_key self) client
               search_url "TWITTER_PROFILE" (post_count self) 60000 ;;
     let posts :=
       default [] (result (default (mkSelaData None) (BaseScraper.data data))) in
     for_each (slice_to (post_count self) posts) (append_post query))
    [Exception_]
    (fun e =>
       print ("[" +:+ name +:+ "] Error searching '" +:+ query +:+ "': "
              +:+ exc_str e)).

(** [fetch(self)]; it runs on a frame whose local is [all_items]. *)
Definition fetch (self : t) (client : sela_client)
    : exec (frame (list TrendItem)) (list TrendItem) :=
  if negb (truthy (sela_api_key self)) then ret []
  else
    modify_locals (fun _ => []) ;;;
    for_each (search_queries self) (search self client) ;;;
    get_locals.

End TwitterScraper.

Module GitHubScraper.

Definition name : string := "GitHub".
Definition requires_sela : bool := false.

Record t := mk { sela_api_key : option string }.

(** One element of [items], typed as the repository-search API documents
    it: [language] and [description] may be [null].  [None] is an absent
    key: [repo[key]] then raises [KeyError], [repo.get(key)] gives [None]. *)
Record Repo := mkRepo {
  full_name : option string;
  language : field string;
  html_url : option string;
  stargazers_count : option Z;
  repo_description : option string
}.

Record SearchJson := mkSearchJson { items : option (list Repo) }.

(** The GET sent to [https://api.github.com/search/repositories] *)
Record SearchRequest := mkSearchRequest {
  accept : string;
  q : string;
  sort : string;
  order : string;
  per_page : Z
}.

Definition github_client : Type :=
  nat -> SearchRequest -> outcome (Response SearchJson).

(** [repo['language']]: an absent key raises, [null] is [None]. *)
Definition getitem_nullable {S A} (key : string) (f : field A)
    : exec S (option A) :=
  match f with
  | Absent => raise (mkException KeyError ("'" +:+ key +:+ "'"))
  | Null => ret None
  | Value a => ret (Some a)
  end.

(** The element expression of the list comprehension of [fetch]. *)
Definition to_trend_item {S} (repo : Repo) : exec S TrendItem :=
  full_name <- getitem "full_name" (full_name repo) ;;
  language <- getitem_nullable "language" (language repo) ;;
  html_url <- getitem "html_url" (html_url repo) ;;
  stargazers_count <- getitem "stargazers_count" (stargazers_count repo) ;;
  ret {| source := name;
         title := full_name +:+ " - " +:+ or_default language "Unknown";
         url := Some html_url;
         score := Some stargazers_count;
         description := repo_description repo |}.

(** [fetch(self)]; [yesterday] is
    [(datetime.now() - timedelta(days=1)).strftime("%Y-%m-%d")]. *)
Definition fetch {L} (self : t) (yesterday : string) (client : github_client)
    : exec (frame L) (list TrendItem) :=
  try_except
    (resp <- send client
       {| accept := "application/vnd.github.v3+json";
          q := "created:>" +:+ yesterday;
          sort := "stars";
          order := "desc";
          per_page := 10 |} ;;
     data <- eval (resp_json resp) ;;
     comprehension to_trend_item (slice_to 10 (default [] (items data))))
    [Exception_]
    (fun e => print ("[" +:+ name +:+ "] Error: " +:+ exc_str e) ;;; ret []).

End GitHubScraper.

(** ** The registry *)

Inductive scraper_class :=
| TwitterScraper_
| GitHubScraper_.

#[global] Instance scraper_class_eq_dec : EqDecision scraper_class.
Proof. solve_decision. Defined.

(** The class attributes [name] and [requires_sela] *)
Definition class_name (cls : scraper_class) : string :=
  match cls with
  | TwitterScraper_ => TwitterScraper.name
  | GitHubScraper_ => GitHubScraper.name
  end.

Definition class_requires_sela (cls : scraper_class) : bool :=
  match cls with
  | TwitterScraper_ => TwitterScraper.requires_sela
  | GitHubScraper_ => GitHubScraper.requires_sela
  end.

Definition AVAILABLE_SCRAPERS : gmap string scraper_class :=
  {[ "twitter" := TwitterScraper_; "github" := GitHubScraper_ ]}.

Definition DEFAULT_SCRAPERS : list string := ["twitter"; "github"].

(** A scraper object *)
Inductive Scraper :=
| Twitter (self : TwitterScraper.t)
| GitHub (self : GitHubScraper.t).

Definition class_of (s : Scraper) : scraper_class :=
  match s with
  | Twitter _ => TwitterScraper_
  | GitHub _ => GitHubScraper_
  end.

(** [scraper.name] *)
Definition name (s : Scraper) : string := class_name (class_of s).

Definition scraper_key (s : Scraper) : option string :=
  match s with
  | Twitter self => TwitterScraper.sela_api_key self
  | GitHub self => GitHubScraper.sela_api_key self
  end.

(** One entry of [scraper_configs]: the keyword arguments passed on to the
    constructor by [**config].  The two keywords a constructor declares
    besides [client] and [sela_api_key] are typed; [kw_other] lists every
    other key of the dict. *)
Record kwargs := mkKwargs {
  kw_search_queries : option (option (list string));
  kw_post_count : option Z;
  kw_other : list string
}.

Definition no_kwargs : kwargs := mkKwargs None None [].

Definition unexpected_keyword {A} (func key : string) : outcome A :=
  Raise (mkException TypeError
    (func +:+ "() got an unexpected keyword argument '" +:+ key +:+ "'")).

(** [scraper_class(client=self.client, sela_api_key=self.sela_api_key,
    **config)]: a keyword the constructor does not declare is a [TypeError].
    [GitHubScraper] inherits [BaseScraper.__init__(self, client,
    sela_api_key=None)]. *)
Definition construct (cls : scraper_class) (sela_api_key : option string)
    (config : kwargs) (env_queries : string) : outcome Scraper :=
  match cls with
  | TwitterScraper_ =>
      match kw_other config with
      | key :: _ => unexpected_keyword "TwitterScraper.__init__" key
      | [] =>
          Return (Twitter (TwitterScraper.__init__ sela_api_key
                             (default None (kw_search_queries config))
                             (default 5%Z (kw_post_count config))
                             env_queries))
      end
  | GitHubScraper_ =>
      match kw_search_queries config, kw_post_count config, kw_other config with
      | None, None, [] => Return (GitHub (GitHubScraper.mk sela_api_key))
      | Some _, _, _ => unexpected_keyword "BaseScraper.__init__" "search_queries"
      | None, Some _, _ => unexpected_keyword "BaseScraper.__init__" "post_count"
      | None, None, key :: _ => unexpected_keyword "BaseScraper.__init__" key
      end
  end.

(** ** The orchestrator *)

Module TrendScraper.

Record t := mk {
  sela_api_key : option string;
  enabled_scrapers : list string;
  scraper_configs : gmap string kwargs;
  _scrapers : list Scraper
}.

Definition append_scraper (scraper : Scraper) (self : t) : t :=
  {| sela_api_key := sela_api_key self;
     enabled_scrapers := enabled_scrapers self;
     scraper_configs := scraper_configs self;
     _scrapers := _scrapers self ++ [scraper] |}.

(** The body of [for name in self.enabled_scrapers]; the frame's local is
    [self]. *)
Definition init_scraper (env_queries : string) (name : string)
    : exec (frame t) unit :=
  self <- get_locals ;;
  match AVAILABLE_SCRAPERS !! name with
  | None => print ("Warning: Unknown scraper '" +:+ name +:+ "', skipping")
  | Some scraper_class =>
      if class_requires_sela scraper_class && negb (truthy (sela_api_key self))
      then print ("Warning: '" +:+ name +:+ "' requires Sela API key, skipping")
      else
        let config := default no_kwargs (scraper_configs self !! name) in
        scraper <- eval (construct scraper_class (sela_api_key self)
                           config env_queries) ;;
        modify_locals (append_scraper scraper)
  end.

Definition _init_scrapers (env_queries : string) : exec (frame t) unit :=
  self <- get_locals ;;
  for_each (enabled_scrapers self) (init_scraper env_queries).

(** [__init__(self, sela_api_key=None, enabled_scrapers=None,
    scraper_configs=None)] *)
Definition __init__ (sela_api_key : option string)
    (enabled_scrapers : option (list string))
    (scraper_configs : option (gmap string kwargs))
    (env_queries : string) : exec (frame t) unit :=
  modify_locals (fun _ =>
    {| sela_api_key := sela_api_key;
       enabled_scrapers := or_default enabled_scrapers DEFAULT_SCRAPERS;
       scraper_configs := default ∅ scraper_configs;
       _scrapers := [] |}) ;;;
  _init_scrapers env_queries.

(** What awaiting one [fetch()] coroutine under
    [asyncio.gather(..., return_exceptions=True)] leaves in [results]: the
    list it returned or the exception it raised.  Cancellation is not
    modelled. *)
Inductive task_result :=
| Returned (trends : list TrendItem)
| Raised (e : Exception).

(** The body of [for i, result in enumerate(results)]; the local is
    [all_trends]. *)
Definition collect (self : t) (entry : nat * task_result)
    : exec (frame (list TrendItem)) unit :=
  let (i, result) := entry in
  match result with
  | Returned trends => modify_locals (fun all_trends => all_trends ++ trends)
  | Raised e =>
      match _scrapers self !! i with
      | Some scraper => print ("Error in " +:+ name scraper +:+ ": " +:+ exc_str e)
      | None => raise (mkException IndexError "list index out of range")
      end
  end.

(** [get_all_trends(self)]; [await_fetch i scraper] is the result of the
    [i]-th task, the [fetch()] of [scraper]. *)
Definition get_all_trends (self : t)
    (await_fetch : nat -> Scraper -> task_result)
    : exec (frame (list TrendItem)) (list TrendItem) :=
  if negb (truthy (_scrapers self))
  then print "Warning: No scrapers enabled" ;;; ret []
  else
    let tasks := _scrapers self in
    let results := imap await_fetch tasks in
    modify_locals (fun _ => []) ;;;
    for_each (imap pair results) (collect self) ;;;
    get_locals.

(** [list_enabled_scrapers(self)] *)
Definition list_enabled_scrapers (self : t) : list string :=
  map name (_scrapers self).

End TrendScraper.

(* ====================================================================== *)
(** * src/analyzer.py *)
(* ====================================================================== *)

(** ** Insertion-ordered dicts with [str] keys, as the list of their items *)

Definition dict (V : Type) : Type := list (string * V).

(** [key in d] *)
Definition dict_contains {V} (key : string) (d : dict V) : bool :=
  existsb (fun kv => String.eqb (fst kv) key) d.

(** [d.get(key)] *)
Fixpoint dict_get {V} (key : string) (d : dict V) : option V :=
  match d with
  | [] => None
  | (k, v) :: d' => if String.eqb k key then Some v else dict_get key d'
  end.

(** [d[key] = v]: a new key goes last, a known key keeps its place. *)
Fixpoint dict_setitem {V} (key : string) (v : V) (d : dict V) : dict V :=
  match d with
  | [] => [(key, v)]
  | (k, x) :: d' =>
      if String.eqb k key then (k, v) :: d' else (k, x) :: dict_setitem key v d'
  end.

(** [d[key]] mutated in place by [f], for a key that is in [d] *)
Fixpoint dict_update {V} (key : string) (f : V -> V) (d : dict V) : dict V :=
  match d with
  | [] => []
  | (k, x) :: d' =>
      if String.eqb k key then (k, f x) :: d' else (k, x) :: dict_update key f d'
  end.

(** ** Decoded JSON: what [json.loads] returns *)

#[warnings="-register-all"]
Inductive json :=
| JNull
| JBool (b : bool)
| JInt (n : Z)
| JFloat (binary64 : Z)
| JStr (s : string)
| JList (l : list json)
| JDict (d : list (string * json)).

(** [type(x).__name__] *)
Definition type_name (x : json) : string :=
  match x with
  | JNull => "NoneType"
  | JBool _ => "bool"
  | JInt _ => "int"
  | JFloat _ => "float"
  | JStr _ => "str"
  | JList _ => "list"
  | JDict _ => "dict"
  end.

Module IdeaSuggestion.
Record t := mk {
  title : string;
  description : string;
  why_now : string;
  difficulty : string;
  tech_stack : list string;
  first_step : string
}.
End IdeaSuggestion.

Module AnalysisResult.
Record t := mk {
  trend_summary : string;
  ideas : list IdeaSuggestion.t
}.
End AnalysisResult.

(** ** pydantic (version 2, as [google-genai] requires), default settings

    Validation of a [BaseModel] from keyword arguments: a field without a
    default is required, a [str] field takes a [str] only, a [list[...]] field
    takes a list and validates every element, a model field takes a dict,
    keys that name no field are ignored, and all errors are collected. *)
Module pydantic.

Inductive loc_item :=
| Key (k : string)
| Index (i : nat).

Record ErrorDetails := mkError { err_type : string; loc : list loc_item }.

Definition validated (A : Type) : Type := list ErrorDetails + A.

Definition at_loc {A} (here : loc_item) (v : validated A) : validated A :=
  match v with
  | inl errors =>
      inl (map (fun e => mkError (err_type e) (here :: loc e)) errors)
  | inr a => inr a
  end.

(** Two fields of one model: the errors of both are reported. *)
Definition both {A B} (a : validated A) (b : validated B) : validated (A * B) :=
  match a, b with
  | inr x, inr y => inr (x, y)
  | inl ea, inr _ => inl ea
  | inr _, inl eb => inl eb
  | inl ea, inl eb => inl (ea ++ eb)
  end.

Definition fmap_validated {A B} (f : A -> B) (v : validated A) : validated B :=
  match v with
  | inl errors => inl errors
  | inr a => inr (f a)
  end.

Fixpoint all_of {A} (vs : list (validated A)) : validated (list A) :=
  match vs with
  | [] => inr []
  | v :: vs' => fmap_validated (fun p => fst p :: snd p) (both v (all_of vs'))
  end.

Definition str_schema (input : json) : validated string :=
  match input with
  | JStr s => inr s
  | _ => inl [mkError "string_type" []]
  end.

Definition list_schema {A} (item : json -> validated A) (input : json)
    : validated (list A) :=
  match input with
  | JList l => all_of (imap (fun i x => at_loc (Index i) (item x)) l)
  | _ => inl [mkError "list_type" []]
  end.

Definition required {A} (key : string) (schema : json -> validated A)
    (data : dict json) : validated A :=
  match dict_get key data with
  | Some input => at_loc (Key key) (schema input)
  | None => inl [mkError "missing" [Key key]]
  end.

Definition model_schema {A} (fields : dict json -> validated A) (input : json)
    : validated A :=
  match input with
  | JDict data => fields data
  | _ => inl [mkError "model_type" []]
  end.

Definition IdeaSuggestion_fields (data : dict json) : validated IdeaSuggestion.t :=
  fmap_validated
    (fun '(title, (description, (why_now, (difficulty, (tech_stack, first_step))))) =>
       IdeaSuggestion.mk title description why_now difficulty tech_stack first_step)
    (both (required "title" str_schema data)
    (both (required "description" str_schema data)
    (both (required "why_now" str_schema data)
    (both (required "difficulty" str_schema data)
    (both (required "tech_stack" (list_schema str_schema) data)
          (required "first_step" str_schema data)))))).

Definition AnalysisResult_fields (data : dict json) : validated AnalysisResult.t :=
  fmap_validated
    (fun '(trend_summary, ideas) => AnalysisResult.mk trend_summary ideas)
    (both (required "trend_summary" str_schema data)
          (required "ideas"
             (list_schema (model_schema IdeaSuggestion_fields)) data)).

(** [str(e)] of a [ValidationError] opens with this line; the entries that
    follow it, one per error, are not rendered here. *)
Definition error_count_line (title : string) (errors : list ErrorDetails)
    : string :=
  pretty (length errors) +:+ " validation error"
  +:+ (if (length errors =? 1)%nat then "" else "s") +:+ " for " +:+ title.

End pydantic.

(** [AnalysisResult] called with the unpacked [data] as keyword arguments:
    unpacking needs a mapping, then pydantic validates the arguments. *)
Definition AnalysisResult_of (data : json) : outcome AnalysisResult.t :=
  match data with
  | JDict kw =>
      match pydantic.AnalysisResult_fields kw with
      | inr result => Return result
      | inl errors =>
          Raise (mkException ValidationError
                   (pydantic.error_count_line "AnalysisResult" errors))
      end
  | _ =>
      Raise (mkException TypeError
               ("src.analyzer.AnalysisResult() argument after ** must be a mapping, not "
                +:+ type_name data))
  end.

Definition dq : string := String (ascii_of_nat 34) EmptyString.

(** [SYSTEM_PROMPT_TEMPLATE.format(topic=topic)] *)
Definition SYSTEM_PROMPT_TEMPLATE (topic : string) : string :=
  join nl
    [ "You are a creative idea generator for developers.";
      "Your job is to analyze current tech trends and suggest creative, practical project ideas";
      "related to the topic: " +:+ dq +:+ topic +:+ dq +:+ ".";
      EmptyString;
      "Guidelines:";
      "- All ideas MUST be related to " +:+ dq +:+ topic +:+ dq;
      "- Ideas should be buildable in 1 day (MVP)";
      "- Be specific and actionable";
      "- Consider what's trending NOW and why it matters";
      "- Avoid generic or overdone ideas - be creative!";
      "- Each idea should leverage current trends in a unique way";
      EmptyString;
      "Output in Korean (한국어로 답변해주세요).";
      EmptyString;
      "You MUST respond with valid JSON in this exact format:";
      "{";
      "  " +:+ dq +:+ "trend_summary" +:+ dq +:+ ": " +:+ dq +:+ "트렌드 요약 (2-3문장)" +:+ dq +:+ ",";
      "  " +:+ dq +:+ "ideas" +:+ dq +:+ ": [";
      "    {";
      "      " +:+ dq +:+ "title" +:+ dq +:+ ": " +:+ dq +:+ "아이디어 제목" +:+ dq +:+ ",";
      "      " +:+ dq +:+ "description" +:+ dq +:+ ": " +:+ dq +:+ "아이디어 설명" +:+ dq +:+ ",";
      "      " +:+ dq +:+ "why_now" +:+ dq +:+ ": " +:+ dq +:+ "왜 지금인지" +:+ dq +:+ ",";
      "      " +:+ dq +:+ "difficulty" +:+ dq +:+ ": " +:+ dq +:+ "easy|medium|hard" +:+ dq +:+ ",";
      "      " +:+ dq +:+ "tech_stack" +:+ dq +:+ ": [" +:+ dq +:+ "기술1" +:+ dq +:+ ", " +:+ dq +:+ "기술2" +:+ dq +:+ "],";
      "      " +:+ dq +:+ "first_step" +:+ dq +:+ ": " +:+ dq +:+ "첫 번째 단계" +:+ dq;
      "    }";
      "  ]";
      "}" ].

(** [USER_PROMPT_TEMPLATE.format(topic=topic, trends=trends)] *)
Definition USER_PROMPT_TEMPLATE (topic trends : string) : string :=
  join nl
    [ "Based on today's tech trends, suggest 3 project ideas";
      "related to " +:+ dq +:+ topic +:+ dq +:+ ".";
      EmptyString;
      "## Today's Trends";
      EmptyString;
      trends;
      EmptyString;
      "---";
      EmptyString;
      "Analyze these trends and suggest 3 creative " +:+ dq +:+ topic +:+ dq +:+ " ideas that:";
      "1. Are inspired by or leverage these trends";
      "2. Can be built as an MVP in one day";
      "3. Solve a real problem";
      "4. Are NOT just clones of existing tools";
      EmptyString;
      "Respond with valid JSON only. No markdown, no explanation outside the JSON." ].

(** The request of [client.aio.models.generate_content] *)
Record GenerateRequest := mkGenerateRequest {
  model : string;
  contents : string;
  temperature : Q;
  response_mime_type : string
}.

(** What the service does to the outside, in order: lines printed, records
    logged at level INFO, calls of the language model, and the messages
    handed to the bot ([IdeaBot.send_error], [IdeaBot.send_ideas]). *)
Inductive event :=
| Printed (line : string)
| Info (message : string)
| GenerateContent (request : GenerateRequest)
| SendError (chat_id error : string)
| SendIdeas (chat_id : string) (result : AnalysisResult.t).

Definition emit (e : event) : exec (list event) unit :=
  modify (fun events => events ++ [e]).

#[global] Instance stdout_events : Stdout (list event) :=
  fun line events => events ++ [Printed line].

Module TrendAnalyzer.

Record t := mk { topic : string }.

(** The body of [for trend in trends] in [_format_trends] *)
Definition group (grouped : dict (list TrendItem)) (trend : TrendItem)
    : dict (list TrendItem) :=
  let grouped :=
    if negb (dict_contains (source trend) grouped)
    then dict_setitem (source trend) [] grouped
    else grouped in
  dict_update (source trend) (fun items => items ++ [trend]) grouped.

(** [f"- {item.title}{score_str}{desc_str}"] *)
Definition format_item (item : TrendItem) : string :=
  let score_str :=
    match score item with
    | Some n => if truthy n then " (score: " +:+ str_int n +:+ ")" else ""
    | None => ""
    end in
  let desc_str :=
    match description item with
    | Some d =>
        if truthy d then nl +:+ "   " +:+ str_slice_to 100 d +:+ "..." else ""
    | None => ""
    end in
  "- " +:+ title item +:+ score_str +:+ desc_str.

(** The body of [for source, items in grouped.items()] *)
Definition format_group (lines : list string)
    (entry : string * list TrendItem) : list string :=
  let (source, items) := entry in
  let lines := lines ++ ["### " +:+ source] in
  let lines :=
    fold_left (fun lines item => lines ++ [format_item item])
      (slice_to 10 items) lines in
  lines ++ [""].

Definition format_lines (trends : list TrendItem) : list string :=
  let grouped := fold_left group trends [] in
  fold_left format_group grouped [].

(** [_format_trends(self, trends)] *)
Definition _format_trends (self : t) (trends : list TrendItem) : string :=
  join nl (format_lines trends).

(** The [try] of [analyze_and_generate]; [loaded] is what
    [json.loads(response.text)] does. *)
Definition parse_response {S} (response_text : string) (loaded : outcome json)
    : exec S AnalysisResult.t :=
  try_except
    (data <- eval loaded ;;
     eval (AnalysisResult_of data))
    [JSONDecodeError; TypeError]
    (fun e =>
       raise (mkException ValueError
                ("Failed to parse Gemini response: " +:+ exc_str e +:+ nl
                 +:+ "Response: " +:+ response_text))).

(** [analyze_and_generate(self, trends)]; [generate_content] answers the
    request with the response text or raises, [json_loads] is the decoder
    of the standard library. *)
Definition analyze_and_generate (self : t) (trends : list TrendItem)
    (generate_content : GenerateRequest -> outcome string)
    (json_loads : string -> outcome json)
    : exec (list event) AnalysisResult.t :=
  let trends_text := _format_trends self trends in
  let system_prompt := SYSTEM_PROMPT_TEMPLATE (topic self) in
  let user_prompt := USER_PROMPT_TEMPLATE (topic self) trends_text in
  let prompt := system_prompt +:+ nl +:+ nl +:+ user_prompt in
  let request :=
    {| model := "gemini-2.0-flash";
       contents := prompt;
       temperature := (8 # 10)%Q;
       response_mime_type := "application/json" |} in
  emit (GenerateContent request) ;;;
  response_text <- eval (generate_content request) ;;
  parse_response response_text (json_loads response_text).

End TrendAnalyzer.

(* ====================================================================== *)
(** * src/main.py *)
(* ====================================================================== *)

Module DailyIdeaService.

Record t := mk {
  chat_id : string;
  scraper : TrendScraper.t;
  analyzer : TrendAnalyzer.t
}.

(** The world the service runs in: the result of every [fetch()] task, the
    language model, the JSON decoder, and whether handing a message to the
    bot raises. *)
Record world := mkWorld {
  await_fetch : nat -> Scraper -> TrendScraper.task_result;
  generate_content : GenerateRequest -> outcome string;
  json_loads : string -> outcome json;
  deliver : event -> outcome unit
}.

(** [await self.scraper.get_all_trends()]: what the scraper prints goes to
    the service's trace. *)
Definition await_scraper {A} (m : exec (frame (list TrendItem)) A)
    : exec (list event) A :=
  fun events =>
    let (o, f) := m (mkFrame [] [] 0) in
    (o, events ++ map Printed (stdout f)).

(** [await self.bot.send_error(...)] / [await self.bot.send_ideas(...)] *)
Definition bot_send (w : world) (message : event) : exec (list event) unit :=
  emit message ;;; eval (deliver w message).

(** The message of the early return, "could not collect trends" *)
Definition NOTHING_COLLECTED : string := "트렌드를 수집하지 못했습니다.".

(** [_generate_and_send_ideas(self, chat_id)] *)
Definition _generate_and_send_ideas (self : t) (w : world) (chat_id : string)
    : exec (list event) unit :=
  emit (Info "Starting trend collection...") ;;;
  trends <- await_scraper
              (TrendScraper.get_all_trends (scraper self) (await_fetch w)) ;;
  emit (Info ("Collected " +:+ pretty (length trends) +:+ " trend items")) ;;;
  if negb (truthy trends)
  then bot_send w (SendError chat_id NOTHING_COLLECTED)
  else
    emit (Info "Analyzing trends and generating ideas...") ;;;
    result <- TrendAnalyzer.analyze_and_generate (analyzer self) trends
                (generate_content w) (json_loads w) ;;
    bot_send w (SendIdeas chat_id result) ;;;
    emit (Info "Ideas sent successfully").

End DailyIdeaService.

(* ====================================================================== *)
(** * The sources at work: [scraper.fetch()] for each class *)
(* ====================================================================== *)

Module Tasks.

(** What one [fetch()] task sees of the network: the scraping service, the
    repository search, and the date of the day before. *)
Record net := mkNet {
  sela : BaseScraper.sela_client;
  github : GitHubScraper.github_client;
  yesterday : string
}.

(** [scraper.fetch()], dispatched on the class of [scraper] *)
Definition fetch (scraper : Scraper) (world : net)
    : exec (frame (list TrendItem)) (list TrendItem) :=
  match scraper with
  | Twitter self => TwitterScraper.fetch self (sela world)
  | GitHub self => GitHubScraper.fetch self (yesterday world) (github world)
  end.

(** The [i]-th task of [asyncio.gather]: the [fetch()] of the [i]-th
    scraper, run to its end against what the network answers to it.  It
    leaves its result, and the lines it printed on the way. *)
Definition run_task (worlds : nat -> net) (i : nat) (scraper : Scraper)
    : TrendScraper.task_result * list string :=
  let (o, f) := fetch scraper (worlds i) (mkFrame [] [] 0) in
  (match o with
   | Return trends => TrendScraper.Returned trends
   | Raise e => TrendScraper.Raised e
   end,
   stdout f).

(** The tasks take turns on one thread, and all print to the same [stdout]:
    what is printed while they are awaited is a merge of what each of them
    prints, the lines of one task in their order. *)
Inductive merge : list (list string) -> list string -> Prop :=
| merge_done (tasks : list (list string)) :
    Forall (fun lines => lines = []) tasks -> merge tasks []
| merge_line (before : list (list string)) (line : string)
    (lines : list string) (after : list (list string))
    (printed : list string) :
    merge (before ++ lines :: after) printed ->
    merge (before ++ (line :: lines) :: after) (line :: printed).

(** [get_all_trends(self)] with its tasks run against the network: the
    tasks run, and print [printed], while [asyncio.gather] is awaited. *)
Definition get_all_trends (self : TrendScraper.t) (worlds : nat -> net)
    (printed : list string)
    : exec (frame (list TrendItem)) (list TrendItem) :=
  if negb (truthy (TrendScraper._scrapers self))
  then print "Warning: No scrapers enabled" ;;; ret []
  else
    let tasks := TrendScraper._scrapers self in
    for_each printed print ;;;
    let results := imap (fun i scraper => fst (run_task worlds i scraper)) tasks in
    modify_locals (fun _ => []) ;;;
    for_each (imap pair results) (TrendScraper.collect self) ;;;
    get_locals.

End Tasks.

(* ====================================================================== *)
(** * src/bot.py: the messages *)
(* ====================================================================== *)

Module IdeaBot.








End IdeaBot.

(* ====================================================================== *)
(** * src/main.py: the callers of a round *)
(* ====================================================================== *)

Module Handlers.
Import DailyIdeaService.

(** What the callers of a round add to what the round does: records logged
    at level ERROR, and the message a chat is answered with directly. *)
Inductive entry :=
| Of (e : event)
| Error (message : string)
| Reply (chat_id text : string).

(** A step of the service, seen from its caller *)
Definition lift {A} (m : exec (list event) A) : exec (list entry) A :=
  fun entries =>
    let (o, events) := m [] in
    (o, entries ++ map Of events).

Definition log_error (message : string) : exec (list entry) unit :=
  modify (fun entries => entries ++ [Error message]).

(** [_scheduled_job(self)]; [now] is [str(datetime.now())]. *)
Definition _scheduled_job (self : DailyIdeaService.t) (w : world) (now : string)
    : exec (list entry) unit :=
  lift (emit (Info ("Running scheduled job at " +:+ now))) ;;;
  try_except
    (lift (_generate_and_send_ideas self w (chat_id self)))
    [Exception_]
    (fun e =>
       log_error ("Scheduled job failed: " +:+ exc_str e) ;;;
       lift (bot_send w (SendError (chat_id self)
                           ("스케줄 작업 실패: " +:+ exc_str e)))).

(** [handle_idea(update, context)], the handler of [/idea] that
    [_setup_idea_handler] installs; [effective_chat] is the id of
    [update.effective_chat], if there is one, and [reply] tells whether
    answering that chat raises. *)
Definition handle_idea (self : DailyIdeaService.t) (w : world)
    (reply : string -> string -> outcome unit) (effective_chat : option string)
    : exec (list entry) unit :=
  match effective_chat with
  | None => ret tt
  | Some chat =>
      let waiting := "🔍 트렌드 수집 중... 잠시만 기다려주세요." in
      modify (fun entries => entries ++ [Reply chat waiting]) ;;;
      eval (reply chat waiting) ;;;
      try_except
        (lift (_generate_and_send_ideas self w chat))
        [Exception_]
        (fun e =>
           log_error ("Error generating ideas: " +:+ exc_str e) ;;;
           lift (bot_send w (SendError chat (exc_str e))))
  end.

End Handlers.

Module Bootstrap.

(** The environment variables [main] reads; [None] is a variable that is
    not set. *)
Record environ := mkEnviron {
  TELEGRAM_BOT_TOKEN : option string;
  TELEGRAM_CHAT_ID : option string;
  GEMINI_API_KEY : option string;
  SELA_API_KEY : option string;
  DAILY_SCHEDULE_TIME : option string;
  IDEA_TOPIC : option string;
  ENABLED_SCRAPERS : option string;
  TWITTER_QUERIES : option string
}.

(** The comma-separated list of [ENABLED_SCRAPERS], as [main] reads it *)
Definition enabled_scrapers_of (enabled_scrapers_str : string)
    : option (list string) :=
  if truthy enabled_scrapers_str
  then Some (filter (fun s => truthy s = true)
               (map strip (split ","%char enabled_scrapers_str)))
  else None.

(** What [main] comes to before it starts the event loop: [sys.exit(1)]
    after an error record, or the service and the time of its schedule. *)
Inductive started :=
| Exit (logged_error : string)
| Service (service : DailyIdeaService.t) (schedule_time : string)
    (printed : list string).

(** [main()], up to the construction of the service: the scraper of the
    service is built by [TrendScraper.__init__]. *)
Definition main (env : environ) : outcome started :=
  let schedule_time := default "09:00" (DAILY_SCHEDULE_TIME env) in
  let idea_topic := default "AI agent" (IDEA_TOPIC env) in
  let enabled_scrapers :=
    enabled_scrapers_of (default "" (ENABLED_SCRAPERS env)) in
  if negb (truthy (TELEGRAM_BOT_TOKEN env))
  then Return (Exit "TELEGRAM_BOT_TOKEN is required")
  else if negb (truthy (TELEGRAM_CHAT_ID env))
  then Return (Exit "TELEGRAM_CHAT_ID is required")
  else if negb (truthy (GEMINI_API_KEY env))
  then Return (Exit "GEMINI_API_KEY is required")
  else
    match TrendScraper.__init__ (SELA_API_KEY env) enabled_scrapers None
            (default "" (TWITTER_QUERIES env))
            (mkFrame (TrendScraper.mk None [] ∅ []) [] 0) with
    | (Return _, f) =>
        Return (Service
                  {| DailyIdeaService.chat_id := default "" (TELEGRAM_CHAT_ID env);
                     DailyIdeaService.scraper := locals f;
                     DailyIdeaService.analyzer := TrendAnalyzer.mk idea_topic |}
                  schedule_time (stdout f))
    | (Raise e, _) => Raise e
    end.

End Bootstrap.

(* ====================================================================== *)
(** * The specification's own words

    Definitions that follow the text of the specification; the theorems
    below compare the code with them. *)
(* ====================================================================== *)

Module TextSpec.

(** A text read on from inside a character: the rest of that character and
    [n] characters more. *)
Fixpoint and_characters (n : nat) (s : string) : string :=
  match s with
  | EmptyString => EmptyString
  | String c s' =>
      if is_continuation c then String c (and_characters n s')
      else match n with
           | 0 => EmptyString
           | S n' => String c (and_characters n' s')
           end
  end.

(** The first [n] characters of a text *)
Definition first_characters (n : nat) (s : string) : string :=
  match n, s with
  | S n', String c s' => String c (and_characters n' s')
  | _, _ => EmptyString
  end.

(** The number of characters of a text: one begins at its first byte, and
    one at every later byte that is not a continuation byte. *)
Fixpoint later_characters (s : string) : nat :=
  match s with
  | EmptyString => 0
  | String c s' =>
      (if is_continuation c then 0 else 1) + later_characters s'
  end.

Definition characters (s : string) : nat :=
  match s with
  | EmptyString => 0
  | String _ s' => S (later_characters s')
  end.

(** Characters that are all whitespace *)
Definition whitespace (l : list string) : Prop :=
  Forall (fun ch => isspace ch = true) l.

(** Characters without the whitespace they start with *)
Fixpoint lstrip_chars (l : list string) : list string :=
  match l with
  | ch :: l' => if isspace ch then lstrip_chars l' else l
  | [] => []
  end.

(** Characters that do not start with whitespace *)
Definition starts_clean (l : list string) : Prop :=
  match l with
  | ch :: _ => isspace ch = false
  | [] => True
  end.

(** A text that holds nothing but whitespace; the empty text is one. *)
Definition blank (s : string) : bool := forallb isspace (chars s).

(** [core] is what is left of [s] without the whitespace at its two ends:
    the characters of [s] are whitespace, then the characters [core] is made
    of, which neither start nor end with whitespace, then whitespace. *)
Definition core_of (s core : string) : Prop :=
  exists lead mid trail,
    chars s = lead ++ mid ++ trail
    /\ core = String.concat EmptyString mid
    /\ whitespace lead /\ whitespace trail
    /\ starts_clean mid /\ starts_clean (rev mid).

(** [parts] are the pieces of [s] between its commas. *)
Definition comma_free (s : string) : Prop :=
  ~ In ","%char (list_ascii_of_string s).

Definition pieces_of (s : string) (parts : list string) : Prop :=
  String.concat "," parts = s /\ Forall comma_free parts.

(** The names a comma-separated text holds: the core of every piece that
    is not blank, in the order of the pieces. *)
Definition names_of (parts names : list string) : Prop :=
  Forall2 core_of (List.filter (fun part => negb (blank part)) parts) names.

End TextSpec.

Module CollectSpec.

(** What one task adds to the result, in the words of the specification: a
    returned list is concatenated, a task that raised contributes nothing. *)
Definition contribution (r : TrendScraper.task_result) : list TrendItem :=
  match r with
  | TrendScraper.Returned trends => trends
  | TrendScraper.Raised _ => []
  end.

(** The line logged for one task: none for a returned list. *)
Definition error_line (scraper : Scraper) (r : TrendScraper.task_result)
    : list string :=
  match r with
  | TrendScraper.Returned _ => []
  | TrendScraper.Raised e =>
      ["Error in " +:+ name scraper +:+ ": " +:+ exc_str e]
  end.

(** A line that one of the two sources prints by itself *)
Definition source_line (line : string) : Prop :=
  (exists rest, line = "[Sela API] " +:+ rest)
  \/ (exists rest, line = "[Twitter/X] Error searching '" +:+ rest)
  \/ (exists rest, line = "[GitHub] Error: " +:+ rest).

End CollectSpec.

(** The trace of a round that collected nothing: the two log records around
    whatever the collection printed, then the notice. *)
Definition short_circuit_trace (chat_id : string) (printed : list string)
    : list event :=
  [Info "Starting trend collection..."] ++ map Printed printed
  ++ [Info "Collected 0 trend items"; SendError chat_id DailyIdeaService.NOTHING_COLLECTED].

Definition is_generation (e : event) : bool :=
  match e with GenerateContent _ => true | _ => false end.

Module RegistrySpec.

(** What the registry decides for one requested identifier, given the
    credential: [None] when the identifier is skipped, because it is not a
    registered one or because its source needs a credential and there is
    none; otherwise the class to construct. *)
Definition resolve (credential : option string) (identifier : string)
    : option scraper_class :=
  if String.eqb identifier "github" then Some GitHubScraper_
  else if String.eqb identifier "twitter"
  then match credential with
       | Some (String _ _) => Some TwitterScraper_
       | _ => None
       end
  else None.

(** The warning printed for one requested identifier, if any. *)
Definition warning (credential : option string) (identifier : string)
    : list string :=
  if String.eqb identifier "github" then []
  else if String.eqb identifier "twitter"
  then match credential with
       | Some (String _ _) => []
       | _ => ["Warning: 'twitter' requires Sela API key, skipping"]
       end
  else ["Warning: Unknown scraper '" +:+ identifier +:+ "', skipping"].

(** The live source built for an identifier that is not skipped, with the
    configuration overrides [configs] holds for it. *)
Definition live (credential : option string) (configs : gmap string kwargs)
    (env_queries : string) (identifier : string) : option Scraper :=
  match resolve credential identifier with
  | Some cls =>
      match construct cls credential
              (default no_kwargs (configs !! identifier)) env_queries with
      | Return scraper => Some scraper
      | Raise _ => None
      end
  | None => None
  end.

(** The constructor of [cls] takes every keyword of [config]. *)
Definition accepts (cls : scraper_class) (config : kwargs) : bool :=
  match cls with
  | TwitterScraper_ => match kw_other config with [] => true | _ => false end
  | GitHubScraper_ =>
      match kw_search_queries config, kw_post_count config, kw_other config with
      | None, None, [] => true
      | _, _, _ => false
      end
  end.

End RegistrySpec.

Module TwitterSpec.
Import BaseScraper.

(** The request of one query: the search URL of the query and the fixed
    parameters of the scraping call. *)
Definition request (self : TwitterScraper.t) (query : string) : SelaRequest :=
  {| authorization :=
       "Bearer " +:+ default "" (TwitterScraper.sela_api_key self);
     req_url := "https://x.com/search?q=" +:+ quote query +:+ "&f=top";
     scrapeType := "TWITTER_PROFILE";
     timeoutMs := 60000;
     postCount := TwitterScraper.post_count self;
     scrollPauseTime := 2000 |}.

(** The link of a post: a path that does not start with [http] is prefixed
    with the host; no path gives the empty link, and a [null] link stays
    [None]. *)
Definition absolute_url (tweetUrl : field string) : option string :=
  match tweetUrl with
  | Null => None
  | Absent | Value EmptyString => Some EmptyString
  | Value path =>
      Some (if String.prefix "http" path then path else "https://x.com" +:+ path)
  end.

(** The score as the specification words it: the likes count or, if it is
    absent, the views count. *)
Definition claimed_score (likes views : option Z) : option Z :=
  match likes with
  | Some n => Some n
  | None => views
  end.

(** The score as amended: the likes count when it is present and not zero,
    the views count otherwise. *)
Definition score_of (likes views : option Z) : option Z :=
  match likes with
  | Some n => if (n =? 0)%Z then views else Some n
  | None => views
  end.

(** The text of a post; an absent [content] counts as the empty text. *)
Definition text_of (content : field string) : string :=
  match content with
  | Value s => s
  | _ => EmptyString
  end.

(** The item a post is mapped to, for the query that produced it. *)
Definition mapped (query : string) (item : Post) : TrendItem :=
  {| source := "Twitter/X (" +:+ query +:+ ")";
     title := TextSpec.first_characters 100 (text_of (content item));
     url := absolute_url (tweetUrl item);
     score := score_of (likesCount item) (viewsCount item);
     description := field_get (content item) |}.

(** A post can be mapped unless its [content] is [null]. *)
Definition mappable (item : Post) : bool :=
  match content item with Null => false | _ => true end.

Definition not_subscriptable : Exception :=
  mkException TypeError "'NoneType' object is not subscriptable".

(** The posts one answer of the service holds for a fetch that keeps
    [post_count] posts per query, and the exception that ends the round when
    the exchange or the decoding fails. *)
Definition posts_of (post_count : Z) (answer : outcome (Response SelaJson))
    : Exception + list Post :=
  match answer with
  | Raise e => inl e
  | Return resp =>
      match resp_json resp with
      | Raise e => inl e
      | Return answer_data =>
          inr (slice_to post_count
                 (default [] (result (default (mkSelaData None)
                                        (data answer_data)))))
      end
  end.

(** The items mapped before the first post that cannot be. *)
Fixpoint mapped_prefix (query : string) (posts : list Post) : list TrendItem :=
  match posts with
  | [] => []
  | item :: posts' =>
      if mappable item then mapped query item :: mapped_prefix query posts'
      else []
  end.

(** The exception a query's round ends with, if it fails. *)
Definition failure (post_count : Z) (answer : outcome (Response SelaJson))
    : option Exception :=
  match posts_of post_count answer with
  | inl e => Some e
  | inr posts => if forallb mappable posts then None else Some not_subscriptable
  end.

(** What the round of one query adds to the result. *)
Definition items_of (post_count : Z) (query : string)
    (answer : outcome (Response SelaJson)) : list TrendItem :=
  match posts_of post_count answer with
  | inl _ => []
  | inr posts => mapped_prefix query posts
  end.

(** What the round of one query prints. *)
Definition lines_of (post_count : Z) (query : string)
    (answer : outcome (Response SelaJson)) : list string :=
  match answer with
  | Return resp =>
      if (status_code resp =? 200)%Z then []
      else ["[Sela API] " +:+ str_int (status_code resp) +:+ ": " +:+ text resp]
  | Raise _ => []
  end ++
  match failure post_count answer with
  | Some e =>
      ["[Twitter/X] Error searching '" +:+ query +:+ "': " +:+ exc_str e]
  | None => []
  end.

(** The result as the specification words it: the items of the queries
    that did not fail, in the order of the queries. *)
Definition claimed_items (post_count : Z) (query : string)
    (answer : outcome (Response SelaJson)) : list TrendItem :=
  match failure post_count answer with
  | Some _ => []
  | None => items_of post_count query answer
  end.

End TwitterSpec.

Module GitHubSpec.
Import GitHubScraper.

(** The one GET of a fetch: repositories created since [yesterday], most
    starred first, ten per page. *)
Definition request (yesterday : string) : SearchRequest :=
  {| accept := "application/vnd.github.v3+json";
     q := "created:>" +:+ yesterday;
     sort := "stars";
     order := "desc";
     per_page := 10 |}.

(** The language shown in a title: [Unknown] for [null] (and for an empty
    name). *)
Definition language_or_unknown (language : field string) : string :=
  match language with
  | Value (String c s) => String c s
  | _ => "Unknown"
  end.

(** The item a result is mapped to. *)
Definition mapped (repo : Repo) : TrendItem :=
  {| source := "GitHub";
     title := default "" (full_name repo) +:+ " - "
              +:+ language_or_unknown (language repo);
     url := html_url repo;
     score := stargazers_count repo;
     description := repo_description repo |}.

(** The first key a result lacks among those the mapping reads with
    [repo[key]], in the order it reads them. *)
Definition missing_key (repo : Repo) : option string :=
  match full_name repo, language repo, html_url repo, stargazers_count repo with
  | None, _, _, _ => Some "full_name"
  | Some _, Absent, _, _ => Some "language"
  | Some _, _, None, _ => Some "html_url"
  | Some _, _, Some _, None => Some "stargazers_count"
  | Some _, _, Some _, Some _ => None
  end.

Fixpoint first_missing_key (repos : list Repo) : option string :=
  match repos with
  | [] => None
  | repo :: repos' =>
      match missing_key repo with
      | Some key => Some key
      | None => first_missing_key repos'
      end
  end.

(** The exception a fetch ends on, if any: the exchange failed, the body
    was not JSON, or one of the first ten results lacks a key. *)
Definition failure (answer : outcome (Response SearchJson)) : option Exception :=
  match answer with
  | Raise e => Some e
  | Return resp =>
      match resp_json resp with
      | Raise e => Some e
      | Return found =>
          match first_missing_key (firstn 10 (default [] (items found))) with
          | Some key => Some (mkException KeyError ("'" +:+ key +:+ "'"))
          | None => None
          end
      end
  end.

(** What a fetch returns: the first ten results, mapped, unless it failed. *)
Definition result_of (answer : outcome (Response SearchJson)) : list TrendItem :=
  match failure answer, answer with
  | None, Return resp =>
      match resp_json resp with
      | Return found => map mapped (firstn 10 (default [] (items found)))
      | Raise _ => []
      end
  | _, _ => []
  end.

(** What a fetch prints: one line if it failed. *)
Definition lines_of (answer : outcome (Response SearchJson)) : list string :=
  match failure answer with
  | Some e => ["[GitHub] Error: " +:+ exc_str e]
  | None => []
  end.

End GitHubSpec.

Module DigestSpec.

(** The source labels of a list of items, each once, in the order of their
    first appearance. *)
Fixpoint labels (trends : list TrendItem) : list string :=
  match trends with
  | [] => []
  | trend :: trends' =>
      source trend :: filter (fun label => label <> source trend) (labels trends')
  end.

(** The group of a label: the items that carry it, in their original
    order. *)
Definition group_of (label : string) (trends : list TrendItem)
    : list TrendItem :=
  filter (fun trend => source trend = label) trends.

(** The items of a group that the digest shows: the first ten. *)
Definition shown (label : string) (trends : list TrendItem) : list TrendItem :=
  firstn 10 (group_of label trends).

(** The suffix of an item's line: the score, unless it is absent or zero. *)
Definition score_suffix (score : option Z) : string :=
  match score with
  | None | Some Z0 => EmptyString
  | Some n => " (score: " +:+ pretty n +:+ ")"
  end.

(** The follow-up line of an item: the first 100 characters of the
    description and an ellipsis, unless the description is absent or
    empty. *)
Definition follow_up (description : option string) : string :=
  match description with
  | None | Some EmptyString => EmptyString
  | Some text => nl +:+ "   " +:+ TextSpec.first_characters 100 text +:+ "..."
  end.

(** One item of the digest. *)
Definition render (item : TrendItem) : string :=
  "- " +:+ title item +:+ score_suffix (score item)
  +:+ follow_up (description item).

Definition heading (label : string) : string := "### " +:+ label.

(** The part of the digest for one label: the heading, the items shown, a
    blank line. *)
Definition section_of (trends : list TrendItem) (label : string)
    : list string :=
  heading label :: map render (shown label trends) ++ [EmptyString].

Definition digest_lines (trends : list TrendItem) : list string :=
  concat (map (section_of trends) (labels trends)).

(** How often a line occurs in the digest *)
Definition occurrences (line : string) (lines : list string) : nat :=
  length (filter (fun l => l = line) lines).

End DigestSpec.

Module ParseSpec.

(** The error the parse step is to fail with, in the words of the
    specification: it carries the original error and the raw text. *)
Definition GenerationError (cause : Exception) (raw_text : string) : Exception :=
  mkException ValueError
    ("Failed to parse Gemini response: " +:+ exc_str cause +:+ nl
     +:+ "Response: " +:+ raw_text).

(** The number of ideas the prompt asks for *)
Definition REQUESTED_IDEAS : nat := 3.

(** The element of the [ideas] array an idea record was validated from *)
Definition idea_of (element : json) (idea : IdeaSuggestion.t) : Prop :=
  pydantic.model_schema pydantic.IdeaSuggestion_fields element = inr idea.

End ParseSpec.

Module TruthinessSpec.

(** An item with what the digest does not tell apart forgotten: a score of
    zero becomes no score, an empty description no description. *)
Definition forget_falsy (item : TrendItem) : TrendItem :=
  {| source := source item;
     title := title item;
     url := url item;
     score := match score item with Some Z0 => None | other => other end;
     description :=
       match description item with
       | Some EmptyString => None
       | other => other
       end |}.

End TruthinessSpec.

Module Samples.

(** Response texts and what [json.loads] makes of them *)

Definition missing_ideas_text : string :=
  "{" +:+ dq +:+ "trend_summary" +:+ dq +:+ ": " +:+ dq +:+ "x" +:+ dq +:+ "}".

Definition missing_ideas : json :=
  JDict
  [ ("trend_summary", JStr "x") ].

Definition no_ideas_text : string :=
  "{" +:+ dq +:+ "trend_summary" +:+ dq +:+ ": " +:+ dq +:+ "s" +:+ dq +:+ ", " +:+ dq +:+ "ideas" +:+ dq +:+ ": []}".

Definition no_ideas : json :=
  JDict
  [ ("trend_summary", JStr "s");
    ("ideas", JList []) ].

Definition one_idea_text : string :=
  "{" +:+ dq +:+ "trend_summary" +:+ dq +:+ ": " +:+ dq +:+ "s" +:+ dq +:+ ", " +:+ dq +:+ "ideas" +:+ dq +:+ ": [{" +:+ dq +:+ "title" +:+ dq +:+ ": " +:+ dq +:+ "t" +:+ dq +:+ ", " +:+ dq +:+ "description" +:+ dq +:+ ": " +:+ dq +:+ "d" +:+ dq +:+ ", " +:+ dq +:+ "why_now" +:+ dq +:+ ": " +:+ dq +:+ "w" +:+ dq +:+ ", " +:+ dq +:+ "difficulty" +:+ dq +:+ ": " +:+ dq +:+ "easy" +:+ dq +:+ ", " +:+ dq +:+ "tech_stack" +:+ dq +:+ ": [" +:+ dq +:+ "python" +:+ dq +:+ "], " +:+ dq +:+ "first_step" +:+ dq +:+ ": " +:+ dq +:+ "f" +:+ dq +:+ "}]}".

Definition one_idea : json :=
  JDict
  [ ("trend_summary", JStr "s");
    ("ideas", JList [JDict
        [ ("title", JStr "t");
          ("description", JStr "d");
          ("why_now", JStr "w");
          ("difficulty", JStr "easy");
          ("tech_stack", JList [JStr "python"]);
          ("first_step", JStr "f") ]]) ].

Definition a_list_text : string :=
  "[1, 2]".

Definition a_list : json :=
  JList [JInt 1; JInt 2].

(** A text cut short, and the error of the decoder on it *)
Definition truncated_text : string :=
  "{" +:+ dq +:+ "trend_summary" +:+ dq +:+ ": " +:+ dq +:+ "x".
Definition truncated_error : Exception :=
  mkException JSONDecodeError
    "Unterminated string starting at: line 1 column 19 (char 18)".

End Samples.

Module Scenarios.
Import DailyIdeaService.

(** A world in which every source returns nothing, delivery succeeds, and
    the language model is out of reach. *)
Definition quiet_world : world :=
  {| await_fetch := fun _ _ => TrendScraper.Returned [];
     generate_content := fun _ =>
       Raise (mkException (OtherError "ConnectionError") "unreachable");
     json_loads := fun _ =>
       Raise (mkException JSONDecodeError
                "Expecting value: line 1 column 1 (char 0)");
     deliver := fun _ => Return tt |}.

(** A service whose registry skipped every source *)
Definition no_source : DailyIdeaService.t :=
  {| chat_id := "42";
     scraper := TrendScraper.mk None ["twitter"] ∅ [];
     analyzer := TrendAnalyzer.mk "AI agent" |}.

(** A service with the repository source only *)
Definition github_only : DailyIdeaService.t :=
  {| chat_id := "42";
     scraper :=
       TrendScraper.mk None ["github"] ∅ [GitHub (GitHubScraper.mk None)];
     analyzer := TrendAnalyzer.mk "AI agent" |}.

(** A scraper with three queries, and a service whose second exchange
    times out *)
Definition three_queries : TwitterScraper.t :=
  TwitterScraper.mk (Some "key") ["a"; "b"; "c"] 5.

Definition first_post : BaseScraper.Post :=
  BaseScraper.mkPost (Value "/a/status/1") (Value "first") (Some 3%Z) None.

Definition second_post : BaseScraper.Post :=
  BaseScraper.mkPost (Value "/b/status/3") (Value "second") None (Some 9%Z).

Definition timed_out : Exception :=
  mkException (OtherError "httpx.ReadTimeout") "timed out".

Definition answer_with (posts : list BaseScraper.Post)
    : outcome (Response BaseScraper.SelaJson) :=
  Return (mkResponse 200 EmptyString
            (Return (BaseScraper.mkSelaJson
                       (Some (BaseScraper.mkSelaData (Some posts)))))).

Definition flaky_client : BaseScraper.sela_client :=
  fun n _ =>
    match n with
    | 0 => answer_with [first_post]
    | 1 => Raise timed_out
    | _ => answer_with [second_post]
    end.

(** A text of [count] Hangul syllables, of three bytes each *)
Definition hangul (count : nat) : string :=
  String.concat EmptyString (repeat "가" count).

(** A post of 101 characters, and an item described in as many *)
Definition long_post : BaseScraper.Post :=
  BaseScraper.mkPost (Value "/dev/status/1") (Value (hangul 101))
    (Some 4%Z) (Some 7%Z).

Definition long_item : TrendItem :=
  mkTrendItem "GitHub" "octo/tool" (Some EmptyString) None (Some (hangul 101)).

(** [count] items of one source, titled [<label>1], [<label>2], ... *)
Definition numbered (label : string) (count : nat) : list TrendItem :=
  map (fun i => mkTrendItem label (label +:+ pretty i) (Some EmptyString) None None)
    (seq 1 count).

(** Items of the repository source with the given scores *)
Definition scored (scores : list Z) : list TrendItem :=
  map (fun n => mkTrendItem "GitHub" ("repo" +:+ pretty n) (Some EmptyString) (Some n) None)
    scores.

End Scenarios.

Module DigestMoreSpec.

(** An item with its link replaced *)
Definition with_url (link : TrendItem -> option string) (item : TrendItem)
    : TrendItem :=
  {| source := source item;
     title := title item;
     url := link item;
     score := score item;
     description := description item |}.

(** The items regrouped by hand: the group of the first label, then the
    group of the second, and so on. *)
Definition regrouped (trends : list TrendItem) : list TrendItem :=
  concat (map (fun label => DigestSpec.group_of label trends)
            (DigestSpec.labels trends)).

End DigestMoreSpec.

Module PromptSpec.

(** The text of the prompt before the digest, for a topic *)
Definition prompt_prefix (topic : string) : string :=
  SYSTEM_PROMPT_TEMPLATE topic +:+ nl +:+ nl
  +:+ join nl
        [ "Based on today's tech trends, suggest 3 project ideas";
          "related to " +:+ dq +:+ topic +:+ dq +:+ ".";
          EmptyString;
          "## Today's Trends";
          EmptyString ]
  +:+ nl.

(** The text of the prompt after the digest, for a topic *)
Definition prompt_suffix (topic : string) : string :=
  nl +:+ join nl
    [ EmptyString;
      "---";
      EmptyString;
      "Analyze these trends and suggest 3 creative " +:+ dq +:+ topic +:+ dq
        +:+ " ideas that:";
      "1. Are inspired by or leverage these trends";
      "2. Can be built as an MVP in one day";
      "3. Solve a real problem";
      "4. Are NOT just clones of existing tools";
      EmptyString;
      "Respond with valid JSON only. No markdown, no explanation outside the JSON." ].

(** The one request of a generation: the fixed settings, and the digest
    between the two parts of the prompt. *)
Definition request_for (topic digest : string) : GenerateRequest :=
  {| model := "gemini-2.0-flash";
     contents := prompt_prefix topic +:+ digest +:+ prompt_suffix topic;
     temperature := (8 # 10)%Q;
     response_mime_type := "application/json" |}.

End PromptSpec.

Module RoundSpec.

Definition is_bot_message (e : event) : bool :=
  match e with
  | SendError _ _ | SendIdeas _ _ => true
  | _ => false
  end.

Definition is_model_call (e : event) : bool :=
  match e with
  | GenerateContent _ => true
  | _ => false
  end.

(** The messages handed to the bot, and the calls of the language model,
    among the events of a trace *)
Definition bot_messages (events : list event) : nat :=
  length (List.filter is_bot_message events).

Definition model_calls (events : list event) : nat :=
  length (List.filter is_model_call events).

(** The outcome of the analysis of a round: that of the call of the model,
    then of the parse step on the text it returned *)
Definition analysis_of (self : DailyIdeaService.t) (w : DailyIdeaService.world)
    (trends : list TrendItem) : outcome AnalysisResult.t :=
  match DailyIdeaService.generate_content w
          (PromptSpec.request_for
             (TrendAnalyzer.topic (DailyIdeaService.analyzer self))
             (TrendAnalyzer._format_trends (DailyIdeaService.analyzer self)
                trends)) with
  | Raise e => Raise e
  | Return text =>
      fst (TrendAnalyzer.parse_response (S := unit) text
             (DailyIdeaService.json_loads w text) tt)
  end.

End RoundSpec.

Module BootstrapSpec.
Import Bootstrap.

(** The first of the three required variables that is unset or empty *)
Definition first_missing (env : environ) : option string :=
  match TELEGRAM_BOT_TOKEN env, TELEGRAM_CHAT_ID env, GEMINI_API_KEY env with
  | (None | Some EmptyString), _, _ => Some "TELEGRAM_BOT_TOKEN"
  | _, (None | Some EmptyString), _ => Some "TELEGRAM_CHAT_ID"
  | _, _, (None | Some EmptyString) => Some "GEMINI_API_KEY"
  | _, _, _ => None
  end.

(** The identifiers the service requests from the registry *)
Definition requested (env : environ) : list string :=
  or_default (enabled_scrapers_of (default "" (ENABLED_SCRAPERS env)))
    DEFAULT_SCRAPERS.

End BootstrapSpec.

Module MoreScenarios.

(** A search answer with one complete result and one without [html_url] *)
Definition complete_repo : GitHubScraper.Repo :=
  GitHubScraper.mkRepo (Some "octo/tool") (Value "Rust")
    (Some "https://github.com/octo/tool") (Some 120%Z) None.

Definition broken_repo : GitHubScraper.Repo :=
  GitHubScraper.mkRepo (Some "octo/other") Null None (Some 7%Z) None.

Definition half_broken_found : GitHubScraper.SearchJson :=
  GitHubScraper.mkSearchJson (Some [complete_repo; broken_repo]).

Definition half_broken_response : Response GitHubScraper.SearchJson :=
  mkResponse 200 EmptyString (Return half_broken_found).

Definition half_broken_client : GitHubScraper.github_client :=
  fun _ _ => Return half_broken_response.

(** Overrides for the social source, and overrides the repository source
    does not take *)
Definition twitter_overrides : gmap string kwargs :=
  {[ "twitter" := mkKwargs (Some (Some ["rust"])) (Some 2%Z) [] ]}.

Definition github_overrides : gmap string kwargs :=
  {[ "github" := mkKwargs None (Some 3%Z) [] ]}.

Definition blank_scraper : frame TrendScraper.t :=
  mkFrame (TrendScraper.mk None [] ∅ []) [] 0.

(** The same items of two sources, interleaved in two ways *)
Definition item_of (label headline : string) : TrendItem :=
  mkTrendItem label headline (Some EmptyString) None None.

Definition interleaved : list TrendItem :=
  [item_of "A" "a1"; item_of "B" "b1"; item_of "A" "a2"].

Definition grouped_by_hand : list TrendItem :=
  [item_of "A" "a1"; item_of "A" "a2"; item_of "B" "b1"].

End MoreScenarios.

Module EnvScenarios.
Import Bootstrap.

(** The three required variables, and an [ENABLED_SCRAPERS] that names
    nothing: a space, a comma, an ideographic space *)
Definition blank_selection : environ :=
  {| TELEGRAM_BOT_TOKEN := Some "123:abc";
     TELEGRAM_CHAT_ID := Some "42";
     GEMINI_API_KEY := Some "g-key";
     SELA_API_KEY := None;
     DAILY_SCHEDULE_TIME := None;
     IDEA_TOPIC := None;
     ENABLED_SCRAPERS := Some " ,　";
     TWITTER_QUERIES := None |}.

End EnvScenarios.

Module TaskScenarios.

Definition no_route : Exception :=
  mkException (OtherError "httpx.ConnectError") "no route".

(** A network on which no exchange succeeds *)
Definition unreachable : Tasks.net :=
  {| Tasks.sela := fun _ _ => Raise Scenarios.timed_out;
     Tasks.github := fun _ _ => Raise no_route;
     Tasks.yesterday := "2024-05-01" |}.

(** The two sources, the social one with a credential and one query *)
Definition both_sources : TrendScraper.t :=
  TrendScraper.mk (Some "key") ["twitter"; "github"] ∅
    [Twitter (TwitterScraper.mk (Some "key") ["a"] 5);
     GitHub (GitHubScraper.mk (Some "key"))].

(** What the two tasks print, the second task being the first to fail *)
Definition both_failed : list string :=
  ["[GitHub] Error: no route"; "[Twitter/X] Error searching 'a': timed out"].

End TaskScenarios.

(* ====================================================================== *)
(** * Properties *)
(* ====================================================================== *)

(** ** Strings and printing *)

Lemma append_empty_r (s : string) : s +:+ EmptyString = s.
Proof.
  induction s as [|c s IH]; [reflexivity|].
  change (String c s +:+ EmptyString) with (String c (s +:+ EmptyString)).
  rewrite IH. reflexivity.
Qed.

Lemma print_frame {L} (line : string) (l : L) (out : list string) (n : nat) :
  print line (mkFrame l out n) = (Return tt, mkFrame l (out ++ [line]) n).
Proof. reflexivity. Qed.

(** ** Characters *)

Lemma concat_empty_cons (ch : string) (l : list string) :
  String.concat EmptyString (ch :: l) = ch +:+ String.concat EmptyString l.
Proof.
  destruct l as [|ch' l]; [|reflexivity].
  cbn [String.concat]. rewrite append_empty_r. reflexivity.
Qed.

Lemma chars_cons (c : ascii) (s : string) :
  exists ch rest, chars (String c s) = String c ch :: rest.
Proof.
  cbn [chars]. destruct (continues s); [|eexists _, _; reflexivity].
  destruct (chars s); eexists _, _; reflexivity.
Qed.

(** The slice of the code keeps what the specification calls the first
    characters. *)
Lemma slice_and_characters (n : nat) (c : ascii) (s : string) :
  String.concat EmptyString (firstn (S n) (chars (String c s)))
  = String c (TextSpec.and_characters n s).
Proof.
  revert c n. induction s as [|d s IH]; intros c n; [destruct n; reflexivity|].
  change (chars (String c (String d s)))
    with (if is_continuation d
          then match chars (String d s) with
               | ch :: rest => String c ch :: rest
               | [] => [String c EmptyString]
               end
          else String c EmptyString :: chars (String d s)).
  cbn [TextSpec.and_characters].
  destruct (is_continuation d).
  - specialize (IH d n).
    destruct (chars_cons d s) as (ch & rest & Hchars).
    rewrite Hchars in IH |- *. cbn [firstn] in IH |- *.
    rewrite concat_empty_cons in IH |- *.
    change (String c (String d ch)
            +:+ String.concat EmptyString (firstn n rest))
      with (String c (String d ch
                      +:+ String.concat EmptyString (firstn n rest))).
    rewrite IH. reflexivity.
  - cbn [firstn]. rewrite concat_empty_cons.
    change (String c EmptyString +:+ ?x) with (String c x).
    destruct n as [|n]; [reflexivity|].
    rewrite IH. reflexivity.
Qed.

Lemma str_slice_to_first_characters (n : nat) (s : string) :
  str_slice_to n s = TextSpec.first_characters n s.
Proof.
  destruct n as [|n]; [reflexivity|].
  destruct s as [|c s]; [reflexivity|].
  apply slice_and_characters.
Qed.

Lemma later_and_characters (n : nat) (s : string) :
  TextSpec.later_characters (TextSpec.and_characters n s)
  = Nat.min n (TextSpec.later_characters s).
Proof.
  revert n. induction s as [|c s IH]; intros n; [cbn; lia|].
  cbn [TextSpec.and_characters TextSpec.later_characters].
  destruct (is_continuation c) eqn:Hc.
  - cbn [TextSpec.later_characters]. rewrite Hc, IH. reflexivity.
  - destruct n as [|n]; [reflexivity|].
    cbn [TextSpec.later_characters]. rewrite Hc, IH. lia.
Qed.

(** The first [n] characters are [n] characters, or the whole text when it
    has fewer. *)
Lemma characters_first (n : nat) (s : string) :
  TextSpec.characters (TextSpec.first_characters n s)
  = Nat.min n (TextSpec.characters s).
Proof.
  destruct n as [|n]; [reflexivity|].
  destruct s as [|c s]; [reflexivity|].
  cbn [TextSpec.first_characters TextSpec.characters].
  rewrite later_and_characters. reflexivity.
Qed.

Lemma and_characters_prefix (n : nat) (s : string) :
  exists rest,
    s = TextSpec.and_characters n s +:+ rest /\ continues rest = false.
Proof.
  revert n. induction s as [|c s IH]; intros n.
  - exists EmptyString. split; reflexivity.
  - cbn [TextSpec.and_characters].
    destruct (is_continuation c) eqn:Hc.
    + destruct (IH n) as (rest & Hs & Hrest). exists rest.
      split; [|exact Hrest].
      change (String c (TextSpec.and_characters n s) +:+ rest)
        with (String c (TextSpec.and_characters n s +:+ rest)).
      rewrite <- Hs. reflexivity.
    + destruct n as [|n].
      * exists (String c s). split; [reflexivity|exact Hc].
      * destruct (IH n) as (rest & Hs & Hrest). exists rest.
        split; [|exact Hrest].
        change (String c (TextSpec.and_characters n s) +:+ rest)
          with (String c (TextSpec.and_characters n s +:+ rest)).
        rewrite <- Hs. reflexivity.
Qed.

(** The first characters are the beginning of the text, and they end where
    a character ends. *)
Lemma first_characters_prefix (n : nat) (s : string) :
  exists rest,
    s = TextSpec.first_characters n s +:+ rest
    /\ (n = 0 \/ continues rest = false).
Proof.
  destruct n as [|n]; [exists s; split; [reflexivity|left; reflexivity]|].
  destruct s as [|c s]; [exists EmptyString; split; [reflexivity|right; reflexivity]|].
  destruct (and_characters_prefix n s) as (rest & Hs & Hrest).
  exists rest. split; [|right; exact Hrest].
  cbn [TextSpec.first_characters].
  change (String c (TextSpec.and_characters n s) +:+ rest)
    with (String c (TextSpec.and_characters n s +:+ rest)).
  rewrite <- Hs. reflexivity.
Qed.

(** ** Indexed maps *)

Lemma imap_imap {A B C} (g : nat -> A -> B) (h : nat -> B -> C) (l : list A) :
  imap h (imap g l) = imap (fun i x => h i (g i x)) l.
Proof.
  revert g h. induction l as [|x l IH]; intros g h; simpl; [reflexivity|].
  f_equal. apply (IH (g ∘ S) (h ∘ S)).
Qed.

Lemma concat_imap_fmap {A B C} (g : nat -> A -> B) (h : B -> list C)
    (l : list A) :
  concat (imap (fun i x => h (g i x)) l) = concat (map h (imap g l)).
Proof.
  revert g. induction l as [|x l IH]; intros g; simpl; [reflexivity|].
  f_equal. apply (IH (g ∘ S)).
Qed.

Lemma concat_imap_zip_with {A B C} (g : nat -> A -> B) (h : A -> B -> list C)
    (l : list A) :
  concat (imap (fun i x => h x (g i x)) l) = concat (zip_with h l (imap g l)).
Proof.
  revert g. induction l as [|x l IH]; intros g; simpl; [reflexivity|].
  f_equal. apply (IH (g ∘ S)).
Qed.

(** ** TrendScraper.get_all_trends *)


Section GetAllTrends.
Import TrendScraper CollectSpec.
Variable self : TrendScraper.t.
Variable await_fetch : nat -> Scraper -> task_result.

(** The loop over [enumerate(results)], started at position [k]. *)
Lemma collect_loop (rest : list Scraper) (k : nat) (acc : list TrendItem)
    (out : list string) (n : nat) :
  (forall i, _scrapers self !! (k + i) = rest !! i) ->
  for_each (imap (fun i s => (k + i, await_fetch (k + i) s)) rest) (collect self)
    (mkFrame acc out n)
  = (Return tt,
     mkFrame
       (acc ++ concat (imap (fun i s => contribution (await_fetch (k + i) s)) rest))
       (out ++ concat (imap (fun i s => error_line s (await_fetch (k + i) s)) rest))
       n).
Proof.
  revert k acc out. induction rest as [|s rest IH]; intros k acc out Hk.
  - simpl. rewrite !app_nil_r. reflexivity.
  - cbn [imap for_each concat]. unfold bind.
    assert (Hs : _scrapers self !! k = Some s).
    { specialize (Hk 0). rewrite Nat.add_0_r in Hk. exact Hk. }
    assert (Hrest : forall i, _scrapers self !! (S k + i) = rest !! i).
    { intros i. replace (S k + i) with (k + S i) by lia. rewrite Hk. reflexivity. }
    specialize (IH (S k)).
    assert (Hext : forall {B} (g : nat -> Scraper -> B),
               imap ((fun i s0 => g (k + i) s0) ∘ S) rest
               = imap (fun i s0 => g (S k + i) s0) rest).
    { intros B g. apply imap_ext. intros i x _. simpl. f_equal. lia. }
    rewrite (Hext _ (fun j s0 => (j, await_fetch j s0))).
    rewrite (Hext _ (fun j s0 => contribution (await_fetch j s0))).
    rewrite (Hext _ (fun j s0 => error_line s0 (await_fetch j s0))).
    rewrite Nat.add_0_r.
    unfold collect at 1. destruct (await_fetch k s) as [trends|e]; simpl.
    + unfold modify_locals, modify. simpl.
      rewrite IH by exact Hrest. rewrite <- app_assoc. reflexivity.
    + rewrite Hs. unfold print, modify, write, stdout_frame. simpl.
      rewrite IH by exact Hrest. rewrite <- app_assoc. reflexivity.
Qed.

(** C1. For every list of enabled scrapers and every outcome of their
    [fetch()] tasks, lists returned and exceptions raised alike,
    [get_all_trends] returns, and what it returns is the concatenation, in
    the order of the scrapers, of the lists of the tasks that returned; a
    task that raised contributes nothing and prints one line,
    [Error in <name>: <error>]. *)
Theorem get_all_trends_concatenates (f0 : frame (list TrendItem)) :
  let results := imap await_fetch (_scrapers self) in
  fst (get_all_trends self await_fetch f0)
    = Return (concat (map contribution results))
  /\ stdout (snd (get_all_trends self await_fetch f0))
    = stdout f0 ++
      match _scrapers self with
      | [] => ["Warning: No scrapers enabled"]
      | _ :: _ => concat (zip_with error_line (_scrapers self) results)
      end.
Proof.
  cbv zeta. unfold get_all_trends.
  destruct (_scrapers self) as [|s0 rest] eqn:Hscrapers.
  - split; reflexivity.
  - rewrite <- Hscrapers.
    assert (Hloop := collect_loop (_scrapers self) 0 [] (stdout f0) (sent f0)
                       (fun i => eq_refl)).
    cbn [Nat.add app] in Hloop.
    replace (negb (truthy (_scrapers self))) with false
      by (rewrite Hscrapers; reflexivity).
    rewrite imap_imap.
    unfold bind, modify_locals, modify, get_locals.
    rewrite Hloop. cbn [fst snd stdout locals].
    rewrite concat_imap_fmap, concat_imap_zip_with.
    split; [reflexivity|]. destruct (_scrapers self); [discriminate|reflexivity].
Qed.

End GetAllTrends.

(** ** DailyIdeaService._generate_and_send_ideas *)

Section NothingCollected.
Import TrendScraper DailyIdeaService.

(** C7. With no scraper enabled, [get_all_trends] prints a warning and
    returns the empty list; and whenever the collection returns no item,
    [_generate_and_send_ideas] hands the notice [NOTHING_COLLECTED] to
    [send_error] and ends there: the language model is not called. *)
Theorem nothing_collected_short_circuits (self : DailyIdeaService.t)
    (w : world) (chat_id : string) :
  (forall f0, _scrapers (scraper self) = [] ->
     get_all_trends (scraper self) (await_fetch w) f0
     = (Return [],
        mkFrame (locals f0) (stdout f0 ++ ["Warning: No scrapers enabled"])
          (sent f0)))
  /\ (forall events0,
        fst (get_all_trends (scraper self) (await_fetch w) (mkFrame [] [] 0))
          = Return [] ->
        let printed :=
          stdout (snd (get_all_trends (scraper self) (await_fetch w)
                         (mkFrame [] [] 0))) in
        _generate_and_send_ideas self w chat_id events0
          = (deliver w (SendError chat_id NOTHING_COLLECTED),
             events0 ++ short_circuit_trace chat_id printed)
        /\ forallb (fun e => negb (is_generation e))
             (short_circuit_trace chat_id printed) = true).
Proof.
  split.
  - intros f0 Hnone. unfold get_all_trends. rewrite Hnone. reflexivity.
  - intros events0 Hempty. cbv zeta.
    unfold _generate_and_send_ideas, await_scraper, bot_send, emit, bind,
      modify, eval.
    destruct (get_all_trends (scraper self) (await_fetch w) (mkFrame [] [] 0))
      as [o f]. simpl in Hempty. subst o. cbn [snd truthy truthy_list negb].
    split.
    + unfold short_circuit_trace. rewrite <- !app_assoc. reflexivity.
    + unfold short_circuit_trace. rewrite !forallb_app. simpl.
      rewrite andb_true_r. induction (stdout f); [reflexivity|assumption].
Qed.

End NothingCollected.

(** ** TrendScraper._init_scrapers *)

Section Registry.
Import TrendScraper RegistrySpec.

Lemma AVAILABLE_SCRAPERS_lookup (identifier : string) :
  AVAILABLE_SCRAPERS !! identifier =
  if String.eqb identifier "github" then Some GitHubScraper_
  else if String.eqb identifier "twitter" then Some TwitterScraper_
  else None.
Proof.
  unfold AVAILABLE_SCRAPERS.
  destruct (String.eqb_spec identifier "github") as [->|Hgithub]; [reflexivity|].
  destruct (String.eqb_spec identifier "twitter") as [->|Htwitter]; [reflexivity|].
  rewrite lookup_insert_ne by congruence.
  apply lookup_singleton_ne. congruence.
Qed.

Lemma falsy_credential (credential : option string) :
  negb (truthy credential) =
  match credential with Some (String _ _) => false | _ => true end.
Proof. destruct credential as [[|c s]|]; reflexivity. Qed.

Lemma construct_accepts (cls : scraper_class) (credential : option string)
    (config : kwargs) (env_queries : string) :
  accepts cls config = true ->
  exists scraper,
    construct cls credential config env_queries = Return scraper
    /\ class_of scraper = cls /\ scraper_key scraper = credential.
Proof.
  destruct cls, config as [queries count other]; simpl.
  - destruct other; [|discriminate]. intros _. eexists. repeat split.
  - destruct queries, count, other; try discriminate. intros _.
    eexists. repeat split.
Qed.

(** One round of the loop of [_init_scrapers]. *)
Lemma init_scraper_step (env_queries : string) (credential : option string)
    (enabled : list string) (configs : gmap string kwargs)
    (identifier : string) (built : list Scraper) (out : list string)
    (n : nat) :
  (forall cls,
      resolve credential identifier = Some cls ->
      accepts cls (default no_kwargs (configs !! identifier)) = true) ->
  init_scraper env_queries identifier
    (mkFrame (TrendScraper.mk credential enabled configs built) out n)
  = (Return tt,
     mkFrame
       (TrendScraper.mk credential enabled configs
          (built ++
           option_list (live credential configs env_queries identifier)))
       (out ++ warning credential identifier)
       n).
Proof.
  intros Hok.
  unfold init_scraper, bind, get_locals.
  cbn [locals sela_api_key scraper_configs].
  unfold live, warning. unfold resolve in Hok |- *.
  rewrite AVAILABLE_SCRAPERS_lookup, falsy_credential.
  destruct (String.eqb_spec identifier "github") as [->|_].
  - destruct (construct_accepts GitHubScraper_ credential
                (default no_kwargs (configs !! "github")) env_queries)
      as (scraper & Hbuilt & _); [apply Hok; reflexivity|].
    cbn [class_requires_sela GitHubScraper.requires_sela andb].
    unfold eval. rewrite Hbuilt. cbn [option_list].
    rewrite app_nil_r. reflexivity.
  - destruct (String.eqb_spec identifier "twitter") as [->|_].
    + cbn [class_requires_sela TwitterScraper.requires_sela andb].
      destruct credential as [[|c key]|].
      * cbn [option_list]. rewrite app_nil_r. reflexivity.
      * destruct (construct_accepts TwitterScraper_ (Some (String c key))
                    (default no_kwargs (configs !! "twitter")) env_queries)
          as (scraper & Hbuilt & _); [apply Hok; reflexivity|].
        unfold eval. rewrite Hbuilt. cbn [option_list].
        rewrite app_nil_r. reflexivity.
      * cbn [option_list]. rewrite app_nil_r. reflexivity.
    + cbn [option_list]. rewrite app_nil_r. reflexivity.
Qed.

(** The loop of [_init_scrapers], from any point of its run: every
    identifier left is decided on its own, the scrapers built are appended
    in the order of the identifiers, the warnings are printed in that order. *)
Lemma init_loop (env_queries : string) (credential : option string)
    (enabled : list string) (configs : gmap string kwargs)
    (identifiers : list string) (built : list Scraper) (out : list string)
    (n : nat) :
  (forall identifier cls,
      In identifier identifiers -> resolve credential identifier = Some cls ->
      accepts cls (default no_kwargs (configs !! identifier)) = true) ->
  for_each identifiers (init_scraper env_queries)
    (mkFrame (TrendScraper.mk credential enabled configs built) out n)
  = (Return tt,
     mkFrame
       (TrendScraper.mk credential enabled configs
          (built ++ omap (live credential configs env_queries) identifiers))
       (out ++ concat (map (warning credential) identifiers))
       n).
Proof.
  revert built out.
  induction identifiers as [|identifier identifiers IH]; intros built out Hok.
  - simpl. rewrite !app_nil_r. reflexivity.
  - cbn [for_each]. unfold bind.
    rewrite init_scraper_step by (intros cls; apply Hok; left; reflexivity).
    rewrite IH by (intros i cls Hin; apply Hok; right; exact Hin).
    cbn [omap list_omap map concat]. rewrite <- !app_assoc.
    destruct (live credential configs env_queries identifier); reflexivity.
Qed.

Lemma accepts_no_kwargs (cls : scraper_class) : accepts cls no_kwargs = true.
Proof. destruct cls; reflexivity. Qed.


Lemma live_default_configs (credential : option string) (env_queries : string)
    (identifier : string) :
  class_of <$> live credential ∅ env_queries identifier
  = resolve credential identifier.
Proof.
  unfold live. rewrite lookup_empty. cbn [default].
  destruct (resolve credential identifier) as [[]|]; reflexivity.
Qed.


End Registry.

(** ** TwitterScraper.fetch *)

Section Twitter.
Import BaseScraper TwitterScraper TwitterSpec.

Lemma tweet_url_absolute (tweetUrl : field string) :
  match field_get_default tweetUrl "" with
  | Some link =>
      if truthy link && negb (startswith link "http")
      then Some ("https://x.com" +:+ link)
      else Some link
  | None => None
  end
  = absolute_url tweetUrl.
Proof.
  destruct tweetUrl as [| |[|c path]]; try reflexivity.
  cbn [field_get_default]. unfold absolute_url, startswith.
  change (truthy (String c path)) with true. cbn [andb].
  destruct (String.prefix "http" (String c path)); reflexivity.
Qed.

Lemma or_score (likes views : option Z) :
  or_ likes views = score_of likes views.
Proof.
  destruct likes as [n|]; [|reflexivity].
  unfold or_, score_of.
  change (truthy (Some n)) with (negb (n =? 0)%Z).
  destruct (n =? 0)%Z; reflexivity.
Qed.

(** One post: it is appended as [mapped] describes, or the round ends on
    a [TypeError] and [all_items] is left as it was. *)
Lemma append_post_step (query : string) (item : Post)
    (all_items : list TrendItem) (out : list string) (n : nat) :
  append_post query item (mkFrame all_items out n)
  = if mappable item
    then (Return tt, mkFrame (all_items ++ [mapped query item]) out n)
    else (Raise not_subscriptable, mkFrame all_items out n).
Proof.
  unfold append_post, mappable, mapped, bind.
  rewrite tweet_url_absolute, or_score.
  destruct (content item) as [| |words]; cbn [field_get_default text_of];
    rewrite ?str_slice_to_first_characters; reflexivity.
Qed.

(** The loop over the posts of one answer. *)
Lemma append_posts_loop (query : string) (posts : list Post)
    (all_items : list TrendItem) (out : list string) (n : nat) :
  for_each posts (append_post query) (mkFrame all_items out n)
  = (if forallb mappable posts then Return tt else Raise not_subscriptable,
     mkFrame (all_items ++ mapped_prefix query posts) out n).
Proof.
  revert all_items. induction posts as [|item posts IH]; intros all_items.
  - simpl. rewrite app_nil_r. reflexivity.
  - cbn [for_each forallb mapped_prefix]. unfold bind.
    rewrite append_post_step. destruct (mappable item); cbn [andb].
    + rewrite IH. rewrite <- app_assoc. reflexivity.
    + rewrite app_nil_r. reflexivity.
Qed.

(** The round of one query, for a scraper that holds a credential: one
    request is sent, and whatever happens the round returns. *)
Lemma search_step (self : TwitterScraper.t) (client : sela_client)
    (query : string) (all_items : list TrendItem) (out : list string)
    (n : nat) :
  truthy (sela_api_key self) = true ->
  let answer := client n (request self query) in
  search self client query (mkFrame all_items out n)
  = (Return tt,
     mkFrame (all_items ++ items_of (post_count self) query answer)
       (out ++ lines_of (post_count self) query answer)
       (S n)).
Proof.
  intros Hkey. cbv zeta.
  unfold search, try_except, bind, _sela_scrape. rewrite Hkey. cbn [negb].
  unfold bind, send. cbn [locals stdout sent]. fold (request self query).
  unfold items_of, lines_of, failure, posts_of.
  destruct (client n (request self query)) as [resp|e].
  - assert (Hstatus :
      (if negb (status_code resp =? 200)%Z
       then print ("[Sela API] " +:+ str_int (status_code resp) +:+ ": "
                   +:+ text resp)
       else ret tt) (mkFrame all_items out (S n))
      = (Return tt,
         mkFrame all_items
           (out ++ (if (status_code resp =? 200)%Z then []
                    else ["[Sela API] " +:+ str_int (status_code resp)
                          +:+ ": " +:+ text resp]))
           (S n))).
    { destruct (status_code resp =? 200)%Z; cbn.
      - rewrite app_nil_r. reflexivity.
      - reflexivity. }
    rewrite Hstatus. unfold eval.
    destruct (resp_json resp) as [answer_data|e].
    + rewrite append_posts_loop.
      destruct (forallb mappable _).
      * rewrite app_nil_r. reflexivity.
      * cbn [isinstance existsb issubclass orb].
        rewrite print_frame, <- app_assoc. reflexivity.
    + cbn [isinstance existsb issubclass orb].
      rewrite print_frame, app_nil_r, <- app_assoc. reflexivity.
  - cbn [isinstance existsb issubclass orb].
    rewrite print_frame, app_nil_r. reflexivity.
Qed.

(** The loop over the queries, from any point of its run. *)
Lemma search_loop (self : TwitterScraper.t) (client : sela_client)
    (queries : list string) (all_items : list TrendItem) (out : list string)
    (n : nat) :
  truthy (sela_api_key self) = true ->
  for_each queries (search self client) (mkFrame all_items out n)
  = (Return tt,
     mkFrame
       (all_items ++
        concat (imap (fun i query =>
                        items_of (post_count self) query
                          (client (n + i) (request self query))) queries))
       (out ++
        concat (imap (fun i query =>
                        lines_of (post_count self) query
                          (client (n + i) (request self query))) queries))
       (n + length queries)).
Proof.
  intros Hkey. revert all_items out n.
  induction queries as [|query queries IH]; intros all_items out n.
  - simpl. rewrite !app_nil_r, Nat.add_0_r. reflexivity.
  - cbn [for_each imap concat length]. unfold bind.
    rewrite search_step by exact Hkey. rewrite IH.
    rewrite Nat.add_0_r, <- !app_assoc.
    replace (S n + length queries) with (n + S (length queries)) by lia.
    do 3 f_equal.
    + do 2 f_equal. apply imap_ext. intros i q _. unfold compose.
      replace (S n + i) with (n + S i) by lia. reflexivity.
    + do 2 f_equal. apply imap_ext. intros i q _. unfold compose.
      replace (S n + i) with (n + S i) by lia. reflexivity.
Qed.

Lemma mapped_prefix_all (query : string) (posts : list Post) :
  forallb mappable posts = true ->
  mapped_prefix query posts = map (mapped query) posts.
Proof.
  induction posts as [|item posts IH]; [reflexivity|].
  cbn [forallb mapped_prefix map]. destruct (mappable item); [|discriminate].
  intros Hall. rewrite IH by exact Hall. reflexivity.
Qed.

(** The run of [fetch], for clients and scrapers of every kind. *)
Lemma fetch_run (self : TwitterScraper.t) (client : sela_client)
    (f0 : frame (list TrendItem)) :
  let answer i query := client (sent f0 + i) (request self query) in
  let items :=
    concat (imap (fun i query => items_of (post_count self) query (answer i query))
              (search_queries self)) in
  let lines :=
    concat (imap (fun i query => lines_of (post_count self) query (answer i query))
              (search_queries self)) in
  fetch self client f0
  = if truthy (sela_api_key self)
    then (Return items,
          mkFrame items (stdout f0 ++ lines)
            (sent f0 + length (search_queries self)))
    else (Return [], f0).
Proof.
  cbv zeta. unfold fetch.
  destruct (truthy (sela_api_key self)) eqn:Hkey; [|reflexivity].
  cbn [negb]. unfold bind, modify_locals, modify, get_locals.
  rewrite search_loop by exact Hkey. reflexivity.
Qed.

(** C5, as amended.  A post is mapped to one [TrendItem], appended to the
    result.  Its [url] is the post's link, prefixed with [https://x.com]
    when it is not empty and does not start with [http] (so for every path
    that starts with a slash).  Its [score] is the likes count when it is
    present and not zero, and the views count otherwise.  Its [title] is the
    first 100 characters of the text: the beginning of the text, cut where a
    character ends, 100 characters of it or all of it when it has fewer.
    Its [source] is [Twitter/X (<query>)].  Every post whose [content] is
    not [null] is mapped. *)
Theorem post_is_mapped (query : string) (item : Post)
    (all_items : list TrendItem) (out : list string) (n : nat) :
  let run := append_post query item (mkFrame all_items out n) in
  let text := text_of (content item) in
  (content item <> Null ->
   run = (Return tt, mkFrame (all_items ++ [mapped query item]) out n))
  /\ (forall trend,
        locals (snd run) = all_items ++ [trend] ->
        url trend = absolute_url (tweetUrl item)
        /\ score trend
           = match likesCount item with
             | Some likes =>
                 if (likes =? 0)%Z then viewsCount item else Some likes
             | None => viewsCount item
             end
        /\ title trend = TextSpec.first_characters 100 text
        /\ (exists rest,
              text = title trend +:+ rest /\ continues rest = false)
        /\ TextSpec.characters (title trend)
           = Nat.min 100 (TextSpec.characters text)
        /\ source trend = "Twitter/X (" +:+ query +:+ ")"
        /\ description trend = field_get (content item))
  /\ (forall path : string,
        absolute_url (Value ("/" +:+ path)) = Some ("https://x.com/" +:+ path))
  /\ (forall link : string,
        String.prefix "http" link = true -> absolute_url (Value link) = Some link).
Proof.
  cbv zeta. rewrite append_post_step. split; [|split; [|split]].
  - intros Hcontent. unfold mappable.
    destruct (content item); [reflexivity|congruence|reflexivity].
  - intros trend. destruct (mappable item); cbn [snd locals]; intros Happended.
    + apply app_inv_head in Happended. injection Happended as <-.
      cbn [mapped url score title source description].
      split; [reflexivity|]. split; [reflexivity|]. split; [reflexivity|].
      split; [|split; [apply characters_first|split; reflexivity]].
      destruct (first_characters_prefix 100 (text_of (content item)))
        as (rest & Hcut & [Hzero|Hrest]); [discriminate|].
      exists rest. split; [exact Hcut|exact Hrest].
    + apply (f_equal length) in Happended.
      rewrite length_app in Happended. cbn [length] in Happended. lia.
  - intros path. reflexivity.
  - intros [|c link] Hlink; [reflexivity|].
    unfold absolute_url. rewrite Hlink. reflexivity.
Qed.

(** C5, as the specification words it, fails: a post with no like and
    seven views is given the score 7, not its likes count. *)
Lemma likes_zero_scores_views :
  let item := mkPost (Value "/dev/status/1") (Value "hello") (Some 0%Z) (Some 7%Z) in
  let self := TwitterScraper.mk (Some "key") ["AI agent"] 5 in
  let client : sela_client := fun _ _ =>
    Return (mkResponse 200 "" (Return (mkSelaJson (Some (mkSelaData (Some [item])))))) in
  exists trend,
    fst (fetch self client (mkFrame [] [] 0)) = Return [trend]
    /\ score trend = Some 7%Z
    /\ claimed_score (likesCount item) (viewsCount item) = Some 0%Z
    /\ score trend <> claimed_score (likesCount item) (viewsCount item).
Proof.
  cbv zeta. eexists. split; [vm_compute; reflexivity|].
  split; [reflexivity|]. split; [reflexivity|]. discriminate.
Qed.

(** C6, as amended. Whatever the service answers to each query, [fetch]
    returns, and every query is handled on its own: the result is the
    concatenation, in the order of the queries, of what each query
    contributes, one request being sent per query.  A query that does not
    fail contributes all its posts, mapped; a query that fails prints its
    own line and contributes the posts mapped before the failure (none when
    the exchange or the decoding failed). *)
Theorem fetch_isolates_queries (self : TwitterScraper.t) (client : sela_client)
    (f0 : frame (list TrendItem)) :
  let answer i query := client (sent f0 + i) (request self query) in
  let items :=
    concat (imap (fun i query => items_of (post_count self) query (answer i query))
              (search_queries self)) in
  let lines :=
    concat (imap (fun i query => lines_of (post_count self) query (answer i query))
              (search_queries self)) in
  fetch self client f0
  = (if truthy (sela_api_key self)
     then (Return items,
           mkFrame items (stdout f0 ++ lines)
             (sent f0 + length (search_queries self)))
     else (Return [], f0))
  /\ (forall post_count query answer posts,
        posts_of post_count answer = inr posts ->
        forallb mappable posts = true ->
        failure post_count answer = None
        /\ items_of post_count query answer = map (mapped query) posts)
  /\ (forall post_count query answer e,
        posts_of post_count answer = inl e ->
        failure post_count answer = Some e
        /\ items_of post_count query answer = []).
Proof.
  cbv zeta. split; [apply fetch_run|]. split.
  - intros pc query answer posts Hposts Hall.
    unfold failure, items_of. rewrite Hposts, Hall.
    split; [reflexivity|]. apply mapped_prefix_all. exact Hall.
  - intros pc query answer e Hposts.
    unfold failure, items_of. rewrite Hposts. split; reflexivity.
Qed.

(** C6, as the specification words it, fails: the second post of the first
    query cannot be mapped, the query fails, and the post mapped before the
    failure is part of the result all the same. *)
Lemma failing_query_keeps_mapped_posts :
  let first := mkPost (Value "/a/status/1") (Value "first") (Some 3%Z) None in
  let broken := mkPost (Value "/a/status/2") Null None None in
  let second := mkPost (Value "/b/status/3") (Value "second") None (Some 9%Z) in
  let self := TwitterScraper.mk (Some "key") ["a"; "b"] 5 in
  let client : sela_client := fun n _ =>
    Return (mkResponse 200 ""
              (Return (mkSelaJson (Some (mkSelaData (Some
                 match n with 0 => [first; broken] | _ => [second] end)))))) in
  let claimed :=
    concat (imap (fun i query =>
                    claimed_items (post_count self) query
                      (client i (request self query)))
              (search_queries self)) in
  fst (fetch self client (mkFrame [] [] 0))
    = Return [mapped "a" first; mapped "b" second]
  /\ claimed = [mapped "b" second]
  /\ fst (fetch self client (mkFrame [] [] 0)) <> Return claimed
  /\ stdout (snd (fetch self client (mkFrame [] [] 0)))
     = ["[Twitter/X] Error searching 'a': 'NoneType' object is not subscriptable"].
Proof.
  cbv zeta. split; [vm_compute; reflexivity|].
  split; [vm_compute; reflexivity|].
  split; [vm_compute; discriminate|]. vm_compute. reflexivity.
Qed.

End Twitter.

(** ** GitHubScraper.fetch *)

Section GitHub.
Import GitHubScraper GitHubSpec.
Context {L : Type}.

Lemma to_trend_item_run (repo : Repo) (f : frame L) :
  to_trend_item repo f
  = match missing_key repo with
    | None => (Return (mapped repo), f)
    | Some key => (Raise (mkException KeyError ("'" +:+ key +:+ "'")), f)
    end.
Proof.
  unfold to_trend_item, missing_key, mapped, bind.
  destruct repo as [[name|] language [link|] [stars|] about]; cbn;
    destruct language as [| |[|c s]]; reflexivity.
Qed.

Lemma comprehension_run (repos : list Repo) (f : frame L) :
  comprehension to_trend_item repos f
  = match first_missing_key repos with
    | None => (Return (map mapped repos), f)
    | Some key => (Raise (mkException KeyError ("'" +:+ key +:+ "'")), f)
    end.
Proof.
  induction repos as [|repo repos IH]; [reflexivity|].
  cbn [comprehension first_missing_key map]. unfold bind at 1.
  rewrite to_trend_item_run. destruct (missing_key repo); [reflexivity|].
  unfold bind. rewrite IH. destruct (first_missing_key repos); reflexivity.
Qed.

Lemma fetch_github_run (self : GitHubScraper.t) (yesterday : string)
    (client : github_client) (f0 : frame L) :
  let answer := client (sent f0) (request yesterday) in
  fetch self yesterday client f0
  = (Return (result_of answer),
     mkFrame (locals f0) (stdout f0 ++ lines_of answer) (S (sent f0))).
Proof.
  cbv zeta. unfold fetch, try_except, bind, send. fold (request yesterday).
  unfold result_of, lines_of, failure.
  destruct (client (sent f0) (request yesterday)) as [resp|e].
  - unfold eval. destruct (resp_json resp) as [found|e].
    + change (slice_to 10 (default [] (items found)))
        with (firstn 10 (default [] (items found))).
      rewrite comprehension_run.
      destruct (first_missing_key _).
      * cbn [isinstance existsb issubclass orb]. unfold bind.
        rewrite print_frame. reflexivity.
      * rewrite app_nil_r. reflexivity.
    + cbn [isinstance existsb issubclass orb]. unfold bind.
      rewrite print_frame. reflexivity.
  - cbn [isinstance existsb issubclass orb]. unfold bind.
    rewrite print_frame. reflexivity.
Qed.

(** C8. For every answer to the repository search, [fetch] returns a list:
    at most the first ten results, each mapped to a [TrendItem] whose score
    is the stargazers count and whose title is [full_name - language], with
    [Unknown] for a [null] language, or the empty list when the fetch
    failed; an answer with an empty [items] array gives the empty list and
    prints no error. *)
Theorem fetch_maps_first_ten (self : GitHubScraper.t) (yesterday : string)
    (client : github_client) (f0 : frame L) :
  let answer := client (sent f0) (request yesterday) in
  fetch self yesterday client f0
  = (Return (result_of answer),
     mkFrame (locals f0) (stdout f0 ++ lines_of answer) (S (sent f0)))
  /\ length (result_of answer) <= 10
  /\ match failure answer with
     | Some e =>
         result_of answer = []
         /\ lines_of answer = ["[GitHub] Error: " +:+ exc_str e]
     | None =>
         lines_of answer = []
         /\ exists resp found,
              answer = Return resp /\ resp_json resp = Return found
              /\ result_of answer
                 = map mapped (firstn 10 (default [] (items found)))
     end
  /\ (forall status body,
        let empty := Return (mkResponse status body
                               (Return (mkSearchJson (Some [])))) in
        result_of empty = [] /\ lines_of empty = [])
  /\ (forall name language link stars about,
        let item := mapped (mkRepo (Some name) language (Some link)
                              (Some stars) about) in
        score item = Some stars
        /\ title item
           = name +:+ " - " +:+
             match language with
             | Value (String c s) => String c s
             | _ => "Unknown"
             end).
Proof.
  cbv zeta. split; [apply fetch_github_run|].
  generalize (client (sent f0) (request yesterday)) as answer. intros answer.
  split; [|split; [|split]].
  - unfold result_of. destruct (failure answer); [cbn; lia|].
    destruct answer as [resp|e]; [|cbn; lia].
    destruct (resp_json resp) as [found|e]; [|cbn; lia].
    rewrite length_map, length_firstn. lia.
  - unfold lines_of, result_of. destruct (failure answer) as [e|] eqn:Hfail.
    + split; reflexivity.
    + split; [reflexivity|]. unfold failure in Hfail.
      destruct answer as [resp|e]; [|discriminate].
      destruct (resp_json resp) as [found|e] eqn:Hjson; [|discriminate].
      exists resp, found. repeat split. exact Hjson.
  - intros status body. split; reflexivity.
  - intros name language link stars about. split; [reflexivity|].
    destruct language as [| |[|c s]]; reflexivity.
Qed.

End GitHub.

(** ** TrendAnalyzer._format_trends *)

Section Digest.
Import TrendAnalyzer DigestSpec.

(** *** Dicts built from a list of distinct keys *)

Lemma dict_contains_map {V} (h : string -> V) (key : string) (keys : list string) :
  dict_contains key (map (fun k => (k, h k)) keys) = bool_decide (key ∈ keys).
Proof.
  induction keys as [|k keys IH]; [reflexivity|].
  cbn [map dict_contains existsb fst]. fold (dict_contains key (map (fun k => (k, h k)) keys)).
  rewrite IH. destruct (String.eqb_spec k key) as [->|Hne].
  - symmetry. apply bool_decide_eq_true. left.
  - cbn [orb]. apply bool_decide_ext. rewrite elem_of_cons.
    split; [intros Hin; right; exact Hin|intros [Heq|Hin]; [congruence|exact Hin]].
Qed.

Lemma dict_setitem_new {V} (h : string -> V) (key : string) (v : V)
    (keys : list string) :
  key ∉ keys ->
  dict_setitem key v (map (fun k => (k, h k)) keys)
  = map (fun k => (k, h k)) keys ++ [(key, v)].
Proof.
  induction keys as [|k keys IH]; intros Hnew; [reflexivity|].
  apply not_elem_of_cons in Hnew as [Hne Hnew].
  cbn [map dict_setitem app]. destruct (String.eqb_spec k key) as [->|_];
    [contradiction|].
  rewrite IH by exact Hnew. reflexivity.
Qed.

Lemma dict_update_map {V} (h : string -> V) (f : V -> V) (key : string)
    (keys : list string) :
  NoDup keys ->
  dict_update key f (map (fun k => (k, h k)) keys)
  = map (fun k => (k, if decide (k = key) then f (h k) else h k)) keys.
Proof.
  induction 1 as [|k keys Hk Hkeys IH]; [reflexivity|].
  cbn [map dict_update]. destruct (String.eqb_spec k key) as [->|Hne].
  - rewrite decide_True by reflexivity. f_equal.
    apply map_ext_in. intros k Hin. apply list_elem_of_In in Hin.
    rewrite decide_False; [reflexivity|]. intros ->. contradiction.
  - rewrite decide_False by exact Hne. rewrite IH. reflexivity.
Qed.

Lemma dict_update_last {V} (f : V -> V) (key : string) (v : V) (d : dict V) :
  dict_contains key d = false ->
  dict_update key f (d ++ [(key, v)]) = d ++ [(key, f v)].
Proof.
  induction d as [|[k x] d IH]; intros Hnew.
  - cbn. rewrite String.eqb_refl. reflexivity.
  - cbn in Hnew |- *. destruct (String.eqb k key); [discriminate|].
    rewrite IH by exact Hnew. reflexivity.
Qed.

(** *** Labels and groups *)

Lemma labels_sources (trends : list TrendItem) (label : string) :
  label ∈ labels trends <-> exists trend, trend ∈ trends /\ source trend = label.
Proof.
  induction trends as [|trend trends IH]; cbn [labels].
  - split; [intros Hin; inversion Hin|intros (t & Hin & _); inversion Hin].
  - rewrite elem_of_cons, list_elem_of_filter, IH. split.
    + intros [->|[_ (t & Hin & Heq)]].
      * exists trend. split; [left|reflexivity].
      * exists t. split; [right; exact Hin|exact Heq].
    + intros (t & Hin & Heq). apply elem_of_cons in Hin as [->|Hin].
      * left. symmetry. exact Heq.
      * destruct (decide (label = source trend)) as [->|Hne]; [left; reflexivity|].
        right. split; [exact Hne|]. exists t. split; assumption.
Qed.

Lemma labels_NoDup (trends : list TrendItem) : NoDup (labels trends).
Proof.
  induction trends as [|trend trends IH]; cbn [labels]; [constructor|].
  constructor.
  - rewrite list_elem_of_filter. intros [Hne _]. apply Hne. reflexivity.
  - apply NoDup_filter. exact IH.
Qed.

(** A label is new when an item arrives exactly if no earlier item carries
    it, and then it goes last. *)
Lemma labels_snoc (trends : list TrendItem) (trend : TrendItem) :
  labels (trends ++ [trend])
  = if decide (source trend ∈ labels trends) then labels trends
    else labels trends ++ [source trend].
Proof.
  induction trends as [|first trends IH].
  - cbn. rewrite decide_False; [reflexivity|]. intros Hin. inversion Hin.
  - cbn [app labels]. rewrite IH.
    destruct (decide (source trend = source first)) as [Heq|Hne].
    + rewrite (decide_True (P := source trend ∈ source first :: _))
        by (rewrite Heq; left).
      destruct (decide (source trend ∈ labels trends)); [reflexivity|].
      rewrite filter_app, filter_cons_False, filter_nil, app_nil_r
        by (intros Hne; apply Hne; exact Heq).
      reflexivity.
    + destruct (decide (source trend ∈ labels trends)) as [Hin|Hnin].
      * rewrite decide_True; [reflexivity|].
        right. apply list_elem_of_filter. split; assumption.
      * rewrite decide_False.
        -- rewrite filter_app, filter_cons_True, filter_nil by exact Hne.
           reflexivity.
        -- rewrite elem_of_cons, list_elem_of_filter.
           intros [Heq|[_ Hin]]; [exact (Hne Heq)|exact (Hnin Hin)].
Qed.

Lemma group_of_snoc (label : string) (trends : list TrendItem)
    (trend : TrendItem) :
  group_of label (trends ++ [trend])
  = group_of label trends ++ (if decide (source trend = label) then [trend] else []).
Proof.
  unfold group_of. rewrite filter_app. reflexivity.
Qed.

Lemma group_of_unknown (label : string) (trends : list TrendItem) :
  label ∉ labels trends -> group_of label trends = [].
Proof.
  intros Hnew. unfold group_of.
  induction trends as [|trend trends IH]; [reflexivity|].
  rewrite labels_sources in Hnew.
  rewrite filter_cons_False.
  - apply IH. rewrite labels_sources. intros (t & Hin & Heq).
    apply Hnew. exists t. split; [right; exact Hin|exact Heq].
  - intros Heq. apply Hnew. exists trend. split; [left|exact Heq].
Qed.

(** *** The grouping loop *)

Lemma group_step (trends : list TrendItem) (trend : TrendItem) :
  group (map (fun label => (label, group_of label trends)) (labels trends)) trend
  = map (fun label => (label, group_of label (trends ++ [trend])))
      (labels (trends ++ [trend])).
Proof.
  unfold group. rewrite dict_contains_map, labels_snoc.
  destruct (decide (source trend ∈ labels trends)) as [Hknown|Hnew].
  - rewrite bool_decide_eq_true_2 by exact Hknown. cbn [negb].
    rewrite dict_update_map by apply labels_NoDup.
    apply map_ext. intros label. rewrite group_of_snoc.
    destruct (decide (label = source trend)) as [->|Hne].
    + rewrite decide_True by reflexivity. reflexivity.
    + rewrite decide_False by congruence. rewrite app_nil_r. reflexivity.
  - rewrite bool_decide_eq_false_2 by exact Hnew. cbn [negb].
    rewrite dict_setitem_new by exact Hnew.
    rewrite dict_update_last
      by (rewrite dict_contains_map; apply bool_decide_eq_false_2; exact Hnew).
    rewrite map_app. cbn [map]. f_equal.
    + apply map_ext_in. intros label Hin. apply list_elem_of_In in Hin.
      rewrite group_of_snoc, decide_False, app_nil_r; [reflexivity|].
      intros Heq. apply Hnew. rewrite Heq. exact Hin.
    + rewrite group_of_snoc, decide_True by reflexivity.
      rewrite group_of_unknown by exact Hnew. reflexivity.
Qed.

(** After the loop, [grouped] holds one entry per label, in the order of
    first appearance, with the items of the label in their order. *)
Lemma grouped_by_source (trends : list TrendItem) :
  fold_left group trends []
  = map (fun label => (label, group_of label trends)) (labels trends).
Proof.
  induction trends as [|trend trends IH] using rev_ind; [reflexivity|].
  rewrite fold_left_app. cbn [fold_left]. rewrite IH. apply group_step.
Qed.

(** *** The rendering loops *)

Lemma format_item_render (item : TrendItem) : format_item item = render item.
Proof.
  unfold format_item, render, score_suffix, follow_up.
  destruct (score item) as [[|n|n]|], (description item) as [[|c d]|];
    cbv beta iota zeta; rewrite ?str_slice_to_first_characters; reflexivity.
Qed.

Lemma append_each {A} (f : A -> string) (items : list A) (lines : list string) :
  fold_left (fun lines item => lines ++ [f item]) items lines
  = lines ++ map f items.
Proof.
  revert lines. induction items as [|item items IH]; intros lines; cbn.
  - rewrite app_nil_r. reflexivity.
  - rewrite IH, <- app_assoc. reflexivity.
Qed.

Lemma format_group_lines (lines : list string) (label : string)
    (items : list TrendItem) :
  format_group lines (label, items)
  = lines ++ heading label :: map render (firstn 10 items) ++ [EmptyString].
Proof.
  unfold format_group. rewrite append_each.
  change (slice_to 10 items) with (firstn 10 items).
  rewrite (map_ext _ _ format_item_render), <- !app_assoc. reflexivity.
Qed.

Lemma format_groups_lines (trends : list TrendItem) (keys : list string)
    (lines : list string) :
  fold_left format_group
    (map (fun label => (label, group_of label trends)) keys) lines
  = lines ++ concat (map (section_of trends) keys).
Proof.
  revert lines. induction keys as [|label keys IH]; intros lines; cbn [map fold_left concat].
  - rewrite app_nil_r. reflexivity.
  - rewrite format_group_lines, IH, <- app_assoc. reflexivity.
Qed.

Lemma format_lines_digest (trends : list TrendItem) :
  format_lines trends = digest_lines trends.
Proof.
  unfold format_lines, digest_lines.
  rewrite grouped_by_source, format_groups_lines. reflexivity.
Qed.

(** *** Headings *)

Lemma heading_injective (a b : string) : heading a = heading b -> a = b.
Proof. unfold heading. simpl. intros Heq. injection Heq as Heq. exact Heq. Qed.

Lemma render_not_heading (item : TrendItem) (label : string) :
  render item <> heading label.
Proof. unfold render, heading. simpl. discriminate. Qed.

Lemma occurrences_app (line : string) (l1 l2 : list string) :
  occurrences line (l1 ++ l2) = occurrences line l1 + occurrences line l2.
Proof. unfold occurrences. rewrite filter_app, length_app. reflexivity. Qed.

Lemma heading_in_section (trends : list TrendItem) (label other : string) :
  occurrences (heading label) (section_of trends other)
  = if decide (other = label) then 1 else 0.
Proof.
  unfold section_of.
  change (heading other :: map render (shown other trends) ++ [EmptyString])
    with ([heading other] ++ map render (shown other trends) ++ [EmptyString]).
  rewrite !occurrences_app.
  assert (Hitems : occurrences (heading label) (map render (shown other trends)) = 0).
  { induction (shown other trends) as [|item items IH]; [reflexivity|].
    unfold occurrences in *. cbn [map].
    rewrite filter_cons_False by apply render_not_heading. exact IH. }
  rewrite Hitems. unfold occurrences.
  rewrite (filter_cons_False _ EmptyString) by discriminate.
  destruct (decide (other = label)) as [->|Hne].
  - rewrite filter_cons_True by reflexivity. reflexivity.
  - rewrite filter_cons_False; [reflexivity|].
    intros Heq. apply Hne. apply heading_injective. exact Heq.
Qed.

Lemma heading_once (trends : list TrendItem) (label : string)
    (keys : list string) :
  NoDup keys -> label ∈ keys ->
  occurrences (heading label) (concat (map (section_of trends) keys)) = 1.
Proof.
  assert (Hnone : forall l, label ∉ l ->
            occurrences (heading label) (concat (map (section_of trends) l)) = 0).
  { induction l as [|other l IH]; intros Hnot; [reflexivity|].
    apply not_elem_of_cons in Hnot as [Hne Hnot].
    cbn [map concat]. rewrite occurrences_app, heading_in_section.
    rewrite decide_False by congruence. rewrite IH by exact Hnot. reflexivity. }
  induction 1 as [|other keys Hother Hkeys IH]; intros Hin; [inversion Hin|].
  cbn [map concat]. rewrite occurrences_app, heading_in_section.
  destruct (decide (other = label)) as [->|Hne].
  - rewrite Hnone by exact Hother. reflexivity.
  - apply elem_of_cons in Hin as [Heq|Hin]; [congruence|].
    rewrite IH by exact Hin. reflexivity.
Qed.

(** C4. For every list of items, the digest groups the items by source
    label, the labels in the order of their first appearance and the items
    of a label in their original order; each label has its heading exactly
    once; a group shows at most its first ten items; an item is rendered as
    its title, the suffix [ (score: N)] when it has a score that counts, and
    a follow-up line with the first 100 characters of its description and an
    ellipsis when it has a description that counts.  The first 100
    characters are the beginning of the description, cut where a character
    ends: 100 characters of it, or all of it when it has fewer. *)
Theorem format_trends_groups_by_source (self : TrendAnalyzer.t)
    (trends : list TrendItem) :
  _format_trends self trends = join nl (digest_lines trends)
  /\ format_lines trends = concat (map (section_of trends) (labels trends))
  /\ NoDup (labels trends)
  /\ (forall label,
        label ∈ labels trends
        <-> exists trend, trend ∈ trends /\ source trend = label)
  /\ (forall trend,
        labels (trends ++ [trend])
        = if decide (source trend ∈ labels trends) then labels trends
          else labels trends ++ [source trend])
  /\ (forall label,
        label ∈ labels trends ->
        occurrences (heading label) (format_lines trends) = 1)
  /\ (forall label,
        length (shown label trends) <= 10
        /\ shown label trends
           = firstn 10 (filter (fun trend => source trend = label) trends))
  /\ (forall item, format_item item = render item)
  /\ (forall item text,
        description item = Some text -> text <> EmptyString ->
        exists shown_text rest,
          format_item item
          = "- " +:+ title item +:+ score_suffix (score item) +:+ nl +:+ "   "
            +:+ shown_text +:+ "..."
          /\ text = shown_text +:+ rest
          /\ continues rest = false
          /\ TextSpec.characters shown_text
             = Nat.min 100 (TextSpec.characters text)).
Proof.
  split; [unfold _format_trends; rewrite format_lines_digest; reflexivity|].
  split; [apply format_lines_digest|].
  split; [apply labels_NoDup|].
  split; [intros label; apply labels_sources|].
  split; [intros trend; apply labels_snoc|].
  split.
  { intros label Hin. rewrite format_lines_digest.
    apply heading_once; [apply labels_NoDup|exact Hin]. }
  split.
  { intros label. split; [|reflexivity].
    unfold shown. rewrite length_firstn. lia. }
  split; [apply format_item_render|].
  intros item text Htext Hfull.
  destruct (first_characters_prefix 100 text) as (rest & Hcut & [Hzero|Hrest]);
    [discriminate|].
  exists (TextSpec.first_characters 100 text), rest.
  split; [|split; [exact Hcut|split; [exact Hrest|apply characters_first]]].
  rewrite format_item_render. unfold render, follow_up. rewrite Htext.
  destruct text as [|c text]; [congruence|reflexivity].
Qed.

(** *** Truthiness *)

Import TruthinessSpec.

Lemma render_forget_falsy (item : TrendItem) :
  render (forget_falsy item) = render item.
Proof.
  unfold render, forget_falsy; cbn [title score description].
  destruct (score item) as [[|n|n]|], (description item) as [[|c d]|];
    reflexivity.
Qed.

Lemma labels_forget_falsy (trends : list TrendItem) :
  labels (map forget_falsy trends) = labels trends.
Proof.
  induction trends as [|trend trends IH]; [reflexivity|].
  cbn [map labels]. rewrite IH. reflexivity.
Qed.

Lemma group_of_forget_falsy (label : string) (trends : list TrendItem) :
  group_of label (map forget_falsy trends)
  = map forget_falsy (group_of label trends).
Proof.
  unfold group_of. induction trends as [|trend trends IH]; [reflexivity|].
  cbn [map]. destruct (decide (source trend = label)) as [Heq|Hne].
  - rewrite !filter_cons_True by exact Heq. cbn [map]. rewrite IH. reflexivity.
  - rewrite !filter_cons_False by exact Hne. exact IH.
Qed.

Lemma section_forget_falsy (trends : list TrendItem) (label : string) :
  section_of (map forget_falsy trends) label = section_of trends label.
Proof.
  unfold section_of, shown. rewrite group_of_forget_falsy, firstn_map, map_map.
  rewrite (map_ext _ _ render_forget_falsy). reflexivity.
Qed.

(** C10. The digest decides by truthiness: an item whose score is 0 is
    rendered as the same item without a score, with no [ (score: N)]
    suffix, and an item whose description is the empty string as the same
    item without a description, with no follow-up line; forgetting every
    zero score and every empty description changes nothing in the digest. *)
Theorem falsy_fields_are_not_rendered (self : TrendAnalyzer.t)
    (label headline : string) (link : option string) (points : option Z)
    (about : option string) (trends : list TrendItem) :
  format_item (mkTrendItem label headline link (Some 0%Z) about)
    = format_item (mkTrendItem label headline link None about)
  /\ format_item (mkTrendItem label headline link points (Some EmptyString))
     = format_item (mkTrendItem label headline link points None)
  /\ format_item (mkTrendItem label headline link (Some 0%Z) (Some EmptyString))
     = "- " +:+ headline
  /\ _format_trends self (map forget_falsy trends) = _format_trends self trends.
Proof.
  split; [reflexivity|]. split; [destruct points as [[|n|n]|]; reflexivity|].
  split.
  { unfold format_item. cbn [score description title].
    change (truthy 0%Z) with false. change (truthy EmptyString) with false.
    cbv iota. change (EmptyString +:+ EmptyString) with EmptyString.
    rewrite append_empty_r. reflexivity. }
  unfold _format_trends. rewrite !format_lines_digest. unfold digest_lines.
  rewrite labels_forget_falsy.
  rewrite (map_ext _ _ (section_forget_falsy trends)). reflexivity.
Qed.

End Digest.

(** ** TrendAnalyzer.analyze_and_generate: the parse step *)

Section Parse.
Import TrendAnalyzer ParseSpec pydantic.

(** *** What a validation that succeeds says about its input *)

Lemma fmap_validated_inr {A B} (f : A -> B) (v : validated A) (b : B) :
  fmap_validated f v = inr b -> exists a, v = inr a /\ b = f a.
Proof.
  destruct v as [errors|a]; [discriminate|]. intros [= <-]. exists a. split; reflexivity.
Qed.

Lemma both_inr {A B} (va : validated A) (vb : validated B) (a : A) (b : B) :
  both va vb = inr (a, b) -> va = inr a /\ vb = inr b.
Proof.
  destruct va, vb; try discriminate. intros [= -> ->]. split; reflexivity.
Qed.

Lemma at_loc_inr {A} (here : loc_item) (v : validated A) (a : A) :
  at_loc here v = inr a -> v = inr a.
Proof. destruct v; [discriminate|]. intros H. exact H. Qed.

Lemma all_of_inr {A} (vs : list (validated A)) (xs : list A) :
  all_of vs = inr xs -> Forall2 (fun v x => v = inr x) vs xs.
Proof.
  revert xs. induction vs as [|v vs IH]; intros xs; cbn [all_of].
  - intros [= <-]. constructor.
  - intros Hall. apply fmap_validated_inr in Hall as ([x xs'] & Hboth & ->).
    apply both_inr in Hboth as [Hv Hvs]. cbn [fst snd].
    constructor; [exact Hv|]. apply IH. exact Hvs.
Qed.

Lemma list_schema_inr {A} (item : json -> validated A) (input : json)
    (xs : list A) :
  list_schema item input = inr xs ->
  exists elements,
    input = JList elements /\ Forall2 (fun element x => item element = inr x) elements xs.
Proof.
  destruct input as [| | | | |elements|]; try discriminate.
  cbn [list_schema]. intros Hall. exists elements. split; [reflexivity|].
  apply all_of_inr in Hall. revert xs Hall.
  generalize Index as where_. induction elements as [|element elements IH];
    intros where_ xs Hall; cbn [imap] in Hall.
  - inversion Hall. constructor.
  - inversion Hall as [|v x vs xs' Hv Hvs]; subst. constructor.
    + eapply at_loc_inr. exact Hv.
    + apply (IH (where_ ∘ S)). exact Hvs.
Qed.

Lemma required_inr {A} (key : string) (schema : json -> validated A)
    (kw : dict json) (a : A) :
  required key schema kw = inr a ->
  exists input, dict_get key kw = Some input /\ schema input = inr a.
Proof.
  unfold required. destruct (dict_get key kw) as [input|]; [|discriminate].
  intros Hv. exists input. split; [reflexivity|]. eapply at_loc_inr. exact Hv.
Qed.

(** *** The four ways the [try] can go *)

Context {S : Type}.

Lemma parse_decode_error (text : string) (e : Exception) (s : S) :
  isinstance e [JSONDecodeError; TypeError] = true ->
  parse_response text (Raise e) s = (Raise (GenerationError e text), s).
Proof.
  intros Hcaught. unfold parse_response, try_except, bind, eval. rewrite Hcaught.
  reflexivity.
Qed.

Lemma parse_not_a_mapping (text : string) (decoded : json) (s : S) :
  (forall kw, decoded <> JDict kw) ->
  exists cause,
    exc_type cause = TypeError
    /\ parse_response text (Return decoded) s
       = (Raise (GenerationError cause text), s).
Proof.
  intros Hshape.
  exists (mkException TypeError
            ("src.analyzer.AnalysisResult() argument after ** must be a mapping, not "
             +:+ type_name decoded)).
  unfold parse_response, try_except, bind, eval, AnalysisResult_of.
  destruct decoded; try (split; reflexivity).
  exfalso. eapply Hshape. reflexivity.
Qed.

Lemma parse_invalid (text : string) (kw : dict json)
    (errors : list ErrorDetails) (s : S) :
  AnalysisResult_fields kw = inl errors ->
  parse_response text (Return (JDict kw)) s
  = (Raise (mkException ValidationError
              (error_count_line "AnalysisResult" errors)), s).
Proof.
  intros Hinvalid. unfold parse_response, try_except, bind, eval, AnalysisResult_of.
  rewrite Hinvalid. reflexivity.
Qed.

Lemma parse_valid (text : string) (kw : dict json) (result : AnalysisResult.t)
    (s : S) :
  AnalysisResult_fields kw = inr result ->
  parse_response text (Return (JDict kw)) s = (Return result, s).
Proof.
  intros Hvalid. unfold parse_response, try_except, bind, eval, AnalysisResult_of.
  rewrite Hvalid. reflexivity.
Qed.

Lemma parse_returns (text : string) (loaded : outcome json)
    (result : AnalysisResult.t) (s s' : S) :
  parse_response text loaded s = (Return result, s') ->
  exists kw, loaded = Return (JDict kw) /\ AnalysisResult_fields kw = inr result.
Proof.
  unfold parse_response, try_except, bind, eval, raise.
  destruct loaded as [decoded|e].
  - unfold AnalysisResult_of. destruct decoded as [| | | | | |kw];
      try (cbn; discriminate).
    destruct (AnalysisResult_fields kw) as [errors|r] eqn:Hfields.
    + cbn. discriminate.
    + intros [= -> _]. exists kw. split; [reflexivity|exact Hfields].
  - destruct (isinstance e [JSONDecodeError; TypeError]); discriminate.
Qed.

(** C2. A text that is not JSON, and a JSON text that decodes to something
    other than an object, make the parse step raise the error built by its
    handler, which carries the cause and the raw text.  A JSON object that
    does not validate does not: at the text [{"trend_summary": "x"}], which
    lacks [ideas], the [ValidationError] of pydantic is none of the classes
    the handler catches and leaves the parse step as it is, without the raw
    text. *)
Theorem missing_ideas_escapes_the_handler (s : S) :
  (forall text e,
      isinstance e [JSONDecodeError; TypeError] = true ->
      parse_response text (Raise e) s = (Raise (GenerationError e text), s))
  /\ parse_response Samples.a_list_text (Return Samples.a_list) s
     = (Raise (GenerationError
                 (mkException TypeError
                    "src.analyzer.AnalysisResult() argument after ** must be a mapping, not list")
                 Samples.a_list_text), s)
  /\ (exists e,
        parse_response Samples.missing_ideas_text (Return Samples.missing_ideas) s
          = (Raise e, s)
        /\ exc_type e = ValidationError
        /\ isinstance e [JSONDecodeError; TypeError] = false
        /\ forall cause, e <> GenerationError cause Samples.missing_ideas_text).
Proof.
  split; [intros text e; apply parse_decode_error|].
  split; [reflexivity|].
  eexists. split; [reflexivity|]. split; [reflexivity|]. split; [reflexivity|].
  intros cause. discriminate.
Qed.

(** C9, as amended. Every result of a successful parse holds one
    [IdeaSuggestion] per element of the [ideas] array of the response, in
    the order of the array, each validated from its element; the parse does
    not check how many there are. *)
Theorem parsed_ideas_follow_the_response (text : string)
    (loaded : outcome json) (result : AnalysisResult.t) (s s' : S) :
  parse_response text loaded s = (Return result, s') ->
  exists kw elements,
    loaded = Return (JDict kw)
    /\ dict_get "ideas" kw = Some (JList elements)
    /\ Forall2 idea_of elements (AnalysisResult.ideas result)
    /\ length (AnalysisResult.ideas result) = length elements.
Proof.
  intros Hparsed. apply parse_returns in Hparsed as (kw & -> & Hfields).
  unfold AnalysisResult_fields in Hfields.
  apply fmap_validated_inr in Hfields as ([summary ideas] & Hboth & ->).
  apply both_inr in Hboth as [_ Hideas].
  apply required_inr in Hideas as (input & Hget & Hlist).
  apply list_schema_inr in Hlist as (elements & -> & Hall).
  exists kw, elements. cbn [AnalysisResult.ideas].
  split; [reflexivity|]. split; [exact Hget|]. split; [exact Hall|].
  symmetry. eapply Forall2_length. exact Hall.
Qed.

(** C9, as the specification words it, fails: a response whose [ideas]
    array is empty parses, and the result holds no idea, not three. *)
Lemma empty_ideas_parse :
  exists result,
    parse_response (S := unit) Samples.no_ideas_text (Return Samples.no_ideas) tt
      = (Return result, tt)
    /\ length (AnalysisResult.ideas result) = 0
    /\ length (AnalysisResult.ideas result) <> REQUESTED_IDEAS.
Proof.
  eexists. split; [reflexivity|]. split; [reflexivity|]. discriminate.
Qed.

End Parse.

(** ** The theorems at concrete inputs *)

Lemma parsed_ideas_follow_the_response_witness :
  exists result,
    TrendAnalyzer.parse_response (S := unit) Samples.one_idea_text
      (Return Samples.one_idea) tt = (Return result, tt)
    /\ exists kw elements,
         Return Samples.one_idea = Return (JDict kw)
         /\ dict_get "ideas" kw = Some (JList elements)
         /\ Forall2 ParseSpec.idea_of elements (AnalysisResult.ideas result)
         /\ length (AnalysisResult.ideas result) = length elements.
Proof.
  eexists. split; [reflexivity|].
  apply (parsed_ideas_follow_the_response (S := unit) Samples.one_idea_text
           (Return Samples.one_idea) _ tt tt).
  reflexivity.
Defined.

Lemma nothing_collected_short_circuits_witness :
  TrendScraper.get_all_trends (DailyIdeaService.scraper Scenarios.no_source)
    (DailyIdeaService.await_fetch Scenarios.quiet_world) (mkFrame [] [] 0)
  = (Return [], mkFrame [] ["Warning: No scrapers enabled"] 0)
  /\ DailyIdeaService._generate_and_send_ideas Scenarios.github_only
       Scenarios.quiet_world "42" []
     = (Return tt,
        [Info "Starting trend collection...";
         Info "Collected 0 trend items";
         SendError "42" DailyIdeaService.NOTHING_COLLECTED]).
Proof.
  split.
  - apply (proj1 (nothing_collected_short_circuits Scenarios.no_source
                    Scenarios.quiet_world "42") (mkFrame [] [] 0)).
    reflexivity.
  - apply (proj1 (proj2 (nothing_collected_short_circuits Scenarios.github_only
                           Scenarios.quiet_world "42") [] eq_refl)).
Defined.

Lemma format_trends_groups_by_source_witness :
  let trends := Scenarios.numbered "A" 12 ++ Scenarios.numbered "B" 3 in
  DigestSpec.labels trends = ["A"; "B"]
  /\ DigestSpec.occurrences "### A" (TrendAnalyzer.format_lines trends) = 1
  /\ length (DigestSpec.shown "A" trends) = 10
  /\ TrendAnalyzer.format_item Scenarios.long_item
     = "- octo/tool" +:+ nl +:+ "   " +:+ Scenarios.hangul 100 +:+ "...".
Proof.
  cbv zeta. split; [vm_compute; reflexivity|].
  split; [|split; [vm_compute; reflexivity|]].
  - apply (format_trends_groups_by_source (TrendAnalyzer.mk "AI agent")
             (Scenarios.numbered "A" 12 ++ Scenarios.numbered "B" 3)).
    vm_compute. constructor.
  - etransitivity;
      [apply (format_trends_groups_by_source (TrendAnalyzer.mk "AI agent") [])|].
    vm_compute. reflexivity.
Defined.

Lemma post_is_mapped_witness :
  TwitterScraper.append_post "AI agent" Scenarios.long_post (mkFrame [] [] 0)
  = (Return tt,
     mkFrame [mkTrendItem "Twitter/X (AI agent)" (Scenarios.hangul 100)
                (Some "https://x.com/dev/status/1") (Some 4%Z)
                (Some (Scenarios.hangul 101))] [] 0)
  /\ TwitterSpec.absolute_url (Value "https://x.com/dev/status/1")
     = Some "https://x.com/dev/status/1".
Proof.
  split.
  - etransitivity;
      [apply (post_is_mapped "AI agent" Scenarios.long_post [] [] 0);
       discriminate|].
    vm_compute. reflexivity.
  - apply (post_is_mapped "AI agent"
             (BaseScraper.mkPost Absent Absent None None) [] [] 0).
    reflexivity.
Defined.

Lemma fetch_isolates_queries_witness :
  let self := Scenarios.three_queries in
  let client := Scenarios.flaky_client in
  TwitterScraper.fetch self client (mkFrame [] [] 0)
  = (Return [TwitterSpec.mapped "a" Scenarios.first_post;
             TwitterSpec.mapped "c" Scenarios.second_post],
     mkFrame [TwitterSpec.mapped "a" Scenarios.first_post;
              TwitterSpec.mapped "c" Scenarios.second_post]
       ["[Twitter/X] Error searching 'b': timed out"] 3)
  /\ TwitterSpec.failure 5 (client 0 (TwitterSpec.request self "a")) = None
  /\ TwitterSpec.failure 5 (client 1 (TwitterSpec.request self "b"))
     = Some Scenarios.timed_out.
Proof.
  cbv zeta.
  pose proof (fetch_isolates_queries Scenarios.three_queries
                Scenarios.flaky_client (mkFrame [] [] 0))
    as (Hrun & Hsuccess & Hfailure).
  split; [|split].
  - rewrite Hrun. vm_compute. reflexivity.
  - apply (Hsuccess 5%Z "a" _ [Scenarios.first_post]); reflexivity.
  - apply (Hfailure 5%Z "b"). reflexivity.
Defined.

(** ** The scenarios of the specification *)

(** Two sources with 12 and 3 items: ten of the first, all of the second,
    each heading once. *)
Example digest_of_twelve_and_three :
  TrendAnalyzer.format_lines
    (Scenarios.numbered "A" 12 ++ Scenarios.numbered "B" 3)
  = ["### A"; "- A1"; "- A2"; "- A3"; "- A4"; "- A5"; "- A6"; "- A7"; "- A8";
     "- A9"; "- A10"; "";
     "### B"; "- B1"; "- B2"; "- B3"; ""].
Proof. vm_compute. reflexivity. Qed.

(** The repository source alone, five items with scores 100, 50, 30, 10, 5 *)
Example digest_of_five_scores :
  TrendAnalyzer.format_lines (Scenarios.scored [100; 50; 30; 10; 5]%Z)
  = ["### GitHub"; "- repo100 (score: 100)"; "- repo50 (score: 50)";
     "- repo30 (score: 30)"; "- repo10 (score: 10)"; "- repo5 (score: 5)"; ""].
Proof. vm_compute. reflexivity. Qed.

(** A text cut short is reported with its cause and the text itself. *)
Example truncated_text_is_reported :
  TrendAnalyzer.parse_response (S := unit) Samples.truncated_text
    (Raise Samples.truncated_error) tt
  = (Raise (ParseSpec.GenerationError Samples.truncated_error
              Samples.truncated_text), tt).
Proof. reflexivity. Qed.

(** The registry with no credential: the social source is left out, an
    unknown identifier is skipped, the order of the request is kept. *)
Example registry_without_credential :
  TrendScraper.__init__ None (Some ["github"; "reddit"; "twitter"; "github"])
    None EmptyString (mkFrame (TrendScraper.mk None [] ∅ []) [] 0)
  = (Return tt,
     mkFrame
       (TrendScraper.mk None ["github"; "reddit"; "twitter"; "github"] ∅
          [GitHub (GitHubScraper.mk None); GitHub (GitHubScraper.mk None)])
       ["Warning: Unknown scraper 'reddit', skipping";
        "Warning: 'twitter' requires Sela API key, skipping"]
       0).
Proof. vm_compute. reflexivity. Qed.

(** Characters are counted, not bytes, and whitespace is that of Unicode:
    the no-break space, the ideographic space and the em space are stripped
    as the ASCII space is. *)
Example characters_not_bytes :
  chars "a가 b" = ["a"; "가"; " "; "b"]
  /\ str_slice_to 2 "가나다" = "가나"
  /\ str_slice_to 100 (Scenarios.hangul 40) = Scenarios.hangul 40
  /\ String.length (Scenarios.hangul 40) = 120
  /\ strip " 　 github  " = "github"
  /\ strip "　,　" = ",".
Proof. vm_compute. repeat split. Qed.

(** [TWITTER_QUERIES] with blank pieces, and with nothing but blank pieces *)
Example queries_of_the_environment :
  TwitterScraper.search_queries
    (TwitterScraper.__init__ None None 5 "　rust , ,ai agents ")
  = ["rust"; "ai agents"]
  /\ TwitterScraper.search_queries (TwitterScraper.__init__ None None 5 " , ")
     = TwitterScraper.DEFAULT_QUERIES.
Proof. vm_compute. split; reflexivity. Qed.

(** A post whose link is [null] is mapped all the same, and its item has
    no link. *)
Example null_link_stays_none :
  TwitterScraper.append_post "AI agent"
    (BaseScraper.mkPost Null (Value "hello") None None) (mkFrame [] [] 0)
  = (Return tt,
     mkFrame [mkTrendItem "Twitter/X (AI agent)" "hello" None None
                (Some "hello")] [] 0).
Proof. vm_compute. reflexivity. Qed.

(* ====================================================================== *)
(** * Further properties of the code *)
(* ====================================================================== *)

(** ** The built-in sources under the orchestrator *)

Section BuiltinSources.
Import TrendScraper CollectSpec.

(** Neither [fetch] lets an exception out. *)
Lemma builtin_fetch_returns (scraper : Scraper) (world : Tasks.net)
    (f0 : frame (list TrendItem)) :
  exists trends, fst (Tasks.fetch scraper world f0) = Return trends.
Proof.
  destruct scraper as [self|self]; cbn [Tasks.fetch].
  - rewrite fetch_run. destruct (truthy (TwitterScraper.sela_api_key self));
      eexists; reflexivity.
  - rewrite fetch_github_run. eexists. reflexivity.
Qed.

Lemma run_task_returned (worlds : nat -> Tasks.net) (i : nat) (scraper : Scraper) :
  exists trends, fst (Tasks.run_task worlds i scraper) = Returned trends.
Proof.
  unfold Tasks.run_task.
  destruct (builtin_fetch_returns scraper (worlds i) (mkFrame [] [] 0))
    as [trends Hfetch].
  destruct (Tasks.fetch scraper (worlds i) (mkFrame [] [] 0)) as [o f].
  cbn [fst] in Hfetch |- *. rewrite Hfetch. exists trends. reflexivity.
Qed.

(** What a task prints are lines of its source. *)
Lemma twitter_lines (count : Z) (query : string)
    (answer : outcome (Response BaseScraper.SelaJson)) :
  Forall source_line (TwitterSpec.lines_of count query answer).
Proof.
  unfold TwitterSpec.lines_of. apply Forall_app. split.
  - destruct answer as [resp|e]; [|constructor].
    destruct (status_code resp =? 200)%Z; constructor; [|constructor].
    left. eexists. reflexivity.
  - destruct (TwitterSpec.failure count answer); constructor; [|constructor].
    right. left. eexists. reflexivity.
Qed.

Lemma concat_imap_Forall {A B} (P : B -> Prop) (g : nat -> A -> list B)
    (l : list A) :
  (forall i x, Forall P (g i x)) -> Forall P (concat (imap g l)).
Proof.
  revert g. induction l as [|x l IH]; intros g Hg; [constructor|].
  cbn [imap concat]. apply Forall_app. split; [apply Hg|].
  apply (IH (g ∘ S)). intros i y. apply Hg.
Qed.

Lemma run_task_lines (worlds : nat -> Tasks.net) (i : nat) (scraper : Scraper) :
  Forall source_line (snd (Tasks.run_task worlds i scraper)).
Proof.
  unfold Tasks.run_task. destruct scraper as [self|self]; cbn [Tasks.fetch].
  - rewrite fetch_run.
    destruct (truthy (TwitterScraper.sela_api_key self)); cbn [snd stdout app];
      [|constructor].
    apply concat_imap_Forall. intros k query. apply twitter_lines.
  - rewrite fetch_github_run. cbn [snd stdout app].
    unfold GitHubSpec.lines_of.
    destruct (GitHubSpec.failure _); constructor; [|constructor].
    right. right. eexists. reflexivity.
Qed.

Lemma merge_Forall (P : string -> Prop) (tasks : list (list string))
    (printed : list string) :
  Tasks.merge tasks printed -> Forall (Forall P) tasks -> Forall P printed.
Proof.
  induction 1 as [tasks Hnone|before line lines after printed _ IH];
    intros Htasks; [constructor|].
  apply Forall_app in Htasks as [Hbefore Hafter].
  inversion Hafter as [|? ? Hlines Hafter']; subst.
  inversion Hlines as [|? ? Hline Hlines']; subst.
  constructor; [exact Hline|].
  apply IH. apply Forall_app. split; [exact Hbefore|].
  constructor; [exact Hlines'|exact Hafter'].
Qed.

Lemma print_lines {L} (lines : list string) (f : frame L) :
  for_each lines print f
  = (Return tt, mkFrame (locals f) (stdout f ++ lines) (sent f)).
Proof.
  revert f. induction lines as [|line lines IH]; intros [l out n].
  - cbn. rewrite app_nil_r. reflexivity.
  - cbn [for_each]. unfold bind. rewrite print_frame, IH.
    cbn [locals stdout sent]. rewrite <- app_assoc. reflexivity.
Qed.

(** With the two sources of the repository, whatever the network answers,
    every task of [get_all_trends] returns a list: the result is the
    concatenation of what the sources fetched, and the orchestrator adds no
    line of its own to what the tasks print while they are awaited (only
    the warning, when no source is enabled).  The lines of the tasks are
    those of the sources themselves, so no [Error in ...] line is
    printed. *)
Theorem builtin_sources_never_fail (self : TrendScraper.t)
    (worlds : nat -> Tasks.net) (printed : list string)
    (f0 : frame (list TrendItem)) :
  Tasks.merge
    (imap (fun i scraper => snd (Tasks.run_task worlds i scraper))
       (_scrapers self))
    printed ->
  (forall i scraper, exists trends,
      fst (Tasks.fetch scraper (worlds i) (mkFrame [] [] 0)) = Return trends
      /\ fst (Tasks.run_task worlds i scraper) = Returned trends)
  /\ fst (Tasks.get_all_trends self worlds printed f0)
     = Return (concat (imap (fun i scraper =>
                               contribution
                                 (fst (Tasks.run_task worlds i scraper)))
                         (_scrapers self)))
  /\ stdout (snd (Tasks.get_all_trends self worlds printed f0))
     = stdout f0 ++
       match _scrapers self with
       | [] => ["Warning: No scrapers enabled"]
       | _ :: _ => printed
       end
  /\ Forall source_line printed
  /\ Forall (fun line => String.prefix "Error in " line = false) printed.
Proof.
  intros Hmerge.
  assert (Hlines : Forall source_line printed).
  { apply (merge_Forall _ _ _ Hmerge).
    generalize (_scrapers self) as l. intros l.
    generalize worlds as w. induction l as [|s l IH]; intros w; [constructor|].
    cbn [imap]. constructor; [apply run_task_lines|].
    apply (IH (w ∘ S)). }
  split.
  { intros i scraper.
    destruct (builtin_fetch_returns scraper (worlds i) (mkFrame [] [] 0))
      as [trends Hfetch].
    exists trends. split; [exact Hfetch|]. unfold Tasks.run_task.
    destruct (Tasks.fetch scraper (worlds i) (mkFrame [] [] 0)) as [o f].
    cbn [fst] in Hfetch |- *. rewrite Hfetch. reflexivity. }
  split; [|split; [|split; [exact Hlines|]]].
  3: { eapply Forall_impl; [exact Hlines|].
       intros line [[rest ->]|[[rest ->]|[rest ->]]]; reflexivity. }
  - unfold Tasks.get_all_trends.
    destruct (_scrapers self) as [|s0 rest] eqn:Hscrapers; [reflexivity|].
    rewrite <- Hscrapers.
    replace (negb (truthy (_scrapers self))) with false
      by (rewrite Hscrapers; reflexivity).
    assert (Hloop := collect_loop self
                       (fun i scraper => fst (Tasks.run_task worlds i scraper))
                       (_scrapers self) 0 [] (stdout f0 ++ printed) (sent f0)
                       (fun i => eq_refl)).
    cbn [Nat.add app] in Hloop.
    rewrite imap_imap.
    unfold bind, modify_locals, modify, get_locals.
    rewrite print_lines. cbn [locals stdout sent].
    rewrite Hloop. reflexivity.
  - unfold Tasks.get_all_trends.
    destruct (_scrapers self) as [|s0 rest] eqn:Hscrapers; [reflexivity|].
    rewrite <- Hscrapers.
    replace (negb (truthy (_scrapers self))) with false
      by (rewrite Hscrapers; reflexivity).
    assert (Hloop := collect_loop self
                       (fun i scraper => fst (Tasks.run_task worlds i scraper))
                       (_scrapers self) 0 [] (stdout f0 ++ printed) (sent f0)
                       (fun i => eq_refl)).
    cbn [Nat.add app] in Hloop.
    rewrite imap_imap.
    unfold bind, modify_locals, modify, get_locals.
    rewrite print_lines. cbn [locals stdout sent].
    rewrite Hloop. cbn [snd stdout].
    assert (Hquiet :
      concat (imap (fun i s => error_line s (fst (Tasks.run_task worlds i s)))
                (_scrapers self)) = []).
    { assert (Hnone : forall (task : nat -> Scraper -> task_result) l,
                 (forall i s, exists trends, task i s = Returned trends) ->
                 concat (imap (fun i s => error_line s (task i s)) l) = []).
      { intros task l. revert task.
        induction l as [|s l IH]; intros task Htask; [reflexivity|].
        cbn [imap concat]. destruct (Htask 0 s) as [trends ->]. cbn [error_line app].
        apply (IH (task ∘ S)). intros i s'. apply Htask. }
      apply (Hnone (fun i s => fst (Tasks.run_task worlds i s))).
      intros i s. apply run_task_returned. }
    rewrite Hquiet, app_nil_r. reflexivity.
Qed.

End BuiltinSources.

(** ** Stripping *)

Section Strip.
Import TextSpec.

Lemma strip_chars (s : string) :
  strip s
  = String.concat EmptyString
      (rev (lstrip_chars (rev (lstrip_chars (chars s))))).
Proof. reflexivity. Qed.

Lemma lstrip_starts_clean (l : list string) : starts_clean (lstrip_chars l).
Proof.
  induction l as [|ch l IH]; [exact I|].
  cbn [lstrip_chars]. destruct (isspace ch) eqn:Hch; [exact IH|exact Hch].
Qed.

Lemma lstrip_snoc (l : list string) (ch : string) :
  isspace ch = false -> lstrip_chars (l ++ [ch]) = lstrip_chars l ++ [ch].
Proof.
  intros Hch. induction l as [|d l IH].
  - cbn. rewrite Hch. reflexivity.
  - cbn [app lstrip_chars]. destruct (isspace d); [exact IH|reflexivity].
Qed.

(** Stripping the end keeps a clean start. *)
Lemma rstrip_starts_clean (l : list string) :
  starts_clean l -> starts_clean (rev (lstrip_chars (rev l))).
Proof.
  destruct l as [|ch l]; [intros _; exact I|].
  cbn [starts_clean rev]. intros Hch.
  change (List.rev l) with (rev l).
  rewrite lstrip_snoc by exact Hch. rewrite rev_app_distr. cbn. exact Hch.
Qed.

(** What is stripped from the start is whitespace. *)
Lemma lstrip_split (l : list string) :
  exists lead, l = lead ++ lstrip_chars l /\ whitespace lead.
Proof.
  induction l as [|ch l (lead & Hl & Hlead)].
  - exists []. split; [reflexivity|constructor].
  - cbn [lstrip_chars]. destruct (isspace ch) eqn:Hch.
    + exists (ch :: lead). split; [cbn; rewrite <- Hl; reflexivity|].
      constructor; [exact Hch|exact Hlead].
    + exists []. split; [reflexivity|constructor].
Qed.

Lemma lstrip_whitespace (l : list string) :
  forallb isspace l = true -> lstrip_chars l = [].
Proof.
  induction l as [|ch l IH]; [reflexivity|].
  cbn [forallb lstrip_chars]. destruct (isspace ch); [exact IH|discriminate].
Qed.

(** Characters that are not all whitespace keep one that is not, after
    whitespace. *)
Lemma lstrip_keeps (l : list string) :
  forallb isspace l = false ->
  exists ch rest,
    lstrip_chars l = ch :: rest /\ isspace ch = false /\ In ch l.
Proof.
  induction l as [|ch l IH]; [discriminate|].
  cbn [forallb lstrip_chars]. destruct (isspace ch) eqn:Hch.
  - intros Hl. destruct (IH Hl) as (ch' & rest & Hstrip & Hclean & Hin).
    exists ch', rest. split; [exact Hstrip|]. split; [exact Hclean|].
    right. exact Hin.
  - intros _. exists ch, l. split; [reflexivity|]. split; [exact Hch|].
    left. reflexivity.
Qed.

Lemma chars_nonempty (s : string) (ch : string) :
  In ch (chars s) -> ch <> EmptyString.
Proof.
  revert ch. induction s as [|c s IH]; intros ch; [intros []|].
  cbn [chars]. destruct (continues s).
  - destruct (chars s) as [|ch' rest].
    + intros [<-|[]]. discriminate.
    + intros [<-|Hin]; [discriminate|]. apply IH. right. exact Hin.
  - intros [<-|Hin]; [discriminate|]. apply IH. exact Hin.
Qed.

(** [strip] gives the core of the text. *)
Lemma strip_core (s : string) : core_of s (strip s).
Proof.
  rewrite strip_chars.
  destruct (lstrip_split (chars s)) as (lead & Hchars & Hlead).
  destruct (lstrip_split (rev (lstrip_chars (chars s))))
    as (trail & Hrev & Htrail).
  exists lead, (rev (lstrip_chars (rev (lstrip_chars (chars s))))), (rev trail).
  split.
  { rewrite <- rev_app_distr, <- Hrev, rev_involutive. exact Hchars. }
  split; [reflexivity|]. split; [exact Hlead|].
  split; [apply Forall_rev; exact Htrail|].
  split.
  - apply rstrip_starts_clean, lstrip_starts_clean.
  - rewrite rev_involutive. apply lstrip_starts_clean.
Qed.

(** A text is stripped to nothing exactly when it is blank. *)
Lemma strip_blank (s : string) : truthy (strip s) = negb (blank s).
Proof.
  rewrite strip_chars. unfold blank.
  destruct (forallb isspace (chars s)) eqn:Hblank.
  - rewrite (lstrip_whitespace _ Hblank). reflexivity.
  - destruct (lstrip_keeps _ Hblank) as (ch & rest & -> & Hclean & Hin).
    cbn [rev]. change (List.rev rest) with (rev rest).
    rewrite lstrip_snoc by exact Hclean.
    rewrite rev_app_distr. cbn [rev app].
    rewrite concat_empty_cons.
    apply chars_nonempty in Hin. destruct ch; [congruence|reflexivity].
Qed.

(** The names kept from the pieces of a comma-separated text *)
Lemma stripped_names (parts : list string) :
  names_of parts (filter (fun name => truthy name = true) (map strip parts)).
Proof.
  unfold names_of. induction parts as [|part parts IH]; [constructor|].
  cbn [List.filter map]. rewrite filter_cons.
  pose proof (strip_blank part) as Hpart.
  destruct (blank part); cbn [negb] in Hpart |- *.
  - rewrite decide_False by (rewrite Hpart; discriminate). exact IH.
  - rewrite decide_True by exact Hpart.
    constructor; [apply strip_core|exact IH].
Qed.

Lemma no_names (parts : list string) :
  forallb blank parts = true ->
  List.filter (fun part => negb (blank part)) parts = [].
Proof.
  induction parts as [|part parts IH]; [reflexivity|].
  cbn [forallb List.filter]. destruct (blank part); [exact IH|discriminate].
Qed.

Lemma some_names (parts : list string) :
  forallb blank parts = false ->
  List.filter (fun part => negb (blank part)) parts <> [].
Proof.
  induction parts as [|part parts IH]; [discriminate|].
  cbn [forallb List.filter]. destruct (blank part); [exact IH|discriminate].
Qed.

(** What a comma-separated text selects: nothing when every piece is
    blank, and otherwise its names. *)
Lemma selected_names (parts : list string) :
  let names := filter (fun name => truthy name = true) (map strip parts) in
  if forallb blank parts then names = []
  else names <> [] /\ names_of parts names.
Proof.
  cbv zeta. pose proof (stripped_names parts) as Hnames.
  destruct (forallb blank parts) eqn:Hblank.
  - unfold names_of in Hnames. rewrite (no_names _ Hblank) in Hnames.
    inversion Hnames. reflexivity.
  - split; [|exact Hnames].
    apply some_names in Hblank. unfold names_of in Hnames.
    intros Hnone. rewrite Hnone in Hnames. inversion Hnames. congruence.
Qed.

(** *** Splitting at commas *)

Lemma split_cons (sep : ascii) (s : string) :
  exists part parts, split sep s = part :: parts.
Proof.
  destruct s as [|c s]; [eexists _, _; reflexivity|].
  cbn [split]. destruct (Ascii.eqb c sep); [eexists _, _; reflexivity|].
  destruct (split sep s); eexists _, _; reflexivity.
Qed.

Lemma concat_String (sep : string) (c : ascii) (part : string)
    (parts : list string) :
  String.concat sep (String c part :: parts)
  = String c (String.concat sep (part :: parts)).
Proof. destruct parts; reflexivity. Qed.

Lemma split_pieces (s : string) : pieces_of s (split "," s).
Proof.
  unfold pieces_of. induction s as [|c s [Hjoin Hfree]].
  - split; [reflexivity|]. constructor; [intros []|constructor].
  - cbn [split]. destruct (Ascii.eqb_spec c ","%char) as [->|Hc].
    + destruct (split_cons "," s) as (part & parts & Hsplit).
      rewrite Hsplit in Hjoin, Hfree |- *. split.
      * cbn [String.concat]. rewrite <- Hjoin. reflexivity.
      * constructor; [intros []|exact Hfree].
    + destruct (split_cons "," s) as (part & parts & Hsplit).
      rewrite Hsplit in Hjoin, Hfree |- *. split.
      * rewrite concat_String, Hjoin. reflexivity.
      * inversion Hfree as [|? ? Hpart Hparts]; subst.
        constructor; [|exact Hparts].
        intros [Heq|Hin]; [congruence|exact (Hpart Hin)].
Qed.

End Strip.

(** ** TwitterScraper: the queries it holds and the size of what it fetches *)

Section TwitterMore.
Import BaseScraper TwitterScraper TwitterSpec TextSpec.



(** *** How much a fetch returns *)

Lemma slice_to_length {A} (n : Z) (l : list A) :
  (0 <= n)%Z -> length (slice_to n l) <= Z.to_nat n.
Proof.
  intros Hn. unfold slice_to.
  destruct (Z.leb_spec 0 n) as [_|Hneg]; [|lia].
  rewrite length_firstn. lia.
Qed.

Lemma mapped_prefix_length (query : string) (posts : list Post) :
  length (mapped_prefix query posts) <= length posts.
Proof.
  induction posts as [|item posts IH]; [reflexivity|].
  cbn [mapped_prefix length]. destruct (mappable item); cbn [length]; lia.
Qed.

Lemma items_of_length (count : Z) (query : string)
    (answer : outcome (Response SelaJson)) :
  (0 <= count)%Z -> length (items_of count query answer) <= Z.to_nat count.
Proof.
  intros Hcount. unfold items_of, posts_of.
  destruct answer as [resp|e]; [|cbn; lia].
  destruct (resp_json resp) as [answer_data|e]; [|cbn; lia].
  etransitivity; [apply mapped_prefix_length|].
  apply slice_to_length. exact Hcount.
Qed.

Lemma concat_imap_length {A B} (g : nat -> A -> list B) (l : list A) (k : nat) :
  (forall i x, length (g i x) <= k) ->
  length (concat (imap g l)) <= length l * k.
Proof.
  revert g. induction l as [|x l IH]; intros g Hg; [reflexivity|].
  cbn [imap concat length]. rewrite length_app.
  specialize (IH (g ∘ S) (fun i y => Hg (S i) y)). specialize (Hg 0 x). lia.
Qed.

(** With a [post_count] that is not negative, a fetch returns at most
    [post_count] items per query, whatever the service answers. *)
Theorem fetch_is_capped (self : TwitterScraper.t) (client : sela_client)
    (f0 : frame (list TrendItem)) :
  (0 <= post_count self)%Z ->
  exists trends,
    fst (fetch self client f0) = Return trends
    /\ length trends
       <= length (search_queries self) * Z.to_nat (post_count self).
Proof.
  intros Hcount. rewrite fetch_run.
  destruct (truthy (sela_api_key self)).
  - eexists. split; [reflexivity|].
    apply concat_imap_length. intros i query.
    apply items_of_length. exact Hcount.
  - exists []. split; [reflexivity|]. cbn. lia.
Qed.

Lemma mapped_prefix_items (query : string) (posts : list Post) :
  Forall (fun trend =>
            source trend = "Twitter/X (" +:+ query +:+ ")"
            /\ characters (title trend) <= 100
            /\ (forall link,
                  url trend = Some link ->
                  link = EmptyString \/ String.prefix "http" link = true))
    (mapped_prefix query posts).
Proof.
  induction posts as [|item posts IH]; [constructor|].
  cbn [mapped_prefix]. destruct (mappable item); [|constructor].
  constructor; [|exact IH].
  split; [reflexivity|]. split.
  { cbn [mapped title]. rewrite characters_first. lia. }
  cbn [mapped url]. intros link.
  destruct (tweetUrl item) as [| |[|c path]].
  - intros [= <-]. left. reflexivity.
  - discriminate.
  - intros [= <-]. left. reflexivity.
  - unfold absolute_url.
    destruct (String.prefix "http" (String c path)) eqn:Hhttp;
      intros [= <-]; right; [exact Hhttp|reflexivity].
Qed.

(** Every item a fetch returns carries the label of one of the scraper's
    queries and a title of at most 100 characters; its link, unless it is
    [None] (the post had a [null] link), is empty or starts with [http]. *)
Theorem fetched_items_are_well_formed (self : TwitterScraper.t)
    (client : sela_client) (f0 : frame (list TrendItem)) :
  exists trends,
    fst (fetch self client f0) = Return trends
    /\ Forall (fun trend =>
                 (exists query,
                     query ∈ search_queries self
                     /\ source trend = "Twitter/X (" +:+ query +:+ ")")
                 /\ characters (title trend) <= 100
                 /\ (forall link,
                       url trend = Some link ->
                       link = EmptyString \/ String.prefix "http" link = true))
         trends.
Proof.
  rewrite fetch_run. destruct (truthy (sela_api_key self));
    [|exists []; split; [reflexivity|constructor]].
  eexists. split; [reflexivity|]. cbn [fst].
  generalize (sent f0) as n. intros n.
  assert (Hall : forall (answer : nat -> string -> outcome (Response SelaJson))
                   (known queries : list string),
             (forall query, query ∈ queries -> query ∈ known) ->
             Forall (fun trend =>
                 (exists query,
                     query ∈ known
                     /\ source trend = "Twitter/X (" +:+ query +:+ ")")
                 /\ characters (title trend) <= 100
                 /\ (forall link,
                       url trend = Some link ->
                       link = EmptyString \/ String.prefix "http" link = true))
               (concat (imap (fun i query =>
                                items_of (post_count self) query (answer i query))
                          queries))).
  { intros answer known queries. revert answer.
    induction queries as [|query queries IH]; intros answer Hknown; [constructor|].
    cbn [imap concat]. apply Forall_app. split.
    - unfold items_of. destruct (posts_of _ _) as [e|posts]; [constructor|].
      eapply Forall_impl; [apply mapped_prefix_items|].
      intros trend (Hsource & Htitle & Hurl). split; [|split; assumption].
      exists query. split; [apply Hknown; left|exact Hsource].
    - apply (IH (answer ∘ S)). intros q Hq. apply Hknown. right. exact Hq. }
  apply (Hall (fun i query => client (n + i) (request self query))).
  intros query Hin. exact Hin.
Qed.

End TwitterMore.

(** ** GitHubScraper.fetch: all or nothing, and only ten results read *)

Section GitHubMore.
Import GitHubScraper GitHubSpec.
Context {L : Type}.

Lemma first_missing_key_in (repos : list Repo) (repo : Repo) (key : string) :
  repo ∈ repos -> missing_key repo = Some key ->
  exists first, first_missing_key repos = Some first.
Proof.
  induction repos as [|r repos IH]; intros Hin Hkey; [inversion Hin|].
  cbn [first_missing_key]. destruct (missing_key r) as [k|] eqn:Hr;
    [exists k; reflexivity|].
  apply elem_of_cons in Hin as [->|Hin]; [congruence|].
  apply IH; assumption.
Qed.

(** One result among the first ten that lacks [full_name], [language],
    [html_url] or [stargazers_count] costs the whole fetch: it returns the
    empty list, well-formed results included, and prints one line that
    names a missing key. *)
Theorem one_bad_result_empties_the_fetch (self : GitHubScraper.t)
    (yesterday : string) (client : github_client) (f0 : frame L)
    (resp : Response SearchJson) (found : SearchJson) (repo : Repo)
    (key : string) :
  client (sent f0) (request yesterday) = Return resp ->
  resp_json resp = Return found ->
  repo ∈ firstn 10 (default [] (items found)) ->
  missing_key repo = Some key ->
  exists first,
    fetch self yesterday client f0
    = (Return [],
       mkFrame (locals f0)
         (stdout f0 ++ ["[GitHub] Error: '" +:+ first +:+ "'"])
         (S (sent f0))).
Proof.
  intros Hanswer Hjson Hin Hkey.
  destruct (first_missing_key_in _ _ _ Hin Hkey) as [first Hfirst].
  exists first. rewrite fetch_github_run.
  unfold result_of, lines_of, failure. rewrite Hanswer, Hjson, Hfirst.
  reflexivity.
Qed.

(** Results past the tenth are never read: a response and the same
    response cut to its first ten results give the same fetch. *)
Theorem results_past_the_tenth_are_not_read (self : GitHubScraper.t)
    (yesterday : string) (status : Z) (body : string) (repos : list Repo)
    (f0 : frame L) :
  let answering (found : list Repo) : github_client :=
    fun _ _ => Return (mkResponse status body
                         (Return (mkSearchJson (Some found)))) in
  fetch self yesterday (answering repos) f0
  = fetch self yesterday (answering (firstn 10 repos)) f0.
Proof.
  cbv zeta. rewrite !fetch_github_run.
  unfold result_of, lines_of, failure. cbn [resp_json items].
  change (default [] (Some repos)) with repos.
  change (default [] (Some (firstn 10 repos))) with (firstn 10 repos).
  rewrite firstn_firstn. reflexivity.
Qed.

End GitHubMore.

(** ** The registry with configuration overrides *)

Section RegistryMore.
Import TrendScraper RegistrySpec.

Lemma for_each_app {S B} (l1 l2 : list B) (body : B -> exec S unit) (s : S) :
  for_each (l1 ++ l2) body s =
  match for_each l1 body s with
  | (Return _, s') => for_each l2 body s'
  | (Raise e, s') => (Raise e, s')
  end.
Proof.
  revert s. induction l1 as [|x l1 IH]; intros s; simpl; [reflexivity|].
  unfold bind. destruct (body x s) as [[[]|e] s']; [apply IH|reflexivity].
Qed.

(** When every constructor takes the keywords configured for it, the
    registry passes each identifier's own overrides to its constructor:
    the live sources are, in the order of the request, the objects built
    from the credential and the entry of [scraper_configs] under the
    identifier. *)
Theorem overrides_reach_the_constructor (credential : option string)
    (enabled : option (list string)) (configs : gmap string kwargs)
    (env_queries : string) (f0 : frame TrendScraper.t) :
  (forall identifier cls,
      identifier ∈ or_default enabled DEFAULT_SCRAPERS ->
      resolve credential identifier = Some cls ->
      accepts cls (default no_kwargs (configs !! identifier)) = true) ->
  let identifiers := or_default enabled DEFAULT_SCRAPERS in
  TrendScraper.__init__ credential enabled (Some configs) env_queries f0
  = (Return tt,
     mkFrame
       (TrendScraper.mk credential identifiers configs
          (omap (fun identifier =>
                   match resolve credential identifier with
                   | Some cls =>
                       match construct cls credential
                               (default no_kwargs (configs !! identifier))
                               env_queries with
                       | Return scraper => Some scraper
                       | Raise _ => None
                       end
                   | None => None
                   end) identifiers))
       (stdout f0 ++ concat (map (warning credential) identifiers))
       (sent f0)).
Proof.
  intros Hok. cbv zeta.
  unfold TrendScraper.__init__, _init_scrapers, bind, modify_locals, modify,
    get_locals.
  cbn [locals stdout sent enabled_scrapers default].
  rewrite init_loop.
  - reflexivity.
  - intros identifier cls Hin. apply Hok. apply list_elem_of_In. exact Hin.
Qed.

(** A keyword the constructor does not declare stops the registry: when
    the identifiers before [identifier] are all fine and the constructor of
    [identifier] rejects its overrides, [__init__] raises the [TypeError] of
    the constructor call; the sources built so far are all there is, and
    the identifiers after it are not looked at. *)
Theorem rejected_override_stops_the_registry (credential : option string)
    (before after : list string) (identifier : string) (cls : scraper_class)
    (configs : gmap string kwargs) (env_queries : string)
    (f0 : frame TrendScraper.t) :
  (forall earlier c,
      earlier ∈ before -> resolve credential earlier = Some c ->
      accepts c (default no_kwargs (configs !! earlier)) = true) ->
  resolve credential identifier = Some cls ->
  accepts cls (default no_kwargs (configs !! identifier)) = false ->
  exists e,
    exc_type e = TypeError
    /\ construct cls credential (default no_kwargs (configs !! identifier))
         env_queries = Raise e
    /\ TrendScraper.__init__ credential
         (Some (before ++ identifier :: after)) (Some configs) env_queries f0
       = (Raise e,
          mkFrame
            (TrendScraper.mk credential (before ++ identifier :: after) configs
               (omap (live credential configs env_queries) before))
            (stdout f0 ++ concat (map (warning credential) before))
            (sent f0)).
Proof.
  intros Hbefore Hcls Hrejected.
  assert (Hraise : exists e,
             exc_type e = TypeError
             /\ construct cls credential
                  (default no_kwargs (configs !! identifier)) env_queries
                = Raise e).
  { destruct cls, (default no_kwargs (configs !! identifier))
      as [queries count other]; cbn in Hrejected |- *.
    - destruct other; [discriminate|].
      eexists; split; [|reflexivity]; reflexivity.
    - destruct queries, count, other; try discriminate;
        (eexists; split; [|reflexivity]; reflexivity). }
  destruct Hraise as (e & Htype & Hconstruct).
  exists e. split; [exact Htype|]. split; [exact Hconstruct|].
  assert (Hrequest :
    or_default (Some (before ++ identifier :: after)) DEFAULT_SCRAPERS
    = before ++ identifier :: after).
  { destruct before; reflexivity. }
  unfold TrendScraper.__init__, _init_scrapers, bind, modify_locals, modify,
    get_locals.
  cbn [locals stdout sent enabled_scrapers default]. rewrite Hrequest.
  change (id configs) with configs.
  rewrite for_each_app, init_loop
    by (intros i c Hin; apply Hbefore; apply list_elem_of_In; exact Hin).
  cbn [for_each app]. unfold bind at 1. unfold init_scraper, bind, get_locals.
  cbn [locals sela_api_key scraper_configs].
  unfold resolve in Hcls. rewrite AVAILABLE_SCRAPERS_lookup, falsy_credential.
  destruct (String.eqb identifier "github").
  - injection Hcls as <-. cbn [class_requires_sela GitHubScraper.requires_sela andb].
    unfold eval. rewrite Hconstruct. reflexivity.
  - destruct (String.eqb identifier "twitter"); [|discriminate].
    destruct credential as [[|c key]|]; try discriminate.
    injection Hcls as <-.
    cbn [class_requires_sela TwitterScraper.requires_sela andb].
    unfold eval. rewrite Hconstruct. reflexivity.
Qed.

Lemma omap_length_le {A B} (f : A -> option B) (l : list A) :
  length (omap f l) <= length l.
Proof.
  induction l as [|x l IH]; [reflexivity|].
  cbn [omap list_omap]. fold (omap f l).
  destruct (f x); cbn [length]; lia.
Qed.

(** [list_enabled_scrapers] after the construction: the display names of
    the sources that were not skipped, in the order of the request; without
    a credential every one of them is [GitHub]. *)
Theorem enabled_names_follow_the_request (credential : option string)
    (enabled : option (list string)) (env_queries : string)
    (f0 : frame TrendScraper.t) :
  let self :=
    locals (snd (TrendScraper.__init__ credential enabled None env_queries f0)) in
  list_enabled_scrapers self
  = omap (fun identifier => class_name <$> resolve credential identifier)
      (or_default enabled DEFAULT_SCRAPERS)
  /\ length (list_enabled_scrapers self)
     <= length (or_default enabled DEFAULT_SCRAPERS)
  /\ (if truthy credential then True
      else Forall (fun shown => shown = "GitHub") (list_enabled_scrapers self)).
Proof.
  cbv zeta.
  unfold TrendScraper.__init__, _init_scrapers, bind, modify_locals, modify,
    get_locals.
  cbn [locals stdout sent enabled_scrapers default].
  rewrite init_loop
    by (intros identifier cls _ _; rewrite lookup_empty; apply accepts_no_kwargs).
  cbn [snd locals app]. unfold list_enabled_scrapers. cbn [_scrapers].
  generalize (or_default enabled DEFAULT_SCRAPERS) as identifiers.
  intros identifiers.
  assert (Hnames :
    map name (omap (live credential ∅ env_queries) identifiers)
    = omap (fun identifier => class_name <$> resolve credential identifier)
        identifiers).
  { induction identifiers as [|identifier l IH]; [reflexivity|].
    cbn [omap list_omap]. rewrite <- (live_default_configs credential env_queries).
    destruct (live credential ∅ env_queries identifier); cbn; rewrite IH;
      reflexivity. }
  rewrite Hnames. split; [reflexivity|]. split.
  - apply omap_length_le.
  - destruct credential as [[|c key]|]; cbn [truthy truthy_optional truthy_str];
      try exact I.
    + clear Hnames. induction identifiers as [|identifier l IH]; [constructor|].
      cbn [omap list_omap]. unfold resolve at 1.
      destruct (String.eqb identifier "github").
      * cbn. constructor; [reflexivity|exact IH].
      * destruct (String.eqb identifier "twitter"); exact IH.
    + clear Hnames. induction identifiers as [|identifier l IH]; [constructor|].
      cbn [omap list_omap]. unfold resolve at 1.
      destruct (String.eqb identifier "github").
      * cbn. constructor; [reflexivity|exact IH].
      * destruct (String.eqb identifier "twitter"); exact IH.
Qed.

End RegistryMore.

(** ** The digest: its size, and what it does not depend on *)

Section DigestMore.
Import TrendAnalyzer DigestSpec DigestMoreSpec.

Lemma group_of_known (label : string) (trends : list TrendItem) :
  label ∈ labels trends -> group_of label trends <> [].
Proof.
  rewrite labels_sources. intros (trend & Hin & Hsource) Hnone.
  assert (Hmember : trend ∈ group_of label trends).
  { unfold group_of. apply list_elem_of_filter. split; assumption. }
  rewrite Hnone in Hmember. inversion Hmember.
Qed.

Lemma section_length (trends : list TrendItem) (label : string) :
  label ∈ labels trends ->
  3 <= length (section_of trends label) <= 12.
Proof.
  intros Hknown. apply group_of_known in Hknown.
  unfold section_of, shown. cbn [length]. rewrite length_app, length_map,
    length_firstn. cbn [length].
  destruct (group_of label trends) as [|trend group]; [contradiction|].
  cbn [length]. lia.
Qed.

Lemma labels_length (trends : list TrendItem) :
  length (labels trends) <= length trends.
Proof.
  induction trends as [|trend trends IH]; [reflexivity|].
  cbn [labels length].
  pose proof (length_filter (fun label => label <> source trend) (labels trends)).
  lia.
Qed.

Lemma section_entries (trends : list TrendItem) (label : string) :
  length (section_of trends label)
  = 2 + Nat.min 10 (length (group_of label trends)).
Proof.
  unfold section_of, shown. cbn [length].
  rewrite length_app, length_map, length_firstn. cbn [length]. lia.
Qed.

(** The size of the digest follows the sources, not the items.
    [_format_trends] joins the entries of its list [lines] with newlines.
    An entry is a heading, a blank, or an item: the line of the item and,
    for a described item, its follow-up line, which stands after a newline
    inside the same entry.  Every source label gives its heading, one entry
    for each of its first ten items, and a blank: between 3 and 12 entries.
    There are no more labels than items, and there is no entry exactly when
    there is no item. *)
Theorem digest_is_bounded (self : TrendAnalyzer.t) (trends : list TrendItem) :
  _format_trends self trends = join nl (format_lines trends)
  /\ length (format_lines trends)
     = list_sum (map (fun label =>
                        2 + Nat.min 10 (length (group_of label trends)))
                   (labels trends))
  /\ 3 * length (labels trends) <= length (format_lines trends)
  /\ length (format_lines trends) <= 12 * length (labels trends)
  /\ length (labels trends) <= length trends
  /\ (trends = [] <-> format_lines trends = []).
Proof.
  split; [reflexivity|].
  rewrite format_lines_digest. unfold digest_lines.
  split.
  { induction (labels trends) as [|label keys IH]; [reflexivity|].
    cbn [map concat list_sum]. rewrite length_app, section_entries, IH.
    reflexivity. }
  assert (Hsum : forall keys,
             (forall label, label ∈ keys -> label ∈ labels trends) ->
             3 * length keys <= length (concat (map (section_of trends) keys))
             <= 12 * length keys).
  { induction keys as [|label keys IH]; intros Hknown; [cbn; lia|].
    cbn [map concat length]. rewrite length_app.
    pose proof (section_length trends label (Hknown label ltac:(left))).
    specialize (IH (fun l Hl => Hknown l ltac:(right; exact Hl))). lia. }
  specialize (Hsum (labels trends) (fun l Hl => Hl)).
  split; [lia|]. split; [lia|]. split; [apply labels_length|].
  split; [intros ->; reflexivity|].
  intros Hnone. destruct trends as [|trend trends]; [reflexivity|].
  rewrite Hnone in Hsum. cbn [labels length] in Hsum. lia.
Qed.

(** Two lists with the same labels in the same order and the same group for
    every label have the same digest. *)
Lemma digest_by_groups (a b : list TrendItem) :
  labels a = labels b ->
  (forall label, group_of label a = group_of label b) ->
  digest_lines a = digest_lines b.
Proof.
  intros Hlabels Hgroups. unfold digest_lines. rewrite Hlabels.
  f_equal. apply map_ext. intros label. unfold section_of, shown.
  rewrite Hgroups. reflexivity.
Qed.

(** The digest depends on the items of each source in their order and on
    the order in which the sources first appear, and on nothing else: how
    the items of different sources are interleaved does not matter. *)
Theorem digest_ignores_interleaving (self : TrendAnalyzer.t)
    (a b : list TrendItem) :
  labels a = labels b ->
  (forall label, group_of label a = group_of label b) ->
  _format_trends self a = _format_trends self b.
Proof.
  intros Hlabels Hgroups. unfold _format_trends.
  rewrite !format_lines_digest, (digest_by_groups a b Hlabels Hgroups).
  reflexivity.
Qed.

Lemma labels_with_url (link : TrendItem -> option string) (trends : list TrendItem) :
  labels (map (with_url link) trends) = labels trends.
Proof.
  induction trends as [|trend trends IH]; [reflexivity|].
  cbn [map labels]. rewrite IH. reflexivity.
Qed.

Lemma group_of_with_url (link : TrendItem -> option string) (label : string)
    (trends : list TrendItem) :
  group_of label (map (with_url link) trends)
  = map (with_url link) (group_of label trends).
Proof.
  unfold group_of. induction trends as [|trend trends IH]; [reflexivity|].
  cbn [map]. destruct (decide (source trend = label)) as [Heq|Hne].
  - rewrite !filter_cons_True by exact Heq. cbn [map]. rewrite IH. reflexivity.
  - rewrite !filter_cons_False by exact Hne. exact IH.
Qed.

(** The digest never shows a link: whatever the [url] of the items, the
    text handed to the language model is the same. *)
Theorem digest_never_shows_links (self : TrendAnalyzer.t)
    (link : TrendItem -> option string) (trends : list TrendItem) :
  _format_trends self (map (with_url link) trends) = _format_trends self trends.
Proof.
  unfold _format_trends. rewrite !format_lines_digest. unfold digest_lines.
  rewrite labels_with_url. f_equal. f_equal. apply map_ext. intros label.
  unfold section_of, shown.
  rewrite group_of_with_url, firstn_map, map_map. reflexivity.
Qed.

(** *** Grouping by hand *)

Lemma filter_all {A} (P : A -> Prop) `{forall x, Decision (P x)} (l : list A) :
  (forall x, x ∈ l -> P x) -> filter P l = l.
Proof.
  induction l as [|x l IH]; intros Hall; [reflexivity|].
  rewrite filter_cons_True by (apply Hall; left).
  rewrite IH; [reflexivity|]. intros y Hy. apply Hall. right. exact Hy.
Qed.

Lemma filter_none {A} (P : A -> Prop) `{forall x, Decision (P x)} (l : list A) :
  (forall x, x ∈ l -> ~ P x) -> filter P l = [].
Proof.
  induction l as [|x l IH]; intros Hnone; [reflexivity|].
  rewrite filter_cons_False by (apply Hnone; left).
  apply IH. intros y Hy. apply Hnone. right. exact Hy.
Qed.

Lemma labels_of_group (label : string) (group rest : list TrendItem) :
  (forall trend, trend ∈ group -> source trend = label) -> group <> [] ->
  labels (group ++ rest)
  = label :: filter (fun other => other <> label) (labels rest).
Proof.
  induction group as [|trend group IH]; intros Hsource Hfull; [contradiction|].
  assert (Htrend : source trend = label) by (apply Hsource; left).
  cbn [app labels]. rewrite Htrend. f_equal.
  destruct group as [|next group]; [reflexivity|].
  rewrite IH; [|intros t Ht; apply Hsource; right; exact Ht|discriminate].
  rewrite filter_cons_False by (intros Hne; apply Hne; reflexivity).
  apply filter_all. intros other Hin.
  apply list_elem_of_filter in Hin as [Hne _]. exact Hne.
Qed.

Lemma group_of_sources (label : string) (trends : list TrendItem)
    (trend : TrendItem) :
  trend ∈ group_of label trends -> source trend = label.
Proof. unfold group_of. rewrite list_elem_of_filter. intros [Hsource _]. exact Hsource. Qed.

Lemma labels_of_groups (trends : list TrendItem) (keys : list string) :
  NoDup keys -> (forall label, label ∈ keys -> label ∈ labels trends) ->
  labels (concat (map (fun label => group_of label trends) keys)) = keys.
Proof.
  induction 1 as [|label keys Hnew Hkeys IH]; intros Hknown; [reflexivity|].
  cbn [map concat].
  rewrite (labels_of_group label).
  - rewrite IH by (intros l Hl; apply Hknown; right; exact Hl).
    f_equal. apply filter_all. intros other Hin ->. contradiction.
  - intros trend. apply group_of_sources.
  - apply group_of_known. apply Hknown. left.
Qed.

Lemma group_of_groups (trends : list TrendItem) (label : string)
    (keys : list string) :
  NoDup keys ->
  group_of label (concat (map (fun key => group_of key trends) keys))
  = if decide (label ∈ keys) then group_of label trends else [].
Proof.
  induction 1 as [|key keys Hnew Hkeys IH]; [reflexivity|].
  cbn [map concat]. unfold group_of at 1. rewrite filter_app.
  fold (group_of label (concat (map (fun key => group_of key trends) keys))).
  rewrite IH. destruct (decide (key = label)) as [->|Hne].
  - rewrite (decide_True (P := label ∈ label :: keys)) by left.
    rewrite (decide_False (P := label ∈ keys)) by exact Hnew.
    rewrite app_nil_r. apply filter_all. intros trend. apply group_of_sources.
  - rewrite (filter_none (fun trend => source trend = label))
      by (intros trend Hin Hsource; apply group_of_sources in Hin; congruence).
    cbn [app]. destruct (decide (label ∈ keys)) as [Hin|Hnin].
    + rewrite decide_True by (right; exact Hin). reflexivity.
    + rewrite decide_False; [reflexivity|].
      intros Hin. apply elem_of_cons in Hin as [Heq|Hin]; [congruence|contradiction].
Qed.

(** Grouping is idempotent: items that are already laid out group after
    group give the digest of the items as they came. *)
Theorem digest_of_regrouped (self : TrendAnalyzer.t) (trends : list TrendItem) :
  labels (regrouped trends) = labels trends
  /\ (forall label, group_of label (regrouped trends) = group_of label trends)
  /\ _format_trends self (regrouped trends) = _format_trends self trends.
Proof.
  assert (Hlabels : labels (regrouped trends) = labels trends).
  { apply labels_of_groups; [apply labels_NoDup|intros l Hl; exact Hl]. }
  assert (Hgroups : forall label,
             group_of label (regrouped trends) = group_of label trends).
  { intros label. unfold regrouped.
    rewrite group_of_groups by apply labels_NoDup.
    destruct (decide (label ∈ labels trends)) as [_|Hnew]; [reflexivity|].
    symmetry. apply group_of_unknown. exact Hnew. }
  split; [exact Hlabels|]. split; [exact Hgroups|].
  unfold _format_trends.
  rewrite !format_lines_digest, (digest_by_groups _ _ Hlabels Hgroups).
  reflexivity.
Qed.

End DigestMore.

(** ** TrendAnalyzer.analyze_and_generate *)

Section Generation.
Import TrendAnalyzer PromptSpec ParseSpec.

Lemma append_assoc (a b c : string) : (a +:+ b) +:+ c = a +:+ (b +:+ c).
Proof.
  induction a as [|x a IH]; [reflexivity|].
  change ((String x a +:+ b) +:+ c) with (String x ((a +:+ b) +:+ c)).
  rewrite IH. reflexivity.
Qed.

(** The prompt is the digest between two texts that depend on the topic
    alone. *)
Lemma prompt_embeds_digest (topic digest : string) :
  SYSTEM_PROMPT_TEMPLATE topic +:+ nl +:+ nl +:+ USER_PROMPT_TEMPLATE topic digest
  = prompt_prefix topic +:+ digest +:+ prompt_suffix topic.
Proof.
  unfold prompt_prefix, prompt_suffix, USER_PROMPT_TEMPLATE, join.
  cbn [String.concat]. rewrite !append_assoc. reflexivity.
Qed.

(** What the parse step gives does not depend on the state it runs in,
    and it leaves the state as it is. *)
Lemma parse_response_pure {S} (text : string) (loaded : outcome json) (s : S) :
  parse_response text loaded s
  = (fst (parse_response (S := unit) text loaded tt), s).
Proof.
  unfold parse_response, try_except, bind, eval, raise.
  destruct loaded as [decoded|e].
  - destruct (AnalysisResult_of decoded) as [result|e]; [reflexivity|].
    cbn [fst]. destruct (isinstance e [JSONDecodeError; TypeError]); reflexivity.
  - cbn [fst]. destruct (isinstance e [JSONDecodeError; TypeError]); reflexivity.
Qed.

Lemma generation_calls_the_model_facts (self : TrendAnalyzer.t)
    (trends : list TrendItem)
    (generate_content : GenerateRequest -> outcome string)
    (json_loads : string -> outcome json) (events : list event) :
  analyze_and_generate self trends generate_content json_loads events
  = (match generate_content
             (request_for (topic self) (_format_trends self trends)) with
     | Raise e => Raise e
     | Return text =>
         fst (parse_response (S := unit) text (json_loads text) tt)
     end,
     events ++ [GenerateContent
                  (request_for (topic self) (_format_trends self trends))]).
Proof.
  unfold analyze_and_generate, request_for.
  rewrite prompt_embeds_digest. unfold bind, emit, modify, eval.
  destruct (generate_content _) as [text|e]; [|reflexivity].
  apply parse_response_pure.
Qed.

(** Every generation calls the language model exactly once, with the fixed
    settings and a prompt in which the digest of the items stands between
    two texts that depend on the topic alone.  An exception of that call
    leaves [analyze_and_generate] as it is, not wrapped as a parse failure,
    and nothing is decoded; otherwise the outcome is that of the parse step
    on the text the model returned. *)
Theorem generation_calls_the_model_once (self : TrendAnalyzer.t)
    (trends : list TrendItem)
    (generate_content : GenerateRequest -> outcome string)
    (json_loads : string -> outcome json) (events : list event) :
  let request := request_for (topic self) (_format_trends self trends) in
  analyze_and_generate self trends generate_content json_loads events
  = (match generate_content request with
     | Raise e => Raise e
     | Return text =>
         fst (parse_response (S := unit) text (json_loads text) tt)
     end,
     events ++ [GenerateContent request]).
Proof. cbv zeta. apply generation_calls_the_model_facts. Qed.

End Generation.

(** ** One round of the service *)

Section Round.
Import TrendScraper TrendAnalyzer DailyIdeaService PromptSpec RoundSpec.

(** A round, case by case. *)
Lemma round_run (self : DailyIdeaService.t) (w : world) (chat : string)
    (events0 : list event) :
  let collected :=
    get_all_trends (scraper self) (await_fetch w) (mkFrame [] [] 0) in
  let opening :=
    events0 ++ [Info "Starting trend collection..."]
    ++ map Printed (stdout (snd collected)) in
  _generate_and_send_ideas self w chat events0
  = match fst collected with
    | Raise e => (Raise e, opening)
    | Return [] =>
        (deliver w (SendError chat NOTHING_COLLECTED),
         opening ++ [Info "Collected 0 trend items";
                     SendError chat NOTHING_COLLECTED])
    | Return trends =>
        let before :=
          opening
          ++ [Info ("Collected " +:+ pretty (length trends) +:+ " trend items");
              Info "Analyzing trends and generating ideas...";
              GenerateContent
                (request_for (topic (analyzer self))
                   (_format_trends (analyzer self) trends))] in
        match analysis_of self w trends with
        | Raise e => (Raise e, before)
        | Return result =>
            match deliver w (SendIdeas chat result) with
            | Return _ =>
                (Return tt,
                 before ++ [SendIdeas chat result; Info "Ideas sent successfully"])
            | Raise e => (Raise e, before ++ [SendIdeas chat result])
            end
        end
    end.
Proof.
  cbv zeta. unfold _generate_and_send_ideas, await_scraper, bot_send, emit,
    bind, modify, eval.
  destruct (get_all_trends (scraper self) (await_fetch w) (mkFrame [] [] 0))
    as [[trends|e] f]; cbn [fst snd]; [|rewrite <- app_assoc; reflexivity].
  destruct trends as [|trend trends].
  - cbn [truthy truthy_list negb]. rewrite <- !app_assoc. reflexivity.
  - cbn [truthy truthy_list negb].
    rewrite generation_calls_the_model_facts. unfold analysis_of.
    destruct (generate_content w _) as [text|e].
    + destruct (fst (parse_response text (json_loads w text) tt)) as [result|e].
      * destruct (deliver w (SendIdeas chat result)) as [[]|e];
          rewrite <- !app_assoc; reflexivity.
      * rewrite <- !app_assoc. reflexivity.
    + rewrite <- !app_assoc. reflexivity.
Qed.

Lemma bot_messages_app (a b : list event) :
  bot_messages (a ++ b) = bot_messages a + bot_messages b.
Proof. unfold bot_messages. rewrite List.filter_app, length_app. reflexivity. Qed.

Lemma model_calls_app (a b : list event) :
  model_calls (a ++ b) = model_calls a + model_calls b.
Proof. unfold model_calls. rewrite List.filter_app, length_app. reflexivity. Qed.

Lemma printed_is_silent (lines : list string) :
  bot_messages (map Printed lines) = 0 /\ model_calls (map Printed lines) = 0.
Proof.
  induction lines as [|line lines [IHbot IHmodel]]; [split; reflexivity|].
  split; [exact IHbot|exact IHmodel].
Qed.

(** Whatever the sources, the model and the bot do, a round calls the
    language model at most once and hands at most one message to the bot;
    a round that returns has handed over exactly one message, and a round
    that did not call the model has handed over no ideas. *)
Theorem round_contacts_each_party_at_most_once (self : DailyIdeaService.t)
    (w : world) (chat : string) (events0 : list event) :
  exists added,
    snd (_generate_and_send_ideas self w chat events0) = events0 ++ added
    /\ model_calls added <= 1
    /\ bot_messages added <= 1
    /\ (fst (_generate_and_send_ideas self w chat events0) = Return tt ->
        bot_messages added = 1)
    /\ (forall to result,
          In (SendIdeas to result) added ->
          to = chat /\ model_calls added = 1
          /\ analysis_of self w
               (match fst (get_all_trends (scraper self) (await_fetch w)
                             (mkFrame [] [] 0)) with
                | Return trends => trends
                | Raise _ => []
                end) = Return result).
Proof.
  rewrite round_run. cbv zeta.
  destruct (get_all_trends (scraper self) (await_fetch w) (mkFrame [] [] 0))
    as [[trends|e] f]; cbn [fst snd].
  - set (printed := map Printed (stdout f)).
    assert (Hin_printed : forall to result, ~ In (SendIdeas to result) printed).
    { intros to result Hin. apply in_map_iff in Hin as (line & Hline & _).
      discriminate. }
    destruct (printed_is_silent (stdout f)) as [Hbot Hmodel]. fold printed in Hbot, Hmodel.
    destruct trends as [|trend trends].
    + eexists. split; [rewrite <- !app_assoc; reflexivity|].
      rewrite !model_calls_app, !bot_messages_app, Hbot, Hmodel.
      split; [cbn; lia|]. split; [cbn; lia|]. split; [intros _; reflexivity|].
      intros to result Hin. exfalso.
      apply in_app_iff in Hin as [Hin|Hin]; [destruct Hin as [Hin|[]]; discriminate|].
      apply in_app_iff in Hin as [Hin|Hin]; [exact (Hin_printed _ _ Hin)|].
      destruct Hin as [Hin|[Hin|[]]]; discriminate.
    + destruct (analysis_of self w (trend :: trends)) as [result|e] eqn:Hanalysis.
      * destruct (deliver w (SendIdeas chat result)) as [[]|e]; cbn [fst snd].
        -- eexists. split; [rewrite <- !app_assoc; reflexivity|].
           rewrite !model_calls_app, !bot_messages_app, Hbot, Hmodel.
           split; [cbn; lia|]. split; [cbn; lia|]. split; [intros _; reflexivity|].
           intros to result0 Hin.
           apply in_app_iff in Hin as [Hin|Hin];
             [destruct Hin as [Hin|[]]; discriminate|].
           apply in_app_iff in Hin as [Hin|Hin]; [destruct (Hin_printed _ _ Hin)|].
           apply in_app_iff in Hin as [Hin|Hin];
             [destruct Hin as [Hin|[Hin|[Hin|[]]]]; discriminate|].
           destruct Hin as [Hin|[Hin|[]]]; [|discriminate].
           injection Hin as <- <-. split; [reflexivity|]. split; [reflexivity|].
           reflexivity.
        -- eexists. split; [rewrite <- !app_assoc; reflexivity|].
           rewrite !model_calls_app, !bot_messages_app, Hbot, Hmodel.
           split; [cbn; lia|]. split; [cbn; lia|]. split; [discriminate|].
           intros to result0 Hin.
           apply in_app_iff in Hin as [Hin|Hin];
             [destruct Hin as [Hin|[]]; discriminate|].
           apply in_app_iff in Hin as [Hin|Hin]; [destruct (Hin_printed _ _ Hin)|].
           apply in_app_iff in Hin as [Hin|Hin];
             [destruct Hin as [Hin|[Hin|[Hin|[]]]]; discriminate|].
           destruct Hin as [Hin|[]].
           injection Hin as <- <-. split; [reflexivity|]. split; [reflexivity|].
           reflexivity.
      * eexists. split; [rewrite <- !app_assoc; reflexivity|].
        rewrite !model_calls_app, !bot_messages_app, Hbot, Hmodel.
        split; [cbn; lia|]. split; [cbn; lia|]. split; [discriminate|].
        intros to result Hin. exfalso.
        apply in_app_iff in Hin as [Hin|Hin];
          [destruct Hin as [Hin|[]]; discriminate|].
        apply in_app_iff in Hin as [Hin|Hin]; [exact (Hin_printed _ _ Hin)|].
        destruct Hin as [Hin|[Hin|[Hin|[]]]]; discriminate.
  - set (printed := map Printed (stdout f)).
    destruct (printed_is_silent (stdout f)) as [Hbot Hmodel]. fold printed in Hbot, Hmodel.
    eexists. split; [rewrite <- ?app_assoc; reflexivity|].
    rewrite !model_calls_app, !bot_messages_app, Hbot, Hmodel.
    split; [cbn; lia|]. split; [cbn; lia|]. split; [discriminate|].
    intros to result Hin. exfalso.
    apply in_app_iff in Hin as [Hin|Hin];
      [destruct Hin as [Hin|[]]; discriminate|].
    apply in_map_iff in Hin as (line & Hline & _). discriminate.
Qed.

End Round.

(** ** The callers of a round *)

Section HandlersMore.
Import DailyIdeaService Handlers.

(** The scheduled job lets no exception of its round out: when the round
    raises, the job logs the error, hands one message with the error text to
    the bot, and returns; it raises only when that last message cannot be
    delivered.  When the round returns, the job adds nothing to it. *)
Theorem scheduled_job_reports_failures (self : DailyIdeaService.t) (w : world)
    (now : string) (entries0 : list entry) :
  let round := _generate_and_send_ideas self w (chat_id self) [] in
  let report e :=
    SendError (chat_id self) ("스케줄 작업 실패: " +:+ exc_str e) in
  let opening :=
    entries0 ++ [Of (Info ("Running scheduled job at " +:+ now))]
    ++ map Of (snd round) in
  _scheduled_job self w now entries0
  = match fst round with
    | Return _ => (Return tt, opening)
    | Raise e =>
        (deliver w (report e),
         opening ++ [Error ("Scheduled job failed: " +:+ exc_str e);
                     Of (report e)])
    end.
Proof.
  cbv zeta. unfold _scheduled_job, try_except, bind, lift, log_error, bot_send,
    emit, modify, eval.
  cbn [map app].
  destruct (_generate_and_send_ideas self w (chat_id self) []) as [[[]|e] events];
    cbn [fst snd].
  - rewrite <- !app_assoc. reflexivity.
  - cbn [isinstance existsb issubclass orb]. unfold bind.
    destruct (deliver w _); cbn [map app]; rewrite <- ?app_assoc; reflexivity.
Qed.

(** The handler of [/idea].  Without a chat it does nothing.  With one it
    first answers that the collection is running, and when that answer
    cannot be sent the handler raises and no round is started; otherwise it
    runs a round for that chat and, as the scheduled job does, turns an
    exception of the round into a logged error and one message with the
    error text. *)
Theorem idea_handler_reports_failures (self : DailyIdeaService.t) (w : world)
    (reply : string -> string -> outcome unit) (effective_chat : option string)
    (entries0 : list entry) :
  let waiting := "🔍 트렌드 수집 중... 잠시만 기다려주세요." in
  handle_idea self w reply effective_chat entries0
  = match effective_chat with
    | None => (Return tt, entries0)
    | Some chat =>
        match reply chat waiting with
        | Raise e => (Raise e, entries0 ++ [Reply chat waiting])
        | Return _ =>
            let round := _generate_and_send_ideas self w chat [] in
            let opening :=
              entries0 ++ [Reply chat waiting] ++ map Of (snd round) in
            match fst round with
            | Return _ => (Return tt, opening)
            | Raise e =>
                (deliver w (SendError chat (exc_str e)),
                 opening ++ [Error ("Error generating ideas: " +:+ exc_str e);
                             Of (SendError chat (exc_str e))])
            end
        end
    end.
Proof.
  cbv zeta. destruct effective_chat as [chat|]; [|reflexivity].
  unfold handle_idea, try_except, bind, lift, log_error, bot_send,
    emit, modify, eval.
  destruct (reply chat _) as [[]|e]; [|reflexivity].
  destruct (_generate_and_send_ideas self w chat []) as [[[]|e] events];
    cbn [fst snd].
  - rewrite <- !app_assoc. reflexivity.
  - cbn [isinstance existsb issubclass orb]. unfold bind.
    destruct (deliver w _); cbn [map app]; rewrite <- ?app_assoc; reflexivity.
Qed.

End HandlersMore.

(** ** The start of the program *)

Section BootstrapMore.
Import Bootstrap BootstrapSpec RegistrySpec TextSpec.

(** [main] as far as the scraper of its service *)
Lemma main_run (env : environ) :
  let credential := SELA_API_KEY env in
  let identifiers := requested env in
  main env
  = Return
      match first_missing env with
      | Some variable => Exit (variable +:+ " is required")
      | None =>
          Service
            {| DailyIdeaService.chat_id := default "" (TELEGRAM_CHAT_ID env);
               DailyIdeaService.scraper :=
                 TrendScraper.mk credential identifiers ∅
                   (omap (live credential ∅ (default "" (TWITTER_QUERIES env)))
                      identifiers);
               DailyIdeaService.analyzer :=
                 TrendAnalyzer.mk (default "AI agent" (IDEA_TOPIC env)) |}
            (default "09:00" (DAILY_SCHEDULE_TIME env))
            (concat (map (warning credential) identifiers))
      end.
Proof.
  cbv zeta. unfold main, first_missing, requested.
  destruct (TELEGRAM_BOT_TOKEN env) as [[|c1 s1]|]; try reflexivity.
  destruct (TELEGRAM_CHAT_ID env) as [[|c2 s2]|]; try reflexivity.
  destruct (GEMINI_API_KEY env) as [[|c3 s3]|]; try reflexivity.
  cbn [truthy truthy_optional truthy_str negb].
  unfold TrendScraper.__init__, TrendScraper._init_scrapers, bind,
    modify_locals, modify, get_locals.
  cbn [locals stdout sent TrendScraper.enabled_scrapers default].
  rewrite init_loop
    by (intros identifier cls _ _; rewrite lookup_empty; apply accepts_no_kwargs).
  reflexivity.
Qed.

(** No source is live for identifiers that are all unknown. *)
Lemma unknown_identifiers_build_nothing (credential : option string)
    (configs : gmap string kwargs) (env_queries : string)
    (identifiers : list string) :
  Forall (fun identifier => identifier <> "twitter" /\ identifier <> "github")
    identifiers ->
  omap (live credential configs env_queries) identifiers = [].
Proof.
  induction 1 as [|identifier identifiers [Htwitter Hgithub] _ IH];
    [reflexivity|].
  cbn [omap list_omap]. unfold live at 1, resolve.
  apply String.eqb_neq in Htwitter, Hgithub. rewrite Htwitter, Hgithub.
  exact IH.
Qed.

(** What [ENABLED_SCRAPERS] selects, once the three required variables are
    there.  [main] cuts the value at its commas and hands the registry the
    names of the pieces: the pieces that are not blank, without the
    whitespace at their ends, in their order.  When no piece has a name,
    [main] hands over [None] (the variable is unset or empty) or the empty
    list (it holds only commas and whitespace), and [TrendScraper.__init__]
    takes [twitter, github] in both cases: the identifiers the scraper
    holds are never an empty list.  Identifiers that are all unknown leave
    the service without any source. *)
Theorem requested_identifiers_are_never_empty (env : environ) :
  first_missing env = None ->
  let value := default "" (ENABLED_SCRAPERS env) in
  let parts := split "," value in
  exists service schedule_time printed,
    main env = Return (Service service schedule_time printed)
    /\ pieces_of value parts
    /\ (if forallb blank parts
        then enabled_scrapers_of value
             = (if truthy value then Some [] else None)
             /\ TrendScraper.enabled_scrapers (DailyIdeaService.scraper service)
                = ["twitter"; "github"]
        else enabled_scrapers_of value
             = Some (TrendScraper.enabled_scrapers
                       (DailyIdeaService.scraper service))
             /\ names_of parts
                  (TrendScraper.enabled_scrapers
                     (DailyIdeaService.scraper service)))
    /\ TrendScraper.enabled_scrapers (DailyIdeaService.scraper service) <> []
    /\ (Forall (fun identifier =>
                  identifier <> "twitter" /\ identifier <> "github")
           (TrendScraper.enabled_scrapers (DailyIdeaService.scraper service)) ->
        TrendScraper._scrapers (DailyIdeaService.scraper service) = []).
Proof.
  intros Hmissing. cbv zeta.
  pose proof (main_run env) as Hmain. cbv zeta in Hmain.
  rewrite Hmissing in Hmain.
  eexists _, _, _. split; [exact Hmain|].
  cbn [DailyIdeaService.scraper TrendScraper.enabled_scrapers
       TrendScraper._scrapers].
  split; [apply split_pieces|].
  split; [|split; [|apply unknown_identifiers_build_nothing]].
  - unfold requested, enabled_scrapers_of.
    destruct (default "" (ENABLED_SCRAPERS env)) as [|c value];
      [split; reflexivity|].
    change (truthy (String c value)) with true. cbv iota.
    pose proof (selected_names (split "," (String c value))) as Hnames.
    cbv zeta in Hnames.
    destruct (forallb blank (split "," (String c value))).
    + rewrite Hnames. split; reflexivity.
    + destruct Hnames as [Hsome Hnames].
      destruct (filter (fun name => truthy name = true)
                  (map strip (split "," (String c value))))
        as [|identifier identifiers]; [congruence|].
      split; [reflexivity|exact Hnames].
  - unfold requested, enabled_scrapers_of.
    destruct (truthy (default "" (ENABLED_SCRAPERS env))); [|discriminate].
    cbn [or_default].
    destruct (filter _ _) as [|identifier identifiers]; discriminate.
Qed.

(** [main], up to the construction of the scraper of its service, either
    exits or goes on.  It exits, after logging which one, when one of the
    three required variables is unset or empty, the bot token being looked at
    first, then the chat id, then the key of the language model.  Otherwise
    the service it builds has the sources the registry resolves for the
    requested identifiers and the credential [SELA_API_KEY], and the
    warnings of the registry are what was printed. *)
Theorem main_exits_or_starts (env : environ) :
  let credential := SELA_API_KEY env in
  let identifiers := requested env in
  main env
  = Return
      match first_missing env with
      | Some variable => Exit (variable +:+ " is required")
      | None =>
          Service
            {| DailyIdeaService.chat_id := default "" (TELEGRAM_CHAT_ID env);
               DailyIdeaService.scraper :=
                 TrendScraper.mk credential identifiers ∅
                   (omap (live credential ∅ (default "" (TWITTER_QUERIES env)))
                      identifiers);
               DailyIdeaService.analyzer :=
                 TrendAnalyzer.mk (default "AI agent" (IDEA_TOPIC env)) |}
            (default "09:00" (DAILY_SCHEDULE_TIME env))
            (concat (map (warning credential) identifiers))
      end.
Proof. exact (main_run env). Qed.

End BootstrapMore.

(** ** The message of the ideas *)

Section Message.
Import IdeaBot.




End Message.

(** ** The further properties at concrete inputs *)

Lemma fetch_is_capped_witness :
  exists trends,
    fst (TwitterScraper.fetch Scenarios.three_queries Scenarios.flaky_client
           (mkFrame [] [] 0)) = Return trends
    /\ length trends <= 3 * 5.
Proof.
  apply (fetch_is_capped Scenarios.three_queries Scenarios.flaky_client
           (mkFrame [] [] 0)).
  vm_compute. discriminate.
Defined.

Lemma one_bad_result_empties_the_fetch_witness :
  exists first,
    GitHubScraper.fetch (GitHubScraper.mk None) "2024-01-01"
      MoreScenarios.half_broken_client (mkFrame tt [] 0)
    = (Return [], mkFrame tt ["[GitHub] Error: '" +:+ first +:+ "'"] 1).
Proof.
  apply (one_bad_result_empties_the_fetch (GitHubScraper.mk None) "2024-01-01"
           MoreScenarios.half_broken_client (mkFrame tt [] 0)
           MoreScenarios.half_broken_response MoreScenarios.half_broken_found
           MoreScenarios.broken_repo "html_url").
  - reflexivity.
  - reflexivity.
  - vm_compute. right. left.
  - reflexivity.
Defined.

Lemma overrides_reach_the_constructor_witness :
  TrendScraper.__init__ (Some "key") (Some ["twitter"; "github"])
    (Some MoreScenarios.twitter_overrides) EmptyString
    MoreScenarios.blank_scraper
  = (Return tt,
     mkFrame
       (TrendScraper.mk (Some "key") ["twitter"; "github"]
          MoreScenarios.twitter_overrides
          [Twitter (TwitterScraper.mk (Some "key") ["rust"] 2);
           GitHub (GitHubScraper.mk (Some "key"))])
       [] 0).
Proof.
  rewrite (overrides_reach_the_constructor (Some "key")
             (Some ["twitter"; "github"]) MoreScenarios.twitter_overrides
             EmptyString MoreScenarios.blank_scraper).
  - vm_compute. reflexivity.
  - intros identifier cls Hin Hcls.
    change (or_default (Some ["twitter"; "github"]) DEFAULT_SCRAPERS)
      with ["twitter"; "github"] in Hin.
    apply elem_of_cons in Hin as [->|Hin].
    + vm_compute in Hcls. injection Hcls as <-. vm_compute. reflexivity.
    + apply elem_of_cons in Hin as [->|Hin]; [|inversion Hin].
      vm_compute in Hcls. injection Hcls as <-. vm_compute. reflexivity.
Defined.

Lemma rejected_override_stops_the_registry_witness :
  exists e,
    exc_type e = TypeError
    /\ TrendScraper.__init__ None (Some (["twitter"] ++ "github" :: ["github"]))
         (Some MoreScenarios.github_overrides) EmptyString
         MoreScenarios.blank_scraper
       = (Raise e,
          mkFrame
            (TrendScraper.mk None ["twitter"; "github"; "github"]
               MoreScenarios.github_overrides [])
            ["Warning: 'twitter' requires Sela API key, skipping"] 0).
Proof.
  destruct (rejected_override_stops_the_registry None ["twitter"] ["github"]
              "github" GitHubScraper_ MoreScenarios.github_overrides
              EmptyString MoreScenarios.blank_scraper)
    as (e & Htype & _ & Hrun).
  - intros earlier c Hin Hcls.
    apply elem_of_cons in Hin as [->|Hin]; [|inversion Hin].
    vm_compute in Hcls. discriminate.
  - reflexivity.
  - vm_compute. reflexivity.
  - exists e. split; [exact Htype|]. rewrite Hrun. reflexivity.
Defined.

Lemma digest_ignores_interleaving_witness :
  TrendAnalyzer._format_trends (TrendAnalyzer.mk "AI agent")
    MoreScenarios.interleaved
  = TrendAnalyzer._format_trends (TrendAnalyzer.mk "AI agent")
      MoreScenarios.grouped_by_hand.
Proof.
  apply (digest_ignores_interleaving (TrendAnalyzer.mk "AI agent")
           MoreScenarios.interleaved MoreScenarios.grouped_by_hand).
  - vm_compute. reflexivity.
  - intros label. unfold DigestSpec.group_of, MoreScenarios.interleaved,
      MoreScenarios.grouped_by_hand, MoreScenarios.item_of.
    destruct (decide ("A" = label)) as [HA|HA];
      destruct (decide ("B" = label)) as [HB|HB];
      try (subst label; discriminate);
      repeat first
        [ rewrite filter_cons_True by (cbn; assumption)
        | rewrite filter_cons_False by (cbn; assumption) ];
      reflexivity.
Defined.

Lemma requested_identifiers_are_never_empty_witness :
  exists service schedule_time printed,
    Bootstrap.main EnvScenarios.blank_selection
    = Return (Bootstrap.Service service schedule_time printed)
    /\ Bootstrap.enabled_scrapers_of " ,　" = Some []
    /\ TrendScraper.enabled_scrapers (DailyIdeaService.scraper service)
       = ["twitter"; "github"].
Proof.
  destruct (requested_identifiers_are_never_empty EnvScenarios.blank_selection
              eq_refl)
    as (service & schedule_time & printed & Hmain & _ & Hselected & _).
  exists service, schedule_time, printed. split; [exact Hmain|].
  change (forallb TextSpec.blank
            (split ","
               (default "" (Bootstrap.ENABLED_SCRAPERS
                              EnvScenarios.blank_selection))))
    with true in Hselected.
  exact Hselected.
Defined.

Lemma builtin_sources_never_fail_witness :
  fst (Tasks.get_all_trends TaskScenarios.both_sources
         (fun _ => TaskScenarios.unreachable) TaskScenarios.both_failed
         (mkFrame [] [] 0))
  = Return []
  /\ stdout (snd (Tasks.get_all_trends TaskScenarios.both_sources
                    (fun _ => TaskScenarios.unreachable)
                    TaskScenarios.both_failed (mkFrame [] [] 0)))
     = TaskScenarios.both_failed.
Proof.
  destruct (builtin_sources_never_fail TaskScenarios.both_sources
              (fun _ => TaskScenarios.unreachable) TaskScenarios.both_failed
              (mkFrame [] [] 0))
    as (_ & Hresult & Hprinted & _).
  - apply (Tasks.merge_line
             [["[Twitter/X] Error searching 'a': timed out"]]
             "[GitHub] Error: no route" [] []).
    apply (Tasks.merge_line []
             "[Twitter/X] Error searching 'a': timed out" [] [[]]).
    apply Tasks.merge_done. repeat constructor.
  - split; [rewrite Hresult|rewrite Hprinted]; reflexivity.
Defined.

